(** * Adafruit MAX31856 thermocouple driver: shallow embedding and properties

    The driver of [Adafruit_MAX31856.cpp] is embedded as a state-passing
    program over an abstract platform (the SPI transport of
    [Adafruit_SPIDevice], [millis] and [delay]).  Fixed-width C integers are
    integers of [Z] with the wrap-around written at every narrowing; bytes on
    the wire are [Byte.byte]; the [float] results are exact dyadic rationals
    (see [cfloat]). *)

From Stdlib Require Import ZArith QArith List Bool Lia.
From Stdlib Require Import Btauto.
From coqutil Require Import Byte Z.bitblast.
Import ListNotations.
Local Open Scope Z_scope.

(** ** Fixed-width integers *)

Module CInt.

(** Conversion to [uint8_t], [uint16_t], [uint32_t]. *)
Definition wrap8 (z : Z) : Z := z mod 2 ^ 8.
Definition wrap16 (z : Z) : Z := z mod 2 ^ 16.
Definition wrap32 (z : Z) : Z := z mod 2 ^ 32.

(** Conversion to [int16_t] and [int32_t] (two's complement). *)
Definition to_int16 (z : Z) : Z := (z + 2 ^ 15) mod 2 ^ 16 - 2 ^ 15.
Definition to_int32 (z : Z) : Z := (z + 2 ^ 31) mod 2 ^ 32 - 2 ^ 31.

(** A [uint8_t] held in a register or buffer, read as an integer. *)
Definition u8 (b : byte) : Z := byte.unsigned b.

(** Passing an integer where a [uint8_t] is expected. *)
Definition to_u8 (z : Z) : byte := byte.of_Z z.

End CInt.
Import CInt.

(** ** Constants of [Adafruit_MAX31856.h] *)

Definition MAX31856_CR0_REG : Z := 0x00.
Definition MAX31856_CR0_AUTOCONVERT : Z := 0x80.
Definition MAX31856_CR0_1SHOT : Z := 0x40.
Definition MAX31856_CR0_OCFAULT1 : Z := 0x20.
Definition MAX31856_CR0_OCFAULT0 : Z := 0x10.
Definition MAX31856_CR0_CJ : Z := 0x08.
Definition MAX31856_CR0_FAULT : Z := 0x04.
Definition MAX31856_CR0_FAULTCLR : Z := 0x02.

Definition MAX31856_CR1_REG : Z := 0x01.
Definition MAX31856_MASK_REG : Z := 0x02.
Definition MAX31856_CJHF_REG : Z := 0x03.
Definition MAX31856_CJLF_REG : Z := 0x04.
Definition MAX31856_LTHFTH_REG : Z := 0x05.
Definition MAX31856_LTHFTL_REG : Z := 0x06.
Definition MAX31856_LTLFTH_REG : Z := 0x07.
Definition MAX31856_LTLFTL_REG : Z := 0x08.
Definition MAX31856_CJTO_REG : Z := 0x09.
Definition MAX31856_CJTH_REG : Z := 0x0A.
Definition MAX31856_CJTL_REG : Z := 0x0B.
Definition MAX31856_LTCBH_REG : Z := 0x0C.
Definition MAX31856_LTCBM_REG : Z := 0x0D.
Definition MAX31856_LTCBL_REG : Z := 0x0E.
Definition MAX31856_SR_REG : Z := 0x0F.

(** ** Enumerations *)

Inductive max31856_noise_filter_t : Type :=
| MAX31856_NOISE_FILTER_50HZ
| MAX31856_NOISE_FILTER_60HZ.

Inductive max31856_thermocoupletype_t : Type :=
| MAX31856_TCTYPE_B
| MAX31856_TCTYPE_E
| MAX31856_TCTYPE_J
| MAX31856_TCTYPE_K
| MAX31856_TCTYPE_N
| MAX31856_TCTYPE_R
| MAX31856_TCTYPE_S
| MAX31856_TCTYPE_T
| MAX31856_VMODE_G8
| MAX31856_VMODE_G32.

(** The enumerators' values.  A C object of the enumeration type holds an
    integer, which need not be one of them: the driver's functions take and
    return the integer. *)
Definition tctype_code (t : max31856_thermocoupletype_t) : Z :=
  match t with
  | MAX31856_TCTYPE_B => 0x0 (* 0b0000 *)
  | MAX31856_TCTYPE_E => 0x1 (* 0b0001 *)
  | MAX31856_TCTYPE_J => 0x2 (* 0b0010 *)
  | MAX31856_TCTYPE_K => 0x3 (* 0b0011 *)
  | MAX31856_TCTYPE_N => 0x4 (* 0b0100 *)
  | MAX31856_TCTYPE_R => 0x5 (* 0b0101 *)
  | MAX31856_TCTYPE_S => 0x6 (* 0b0110 *)
  | MAX31856_TCTYPE_T => 0x7 (* 0b0111 *)
  | MAX31856_VMODE_G8 => 0x8 (* 0b1000 *)
  | MAX31856_VMODE_G32 => 0xC (* 0b1100 *)
  end.

Definition all_tctypes : list max31856_thermocoupletype_t :=
  [MAX31856_TCTYPE_B; MAX31856_TCTYPE_E; MAX31856_TCTYPE_J; MAX31856_TCTYPE_K;
   MAX31856_TCTYPE_N; MAX31856_TCTYPE_R; MAX31856_TCTYPE_S; MAX31856_TCTYPE_T;
   MAX31856_VMODE_G8; MAX31856_VMODE_G32].

(** The enumerator an integer names, if any. *)
Definition tctype_of_code (c : Z) : option max31856_thermocoupletype_t :=
  find (fun t => tctype_code t =? c) all_tctypes.

Inductive max31856_conversion_mode_t : Type :=
| MAX31856_ONESHOT
| MAX31856_ONESHOT_NOWAIT
| MAX31856_CONTINUOUS.

Definition is_continuous (m : max31856_conversion_mode_t) : bool :=
  match m with MAX31856_CONTINUOUS => true | _ => false end.

Definition is_oneshot (m : max31856_conversion_mode_t) : bool :=
  match m with MAX31856_ONESHOT => true | _ => false end.

(** ** The C [float] values

    A finite [float] is kept as the rational number it denotes, [NAN] as
    [FNaN].  The results the driver computes are integers of at most 19 bits
    over a power of two (lemmas [thermocouple_of_raw_dyadic] and
    [readCJTemperature_dyadic]), hence exact in binary32 and binary64, and
    the operations that produce them (conversion of an integer, division by
    256.0, multiplication by 0.0078125) do not round.  The scaling by 16 of a
    threshold is exact as well. *)

Inductive cfloat : Type :=
| FNum (q : Q)
| FNaN.

(** [f] is the finite number [q]. *)
Definition float_is (f : cfloat) (q : Q) : Prop :=
  match f with
  | FNum x => x == q
  | FNaN => False
  end.

(** Conversion of a floating-point value to an integer type drops the
    fraction (rounds toward zero). *)
Definition Qtrunc (q : Q) : Z := Z.quot (Qnum q) (Z.pos (Qden q)).

(** ** The platform: SPI transport, time and the target's conversions *)

Class Platform (W : Type) : Type := {
  (** [Adafruit_SPIDevice::begin] *)
  spi_begin : W -> bool * W;
  (** [Adafruit_SPIDevice::write(buffer, len)], one framed transaction *)
  spi_write : list byte -> W -> W;
  (** [Adafruit_SPIDevice::write_then_read(wbuf, wlen, rbuf, rlen)] *)
  spi_write_then_read : list byte -> nat -> W -> list byte * W;
  (** [millis()] *)
  millis : W -> Z;
  (** [delay(ms)] *)
  delay : Z -> W -> W;
  (** what a [float] to [int16_t] conversion yields on this target where
      C++ leaves it undefined (the truncated value is not an [int16_t]) *)
  float_to_int16_undefined : Q -> Z
}.

(** What the driver does to the platform, in order. *)
Inductive bus_event : Type :=
| EvBegin (ok : bool)
| EvWrite (bytes : list byte)
| EvWriteThenRead (wr : list byte) (n : nat) (rd : list byte)
| EvDelay (ms : Z).

(** A log entry: the event and the conversion mode the handle stored when
    the event was issued. *)
Record log_entry : Type := LogEntry {
  at_mode : max31856_conversion_mode_t;
  ev : bus_event
}.

(** ** The driver object

    The fields of [class Adafruit_MAX31856]; [world] is the platform state
    behind [spi_dev] and the clock, [trace] the log of what was done to it
    (oldest first). *)

Record Driver (W : Type) : Type := MkDriver {
  initialized : bool;
  conversionMode : max31856_conversion_mode_t;
  world : W;
  trace : list log_entry
}.
Arguments MkDriver {W} _ _ _ _.
Arguments initialized {W} _.
Arguments conversionMode {W} _.
Arguments world {W} _.
Arguments trace {W} _.

(** The most recent event of a log. *)
Definition last_event (l : list log_entry) : option bus_event :=
  match rev l with
  | e :: _ => Some (ev e)
  | [] => None
  end.

(** ** State passing *)

Definition M (W A : Type) : Type := Driver W -> A * Driver W.

Definition ret {W A : Type} (a : A) : M W A := fun s => (a, s).

Definition bind {W A B : Type} (m : M W A) (k : A -> M W B) : M W B :=
  fun s => let (a, s') := m s in k a s'.

Declare Scope drv_scope.
Delimit Scope drv_scope with drv.
Notation "x <- m ;; k" := (bind m (fun x => k))
  (at level 61, m at next level, right associativity) : drv_scope.
Notation "m ;;; k" := (bind m (fun _ => k))
  (at level 61, right associativity) : drv_scope.
Local Open Scope drv_scope.

Section DriverCode.

Context {W : Type} {P : Platform W}.

(** *** Access to the object and the platform *)

Definition get_mode : M W max31856_conversion_mode_t :=
  fun s => (conversionMode s, s).

Definition set_mode (m : max31856_conversion_mode_t) : M W unit :=
  fun s => (tt, MkDriver (initialized s) m (world s) (trace s)).

Definition set_initialized (b : bool) : M W unit :=
  fun s => (tt, MkDriver b (conversionMode s) (world s) (trace s)).

Definition log (s : Driver W) (e : bus_event) : list log_entry :=
  trace s ++ [LogEntry (conversionMode s) e].

Definition dev_begin : M W bool :=
  fun s =>
    let (ok, w) := spi_begin (world s) in
    (ok, MkDriver (initialized s) (conversionMode s) w (log s (EvBegin ok))).

Definition dev_write (bytes : list byte) : M W unit :=
  fun s =>
    (tt, MkDriver (initialized s) (conversionMode s)
                  (spi_write bytes (world s)) (log s (EvWrite bytes))).

Definition dev_write_then_read (wr : list byte) (n : nat) : M W (list byte) :=
  fun s =>
    let (rd, w) := spi_write_then_read wr n (world s) in
    (rd, MkDriver (initialized s) (conversionMode s) w
                  (log s (EvWriteThenRead wr n rd))).

Definition dev_millis : M W Z :=
  fun s => (wrap32 (millis (world s)), s).

Definition dev_delay (ms : Z) : M W unit :=
  fun s =>
    (tt, MkDriver (initialized s) (conversionMode s)
                  (delay ms (world s)) (log s (EvDelay ms))).

(** *** Register access *)

(** [readRegisterN(addr, buffer, n)].  The caller's buffer is zeroed before
    the call, so a byte the transport does not deliver reads as zero. *)
Definition readRegisterN (addr : Z) (n : nat) : M W (list byte) :=
  let addr := wrap8 (Z.land addr 0x7F) in
  dev_write_then_read [to_u8 addr] n.

Definition buffer_at (buffer : list byte) (i : nat) : Z :=
  u8 (nth i buffer Byte.x00).

(** The big-endian number in the first two and the first three bytes of a
    buffer. *)
Definition big_endian16 (buffer : list byte) : Z :=
  buffer_at buffer 0 * 2 ^ 8 + buffer_at buffer 1.

Definition big_endian24 (buffer : list byte) : Z :=
  buffer_at buffer 0 * 2 ^ 16 + buffer_at buffer 1 * 2 ^ 8
  + buffer_at buffer 2.

(** The state after the transaction [readRegisterN addr n] delivered
    [bs] and left the platform in [w]. *)
Definition after_read (s : Driver W) (addr : Z) (n : nat)
           (bs : list byte) (w : W) : Driver W :=
  MkDriver (initialized s) (conversionMode s) w
           (log s (EvWriteThenRead [to_u8 (wrap8 (Z.land addr 0x7F))] n bs)).

Definition readRegister8 (addr : Z) : M W Z :=
  buffer <- readRegisterN addr 1 ;;
  ret (buffer_at buffer 0).

Definition readRegister16 (addr : Z) : M W Z :=
  buffer <- readRegisterN addr 2 ;;
  let r := buffer_at buffer 0 in
  let r := wrap16 (Z.shiftl r 8) in
  let r := wrap16 (Z.lor r (buffer_at buffer 1)) in
  ret r.

Definition readRegister24 (addr : Z) : M W Z :=
  buffer <- readRegisterN addr 3 ;;
  let r := buffer_at buffer 0 in
  let r := wrap32 (Z.shiftl r 8) in
  let r := wrap32 (Z.lor r (buffer_at buffer 1)) in
  let r := wrap32 (Z.shiftl r 8) in
  let r := wrap32 (Z.lor r (buffer_at buffer 2)) in
  ret r.

(** [writeRegister8(addr, data)]; both parameters are [uint8_t]. *)
Definition writeRegister8 (addr : Z) (data : Z) : M W unit :=
  let addr := wrap8 addr in
  let data := wrap8 data in
  let addr := wrap8 (Z.lor addr 0x80) in
  dev_write [to_u8 addr; to_u8 data].

(** The state after the transaction [writeRegister8 addr data]. *)
Definition after_write (s : Driver W) (addr data : Z) : Driver W :=
  MkDriver (initialized s) (conversionMode s)
           (spi_write [to_u8 (wrap8 (Z.lor (wrap8 addr) 0x80));
                       to_u8 (wrap8 data)] (world s))
           (log s (EvWrite [to_u8 (wrap8 (Z.lor (wrap8 addr) 0x80));
                            to_u8 (wrap8 data)])).

(** *** Updates of a [uint8_t] register image [t]

    The statements the operations below apply to the byte they read, named
    for the properties. *)

(** [t |= MAX31856_CR0_AUTOCONVERT; t &= ~MAX31856_CR0_1SHOT;] *)
Definition cr0_continuous (t : Z) : Z :=
  let t := wrap8 (Z.lor t MAX31856_CR0_AUTOCONVERT) in
  wrap8 (Z.land t (Z.lnot MAX31856_CR0_1SHOT)).

(** [t &= ~MAX31856_CR0_AUTOCONVERT; t |= MAX31856_CR0_1SHOT;] *)
Definition cr0_oneshot (t : Z) : Z :=
  let t := wrap8 (Z.land t (Z.lnot MAX31856_CR0_AUTOCONVERT)) in
  wrap8 (Z.lor t MAX31856_CR0_1SHOT).

(** [t &= 0xF0; t |= (uint8_t)type & 0x0F;] *)
Definition cr1_with_type (t type : Z) : Z :=
  let t := wrap8 (Z.land t 0xF0) in
  wrap8 (Z.lor t (Z.land (wrap8 type) 0x0F)).

(** [if (noiseFilter == MAX31856_NOISE_FILTER_50HZ) t |= 0x01; else t &= 0xfe;] *)
Definition cr0_with_filter (t : Z) (noiseFilter : max31856_noise_filter_t) : Z :=
  match noiseFilter with
  | MAX31856_NOISE_FILTER_50HZ => wrap8 (Z.lor t 0x01)
  | MAX31856_NOISE_FILTER_60HZ => wrap8 (Z.land t 0xfe)
  end.

(** *** Public operations *)

Definition setConversionMode (mode : max31856_conversion_mode_t) : M W unit :=
  set_mode mode ;;;
  t <- readRegister8 MAX31856_CR0_REG ;;
  m <- get_mode ;;
  let t :=
    if is_continuous m then
      let t := wrap8 (Z.lor t MAX31856_CR0_AUTOCONVERT) in
      wrap8 (Z.land t (Z.lnot MAX31856_CR0_1SHOT))
    else
      let t := wrap8 (Z.land t (Z.lnot MAX31856_CR0_AUTOCONVERT)) in
      wrap8 (Z.lor t MAX31856_CR0_1SHOT) in
  writeRegister8 MAX31856_CR0_REG t.

Definition getConversionMode : M W max31856_conversion_mode_t := get_mode.

Definition setThermocoupleType (type : Z) : M W unit :=
  t <- readRegister8 MAX31856_CR1_REG ;;
  let t := wrap8 (Z.land t 0xF0) in
  let t := wrap8 (Z.lor t (Z.land (wrap8 type) 0x0F)) in
  writeRegister8 MAX31856_CR1_REG t.

Definition getThermocoupleType : M W Z :=
  t <- readRegister8 MAX31856_CR1_REG ;;
  let t := wrap8 (Z.land t 0x0F) in
  ret t.

Definition begin : M W bool :=
  ok <- dev_begin ;;
  set_initialized ok ;;;
  if negb ok then ret false
  else
    writeRegister8 MAX31856_MASK_REG 0x0 ;;;
    writeRegister8 MAX31856_CR0_REG MAX31856_CR0_OCFAULT0 ;;;
    writeRegister8 MAX31856_CJTO_REG 0x0 ;;;
    setThermocoupleType (tctype_code MAX31856_TCTYPE_K) ;;;
    setConversionMode MAX31856_ONESHOT ;;;
    ret true.

Definition readFault : M W Z := readRegister8 MAX31856_SR_REG.

(** [low] and [high] are [int8_t]. *)
Definition setColdJunctionFaultThreshholds (low high : Z) : M W unit :=
  writeRegister8 MAX31856_CJLF_REG low ;;;
  writeRegister8 MAX31856_CJHF_REG high.

Definition setNoiseFilter (noiseFilter : max31856_noise_filter_t) : M W unit :=
  t <- readRegister8 MAX31856_CR0_REG ;;
  let t :=
    match noiseFilter with
    | MAX31856_NOISE_FILTER_50HZ => wrap8 (Z.lor t 0x01)
    | MAX31856_NOISE_FILTER_60HZ => wrap8 (Z.land t 0xfe)
    end in
  writeRegister8 MAX31856_CR0_REG t.

(** [low = flow;] with [int16_t low] and [float flow]: the conversion drops
    the fraction.  Where the truncated value is not an [int16_t] C++ leaves
    the conversion undefined; the value is then whatever the target yields,
    as an [int16_t]. *)
Definition float_to_int16 (f : Q) : Z :=
  let t := Qtrunc f in
  if (- 2 ^ 15 <=? t) && (t <? 2 ^ 15) then t
  else to_int16 (float_to_int16_undefined f).

(** [flow], [fhigh]: the finite [float] arguments, as the numbers they
    denote.  Scaling by 16 is exact. *)
Definition setTempFaultThreshholds (flow fhigh : Q) : M W unit :=
  let flow := (flow * 16)%Q in
  let low := float_to_int16 flow in
  let fhigh := (fhigh * 16)%Q in
  let high := float_to_int16 fhigh in
  writeRegister8 MAX31856_LTHFTH_REG (Z.shiftr high 8) ;;;
  writeRegister8 MAX31856_LTHFTL_REG high ;;;
  writeRegister8 MAX31856_LTLFTH_REG (Z.shiftr low 8) ;;;
  writeRegister8 MAX31856_LTLFTL_REG low.

Definition triggerOneShot : M W unit :=
  m <- get_mode ;;
  if is_continuous m then ret tt
  else
    t <- readRegister8 MAX31856_CR0_REG ;;
    let t := wrap8 (Z.land t (Z.lnot MAX31856_CR0_AUTOCONVERT)) in
    let t := wrap8 (Z.lor t MAX31856_CR0_1SHOT) in
    writeRegister8 MAX31856_CR0_REG t.

Definition conversionComplete : M W bool :=
  m <- get_mode ;;
  if is_continuous m then ret true
  else
    t <- readRegister8 MAX31856_CR0_REG ;;
    ret (Z.land t MAX31856_CR0_1SHOT =? 0).

Definition readCJTemperature : M W cfloat :=
  r <- readRegister16 MAX31856_CJTH_REG ;;
  ret (FNum (inject_Z r / 256.0)).

(** The outcome of the polling loop of [readThermocoupleTemperature]:
    the loop condition became false, the [return NAN] inside it was
    reached, or the model's fuel ran out first. *)
Inductive wait_outcome : Type :=
| WaitDone
| WaitTimeout
| WaitFuel.

(** [while (!conversionComplete()) { if (millis() - start > 250) return NAN;
    delay(10); }], at most [fuel] evaluations of the condition. *)
Fixpoint wait_conversion (fuel : nat) (start : Z) : M W wait_outcome :=
  match fuel with
  | O => ret WaitFuel
  | S fuel' =>
      c <- conversionComplete ;;
      if c then ret WaitDone
      else
        now <- dev_millis ;;
        if wrap32 (now - start) >? 250 then ret WaitTimeout
        else dev_delay 10 ;;; wait_conversion fuel' start
  end.

(** Lines 285-293: the value of [readRegister24] to degrees Celsius. *)
Definition thermocouple_of_raw (raw : Z) : Q :=
  let temp24 := to_int32 raw in
  let temp24 :=
    if negb (Z.land temp24 0x800000 =? 0)
    then to_int32 (Z.lor (wrap32 temp24) 0xFF000000)
    else temp24 in
  let temp24 := Z.shiftr temp24 5 in
  (inject_Z temp24 * 0.0078125)%Q.

(** [None]: the fuel ran out inside the polling loop. *)
Definition readThermocoupleTemperature (fuel : nat) : M W (option cfloat) :=
  m <- get_mode ;;
  w <- (if is_oneshot m then
          triggerOneShot ;;;
          start <- dev_millis ;;
          wait_conversion fuel start
        else ret WaitDone) ;;
  match w with
  | WaitFuel => ret None
  | WaitTimeout => ret (Some FNaN)
  | WaitDone =>
      raw <- readRegister24 MAX31856_LTCBH_REG ;;
      ret (Some (FNum (thermocouple_of_raw raw)))
  end.

(** *** Sequences of operations *)

Inductive op : Type :=
| OpBegin
| OpSetConversionMode (mode : max31856_conversion_mode_t)
| OpGetConversionMode
| OpSetThermocoupleType (type : Z)
| OpGetThermocoupleType
| OpReadFault
| OpTriggerOneShot
| OpConversionComplete
| OpReadCJTemperature
| OpReadThermocoupleTemperature
| OpSetTempFaultThreshholds (flow fhigh : Q)
| OpSetColdJunctionFaultThreshholds (low high : Z)
| OpSetNoiseFilter (noiseFilter : max31856_noise_filter_t).

Definition ignore {A : Type} (m : M W A) : M W unit := m ;;; ret tt.

(** One call of a public member function, its result dropped. *)
Definition run_op (fuel : nat) (o : op) : M W unit :=
  match o with
  | OpBegin => ignore begin
  | OpSetConversionMode mode => setConversionMode mode
  | OpGetConversionMode => ignore getConversionMode
  | OpSetThermocoupleType type => setThermocoupleType type
  | OpGetThermocoupleType => ignore getThermocoupleType
  | OpReadFault => ignore readFault
  | OpTriggerOneShot => triggerOneShot
  | OpConversionComplete => ignore conversionComplete
  | OpReadCJTemperature => ignore readCJTemperature
  | OpReadThermocoupleTemperature => ignore (readThermocoupleTemperature fuel)
  | OpSetTempFaultThreshholds flow fhigh => setTempFaultThreshholds flow fhigh
  | OpSetColdJunctionFaultThreshholds low high =>
      setColdJunctionFaultThreshholds low high
  | OpSetNoiseFilter noiseFilter => setNoiseFilter noiseFilter
  end.

Fixpoint run_ops (fuel : nat) (os : list op) : M W unit :=
  match os with
  | [] => ret tt
  | o :: os' => run_op fuel o ;;; run_ops fuel os'
  end.

End DriverCode.

(** ** The earlier revision of the driver ([src/unnamed/part_000])

    Its temperature reads start a conversion and wait 250 ms themselves.  The
    bit-banged or hardware transfer of one framed transaction is the
    platform's [spi_write] and [spi_write_then_read]. *)

Module Legacy.
Section LegacyCode.

Context {W : Type} {P : Platform W}.

Definition oneShotTemperature : M W unit :=
  writeRegister8 MAX31856_CJTO_REG 0x0 ;;;
  t <- readRegister8 MAX31856_CR0_REG ;;
  let t := wrap8 (Z.land t (Z.lnot MAX31856_CR0_AUTOCONVERT)) in
  let t := wrap8 (Z.lor t MAX31856_CR0_1SHOT) in
  writeRegister8 MAX31856_CR0_REG t ;;;
  dev_delay 250.

Definition readCJTemperature : M W cfloat :=
  oneShotTemperature ;;;
  r <- readRegister16 MAX31856_CJTH_REG ;;
  let temp16 := to_int16 r in
  let tempfloat := inject_Z temp16 in
  let tempfloat := (tempfloat / 256.0)%Q in
  ret (FNum tempfloat).

End LegacyCode.
End Legacy.

(** ** A reference device

    A bare register file behind the transport: a write transaction stores
    its data bytes at consecutive addresses, a read transaction returns the
    bytes at consecutive addresses, and nothing changes on its own (no
    conversion ever completes).  Transactions take no time; [delay] advances
    the clock by its argument. *)

Module SimChip.

Record chip : Type := MkChip {
  regs : Z -> byte;
  clock : Z;
  transport_ok : bool
}.

Definition update (f : Z -> byte) (a : Z) (d : byte) : Z -> byte :=
  fun x => if x =? a then d else f x.

Fixpoint store (f : Z -> byte) (a : Z) (ds : list byte) : Z -> byte :=
  match ds with
  | [] => f
  | d :: ds' => store (update f a d) (a + 1) ds'
  end.

Fixpoint load (f : Z -> byte) (a : Z) (n : nat) : list byte :=
  match n with
  | O => []
  | S n' => f a :: load f (a + 1) n'
  end.

Definition sim_write (bytes : list byte) (w : chip) : chip :=
  match bytes with
  | a :: ds =>
      if Z.testbit (u8 a) 7
      then MkChip (store (regs w) (Z.land (u8 a) 0x7F) ds)
                   (clock w) (transport_ok w)
      else w
  | [] => w
  end.

Definition sim_write_then_read (wr : list byte) (n : nat) (w : chip)
  : list byte * chip :=
  match wr with
  | a :: _ => (load (regs w) (Z.land (u8 a) 0x7F) n, w)
  | [] => (repeat Byte.x00 n, w)
  end.

#[global] Instance platform : Platform chip := {
  spi_begin w := (transport_ok w, w);
  spi_write := sim_write;
  spi_write_then_read := sim_write_then_read;
  millis := clock;
  delay ms w := MkChip (regs w) (clock w + ms) (transport_ok w);
  float_to_int16_undefined _ := 0
}.

(** The register file that holds [v] at every address in [l] and zero
    elsewhere. *)
Fixpoint regs_of (l : list (Z * Z)) : Z -> byte :=
  match l with
  | [] => fun _ => Byte.x00
  | (a, v) :: l' => update (regs_of l') a (to_u8 v)
  end.

(** A driver object with an empty log in front of the device. *)
Definition handle (mode : max31856_conversion_mode_t) (l : list (Z * Z))
  : Driver chip :=
  MkDriver false mode (MkChip (regs_of l) 0 true) [].

End SimChip.

(** ** A bus without a chip

    Nothing answers: the transport is acquired, writes go nowhere, and the
    data input reads high, so every byte read is 0xFF. *)

Module FloatingBus.

Record bus : Type := MkBus {
  clock : Z
}.

#[global] Instance platform : Platform bus := {
  spi_begin w := (true, w);
  spi_write _ w := w;
  spi_write_then_read _ n w := (repeat Byte.xff n, w);
  millis := clock;
  delay ms w := MkBus (clock w + ms);
  float_to_int16_undefined _ := 0
}.

End FloatingBus.

(** ** Observations and assumptions on the device *)

(** An event without the data it carried: what kind of transaction, to
    which address byte. *)
Inductive event_shape : Type :=
| SBegin
| SWrite (addr : byte)
| SRead (addr : byte) (n : nat)
| SOther
| SDelay (ms : Z).

Definition shape (e : log_entry) : event_shape :=
  match ev e with
  | EvBegin _ => SBegin
  | EvWrite (a :: _) => SWrite a
  | EvWriteThenRead [a] n _ => SRead a n
  | EvDelay ms => SDelay ms
  | _ => SOther
  end.

(** [k] polls of the main configuration register, [delay(10)] between
    consecutive ones. *)
Fixpoint polls (k : nat) : list event_shape :=
  match k with
  | O => []
  | S O => [SRead Byte.x00 1]
  | S k' => SRead Byte.x00 1 :: SDelay 10 :: polls k'
  end.

(** A write to the main configuration register respects the stored mode:
    no ONE_SHOT flag in CONTINUOUS mode, no AUTOCONVERT flag in the one-shot
    modes.  Other events pass. *)
Definition cr0_write_ok (e : log_entry) : bool :=
  match ev e with
  | EvWrite [a; v] =>
      if Byte.eqb a Byte.x80 then
        match at_mode e with
        | MAX31856_CONTINUOUS => negb (Z.testbit (u8 v) 6)
        | _ => negb (Z.testbit (u8 v) 7)
        end
      else true
  | _ => true
  end.

Section Device.

Context {W : Type} {P : Platform W}.

(** The byte a one-byte read of register [addr] delivers in [w]. *)
Definition peek (addr : Z) (w : W) : Z :=
  buffer_at (fst (spi_write_then_read [to_u8 (wrap8 (Z.land addr 0x7F))] 1 w)) 0.

(** Register [addr] holds what was last written to it. *)
Definition holds_written (addr : Z) : Prop :=
  forall (w : W) (v : byte),
    peek addr (spi_write [to_u8 (wrap8 (Z.lor (wrap8 addr) 0x80)); v] w) = u8 v.

(** The clock never runs backwards; a transaction takes at most [B] ms, and
    [delay(ms)] returns after at least [ms] and at most [ms + B] ms. *)
Definition clock_latency (B : Z) : Prop :=
  (forall w ms, 0 <= ms ->
                millis w + ms <= millis (delay ms w) <= millis w + ms + B) /\
  (forall w bytes, millis w <= millis (spi_write bytes w) <= millis w + B) /\
  (forall w wr n,
      millis w <= millis (snd (spi_write_then_read wr n w)) <= millis w + B).

(** Time passes in [delay] only, and exactly as requested. *)
Definition ideal_clock : Prop := clock_latency 0.

(** The device never clears the ONE_SHOT flag: once written, it is read
    back set, whatever is read and however long one waits. *)
Definition oneshot_never_cleared : Prop :=
  (forall w v, Z.testbit (u8 v) 6 = true ->
               Z.testbit (peek MAX31856_CR0_REG
                               (spi_write [Byte.x80; v] w)) 6 = true) /\
  (forall w wr n, Z.testbit (peek MAX31856_CR0_REG w) 6 = true ->
                  Z.testbit (peek MAX31856_CR0_REG
                                  (snd (spi_write_then_read wr n w))) 6 = true) /\
  (forall w ms, Z.testbit (peek MAX31856_CR0_REG w) 6 = true ->
                Z.testbit (peek MAX31856_CR0_REG (delay ms w)) 6 = true).

(** The device does not set bit [k] of the main configuration register on
    its own: the bit reads as set only if it did before, or if the last
    write to the register set it. *)
Definition bit_not_set_by_device (k : Z) : Prop :=
  (forall w wr n,
      Z.testbit (peek MAX31856_CR0_REG (snd (spi_write_then_read wr n w))) k = true ->
      Z.testbit (peek MAX31856_CR0_REG w) k = true) /\
  (forall w ms,
      Z.testbit (peek MAX31856_CR0_REG (delay ms w)) k = true ->
      Z.testbit (peek MAX31856_CR0_REG w) k = true) /\
  (forall w,
      Z.testbit (peek MAX31856_CR0_REG (snd (spi_begin w))) k = true ->
      Z.testbit (peek MAX31856_CR0_REG w) k = true) /\
  (forall w a v,
      Z.testbit (peek MAX31856_CR0_REG (spi_write [a; v] w)) k = true ->
      if Byte.eqb a Byte.x80 then Z.testbit (u8 v) k = true
      else Z.testbit (peek MAX31856_CR0_REG w) k = true).

Definition mode_flags_not_set_by_device : Prop :=
  bit_not_set_by_device 6 /\ bit_not_set_by_device 7.

(** The mode flags of a main-configuration byte [v] fit mode [m]: no
    ONE_SHOT in CONTINUOUS mode, no AUTOCONVERT in the one-shot modes. *)
Definition mode_ok (m : max31856_conversion_mode_t) (v : Z) : Prop :=
  match m with
  | MAX31856_CONTINUOUS => Z.testbit v 6 = false
  | _ => Z.testbit v 7 = false
  end.

(** The flags the main configuration register holds fit the stored mode. *)
Definition flags_agree (s : Driver W) : Prop :=
  mode_ok (conversionMode s) (peek MAX31856_CR0_REG (world s)).

(** Every write to the main configuration register logged so far fitted the
    mode stored when it was issued. *)
Definition trace_ok (s : Driver W) : Prop :=
  forallb cr0_write_ok (trace s) = true.

Definition consistent (s : Driver W) : Prop :=
  flags_agree s /\ trace_ok s.

(** The read-modify-write of register [addr] with update [f], the pattern
    of [setThermocoupleType], [setNoiseFilter], [triggerOneShot] and
    [setConversionMode]. *)
Definition rmw (addr : Z) (f : Z -> Z) : M W unit :=
  bind (readRegister8 addr) (fun t => writeRegister8 addr (f t)).

(** An action keeps a property of the driver state. *)
Definition preserves {A : Type} (I : Driver W -> Prop) (m : M W A) : Prop :=
  forall s, I s -> I (snd (m s)).

End Device.

(** ** The register protocol and a device that only stores *)

(** Conversion to [int8_t]. *)
Definition to_int8 (z : Z) : Z := (z + 2 ^ 7) mod 2 ^ 8 - 2 ^ 7.

(** The reads the register map allows the driver: one byte of the two
    configuration registers and of the fault status, the two bytes of the
    cold-junction temperature, the three bytes of the linearized
    temperature. *)
Definition register_reads : list (byte * nat) :=
  [(Byte.x00, 1%nat); (Byte.x01, 1%nat); (Byte.x0f, 1%nat);
   (Byte.x0a, 2%nat); (Byte.x0c, 3%nat)].

(** An event follows the register protocol: a read sends one address byte
    with bit 7 clear and is one of [register_reads]; a write sends an address
    byte with bit 7 set, for one of the writable registers 0x00 to 0x09, and
    one data byte; a delay is the 10 ms of the polling loop. *)
Definition protocol_ok (e : log_entry) : bool :=
  match ev e with
  | EvBegin _ => true
  | EvDelay ms => ms =? 10
  | EvWrite [a; _] => Z.testbit (u8 a) 7 && (Z.land (u8 a) 0x7F <=? 0x09)
  | EvWriteThenRead [a] n _ =>
      negb (Z.testbit (u8 a) 7)
      && existsb (fun p => Byte.eqb a (fst p) && Nat.eqb n (snd p))
                 register_reads
  | _ => false
  end.

(** The registers an operation may write. *)
Definition op_targets (o : op) : list Z :=
  match o with
  | OpBegin =>
      [MAX31856_MASK_REG; MAX31856_CR0_REG; MAX31856_CJTO_REG; MAX31856_CR1_REG]
  | OpSetConversionMode _ => [MAX31856_CR0_REG]
  | OpSetThermocoupleType _ => [MAX31856_CR1_REG]
  | OpTriggerOneShot => [MAX31856_CR0_REG]
  | OpReadThermocoupleTemperature => [MAX31856_CR0_REG]
  | OpSetTempFaultThreshholds _ _ =>
      [MAX31856_LTHFTH_REG; MAX31856_LTHFTL_REG;
       MAX31856_LTLFTH_REG; MAX31856_LTLFTL_REG]
  | OpSetColdJunctionFaultThreshholds _ _ =>
      [MAX31856_CJLF_REG; MAX31856_CJHF_REG]
  | OpSetNoiseFilter _ => [MAX31856_CR0_REG]
  | _ => []
  end.

(** The member functions that assign [conversionMode] or [initialized]. *)
Definition sets_object_state (o : op) : bool :=
  match o with
  | OpBegin | OpSetConversionMode _ => true
  | _ => false
  end.

Section StoringDevice.

Context {W : Type} {P : Platform W}.

(** The sixteen registers hold what was last written to them and nothing
    else changes them: not a write to another register, a read, a wait or
    the acquisition of the transport. *)
Definition register_file : Prop :=
  (forall a r v w,
      0 <= a < 16 -> 0 <= r < 16 ->
      peek r (spi_write [to_u8 (wrap8 (Z.lor (wrap8 a) 0x80)); v] w)
      = if r =? a then u8 v else peek r w) /\
  (forall a n r w,
      0 <= r < 16 -> peek r (snd (spi_write_then_read [a] n w)) = peek r w) /\
  (forall ms r w, 0 <= r < 16 -> peek r (delay ms w) = peek r w) /\
  (forall r w, 0 <= r < 16 -> peek r (snd (spi_begin w)) = peek r w).

(** Register [r] holds [c]. *)
Definition holds (r c : Z) (s : Driver W) : Prop := peek r (world s) = c.

(** Everything logged so far follows the register protocol. *)
Definition follows_protocol (s : Driver W) : Prop :=
  forallb protocol_ok (trace s) = true.

End StoringDevice.

(** ** The earlier revision's transport: pins and the SPI peripheral

    The earlier revision of the driver ([src/unnamed/part_000]) frames its
    own transactions: it drives the chip-select pin, and moves each byte
    either through the SPI peripheral or, when constructed with four pins,
    by toggling the clock and data pins itself. *)

Module LegacyPins.

(** Arduino's pin levels and modes. *)
Definition LOW : Z := 0x0.
Definition HIGH : Z := 0x1.
Definition INPUT : Z := 0x0.
Definition OUTPUT : Z := 0x1.

(** The board: [pinMode], [digitalWrite] and [digitalRead] take the pin
    and the value as [uint8_t]; [SPI.transfer] exchanges one byte. *)
Class Board (B : Type) : Type := {
  pinMode : Z -> Z -> B -> B;
  digitalWrite : Z -> Z -> B -> B;
  digitalRead : Z -> B -> Z * B;
  SPI_begin : B -> B;
  SPI_beginTransaction : B -> B;
  SPI_transfer : Z -> B -> Z * B;
  SPI_endTransaction : B -> B
}.

(** What the driver did to the board, in order. *)
Inductive pin_event : Type :=
| PinMode (pin mode : Z)
| PinWrite (pin val : Z)
| PinRead (pin val : Z)
| SpiBegin
| SpiBeginTransaction
| SpiTransfer (out back : Z)
| SpiEndTransaction.

(** The object: its four [int8_t] pin members, the board behind it, and the
    log of what it did. *)
Record Device (B : Type) : Type := MkDevice {
  _sclk : Z;
  _miso : Z;
  _mosi : Z;
  _cs : Z;
  board : B;
  wire : list pin_event
}.

Arguments MkDevice {B} _ _ _ _ _ _.
Arguments _sclk {B} _.
Arguments _miso {B} _.
Arguments _mosi {B} _.
Arguments _cs {B} _.
Arguments board {B} _.
Arguments wire {B} _.

Section PinCode.

Context {B : Type} {Bd : Board B}.

(** [Adafruit_MAX31856(spi_cs, spi_mosi, spi_miso, spi_clk)] *)
Definition software_spi (spi_cs spi_mosi spi_miso spi_clk : Z) (b : B)
  : Device B :=
  MkDevice spi_clk spi_miso spi_mosi spi_cs b [].

(** [Adafruit_MAX31856(spi_cs)] *)
Definition hardware_spi (spi_cs : Z) (b : B) : Device B :=
  MkDevice (-1) (-1) (-1) spi_cs b [].

Definition with_board (d : Device B) (b : B) (e : pin_event) : Device B :=
  MkDevice (_sclk d) (_miso d) (_mosi d) (_cs d) b (wire d ++ [e]).

Definition do_pinMode (pin mode : Z) (d : Device B) : Device B :=
  with_board d (pinMode (wrap8 pin) (wrap8 mode) (board d))
             (PinMode (wrap8 pin) (wrap8 mode)).

Definition do_digitalWrite (pin val : Z) (d : Device B) : Device B :=
  with_board d (digitalWrite (wrap8 pin) (wrap8 val) (board d))
             (PinWrite (wrap8 pin) (wrap8 val)).

Definition do_digitalRead (pin : Z) (d : Device B) : Z * Device B :=
  let (v, b) := digitalRead (wrap8 pin) (board d) in
  (v, with_board d b (PinRead (wrap8 pin) v)).

Definition do_SPI_begin (d : Device B) : Device B :=
  with_board d (SPI_begin (board d)) SpiBegin.

Definition do_SPI_beginTransaction (d : Device B) : Device B :=
  with_board d (SPI_beginTransaction (board d)) SpiBeginTransaction.

Definition do_SPI_endTransaction (d : Device B) : Device B :=
  with_board d (SPI_endTransaction (board d)) SpiEndTransaction.

Definition do_SPI_transfer (x : Z) (d : Device B) : Z * Device B :=
  let (r, b) := SPI_transfer (wrap8 x) (board d) in
  (wrap8 r, with_board d b (SpiTransfer (wrap8 x) (wrap8 r))).

(** The body of [for (int i=7; i>=0; i--)] in [spixfer], for the [n]
    indices [n-1 .. 0] left. *)
Fixpoint spixfer_loop (n : nat) (x reply : Z) (d : Device B)
  : Z * Device B :=
  match n with
  | O => (reply, d)
  | S i =>
      let reply := wrap8 (Z.shiftl reply 1) in
      let d := do_digitalWrite (_sclk d) LOW d in
      let d := do_digitalWrite (_mosi d)
                               (Z.land x (Z.shiftl 1 (Z.of_nat i))) d in
      let d := do_digitalWrite (_sclk d) HIGH d in
      let (v, d) := do_digitalRead (_miso d) d in
      let reply := if negb (v =? 0) then wrap8 (Z.lor reply 1) else reply in
      spixfer_loop i x reply d
  end.

Definition spixfer (x : Z) (d : Device B) : Z * Device B :=
  let x := wrap8 x in
  if _sclk d =? -1 then do_SPI_transfer x d
  else spixfer_loop 8 x 0 d.

(** [while (n--) { buffer[0] = spixfer(0xFF); buffer++; }] *)
Fixpoint read_loop (n : nat) (d : Device B) : list Z * Device B :=
  match n with
  | O => ([], d)
  | S n' =>
      let (b, d) := spixfer 0xFF d in
      let (bs, d) := read_loop n' d in
      (b :: bs, d)
  end.

Definition readRegisterN (addr : Z) (n : nat) (d : Device B)
  : list Z * Device B :=
  let addr := wrap8 addr in
  let addr := wrap8 (Z.land addr 0x7F) in
  let d := if _sclk d =? -1 then do_SPI_beginTransaction d
           else do_digitalWrite (_sclk d) HIGH d in
  let d := do_digitalWrite (_cs d) LOW d in
  let (_, d) := spixfer addr d in
  let (buffer, d) := read_loop n d in
  let d := if _sclk d =? -1 then do_SPI_endTransaction d else d in
  let d := do_digitalWrite (_cs d) HIGH d in
  (buffer, d).

Definition writeRegister8 (addr data : Z) (d : Device B) : Device B :=
  let addr := wrap8 addr in
  let data := wrap8 data in
  let addr := wrap8 (Z.lor addr 0x80) in
  let d := if _sclk d =? -1 then do_SPI_beginTransaction d
           else do_digitalWrite (_sclk d) HIGH d in
  let d := do_digitalWrite (_cs d) LOW d in
  let (_, d) := spixfer addr d in
  let (_, d) := spixfer data d in
  let d := if _sclk d =? -1 then do_SPI_endTransaction d else d in
  do_digitalWrite (_cs d) HIGH d.

Definition readRegister8 (addr : Z) (d : Device B) : Z * Device B :=
  let (buffer, d) := readRegisterN addr 1 d in
  (nth 0 buffer 0, d).

Definition setThermocoupleType (type : Z) (d : Device B) : Device B :=
  let (t, d) := readRegister8 MAX31856_CR1_REG d in
  let t := wrap8 (Z.land t 0xF0) in
  let t := wrap8 (Z.lor t (Z.land (wrap8 type) 0x0F)) in
  writeRegister8 MAX31856_CR1_REG t d.

Definition begin (d : Device B) : bool * Device B :=
  let d := do_pinMode (_cs d) OUTPUT d in
  let d := do_digitalWrite (_cs d) HIGH d in
  let d := if negb (_sclk d =? -1)
           then
             let d := do_pinMode (_sclk d) OUTPUT d in
             let d := do_pinMode (_mosi d) OUTPUT d in
             do_pinMode (_miso d) INPUT d
           else do_SPI_begin d in
  let d := writeRegister8 MAX31856_MASK_REG 0x0 d in
  let d := writeRegister8 MAX31856_CR0_REG MAX31856_CR0_OCFAULT0 d in
  let d := setThermocoupleType (tctype_code MAX31856_TCTYPE_K) d in
  (true, d).

End PinCode.

(** *** What the chip sees on its pins

    The chip takes a frame while chip select is low, and samples the data
    line at each rising edge of the clock in it. *)

Record slave : Type := MkSlave {
  cs_level : bool;
  clk_level : bool;
  mosi_level : bool;
  (** bits sampled in the frame under way, first one first *)
  shifted : list bool;
  (** frames completed, first one first *)
  frames : list (list bool)
}.

(** Chip select high, nothing sampled. *)
Definition idle (clk mosi : bool) : slave := MkSlave true clk mosi [] [].

Definition sees (cs sclk mosi : Z) (st : slave) (e : pin_event) : slave :=
  match e with
  | PinWrite p v =>
      let l := negb (v =? 0) in
      if p =? cs then
        if cs_level st && negb l
        then MkSlave l (clk_level st) (mosi_level st) [] (frames st)
        else if negb (cs_level st) && l
        then MkSlave l (clk_level st) (mosi_level st) []
                     (frames st ++ [shifted st])
        else st
      else if p =? sclk then
        if negb (cs_level st) && negb (clk_level st) && l
        then MkSlave (cs_level st) l (mosi_level st)
                     (shifted st ++ [mosi_level st]) (frames st)
        else MkSlave (cs_level st) l (mosi_level st) (shifted st) (frames st)
      else if p =? mosi then
        MkSlave (cs_level st) (clk_level st) l (shifted st) (frames st)
      else st
  | _ => st
  end.

Definition slave_view (cs sclk mosi : Z) (st : slave) (evs : list pin_event)
  : slave :=
  fold_left (sees cs sclk mosi) evs st.

(** The levels read from pin [miso], in order. *)
Fixpoint miso_samples (miso : Z) (evs : list pin_event) : list bool :=
  match evs with
  | [] => []
  | PinRead p v :: evs' =>
      if p =? miso then negb (v =? 0) :: miso_samples miso evs'
      else miso_samples miso evs'
  | _ :: evs' => miso_samples miso evs'
  end.

(** The [n] low bits of [x], most significant first. *)
Fixpoint msb_first (n : nat) (x : Z) : list bool :=
  match n with
  | O => []
  | S i => Z.testbit x (Z.of_nat i) :: msb_first i x
  end.

(** The number a list of bits spells, most significant first. *)
Definition of_bits (bs : list bool) : Z :=
  fold_left (fun acc (b : bool) => 2 * acc + (if b then 1 else 0)) bs 0.

(** Four valid pins, the three outputs on different ones. *)
Definition software_pins {B : Type} (d : Device B) : Prop :=
  0 <= _cs d < 128 /\ 0 <= _sclk d < 128 /\
  0 <= _mosi d < 128 /\ 0 <= _miso d < 128 /\
  _cs d <> _sclk d /\ _cs d <> _mosi d /\ _sclk d <> _mosi d.

(** The same four pins. *)
Definition same_pins {B : Type} (d d' : Device B) : Prop :=
  _cs d' = _cs d /\ _sclk d' = _sclk d /\
  _mosi d' = _mosi d /\ _miso d' = _miso d.

(** What the chip has seen of everything the object did, from [st0]. *)
Definition seen {B : Type} (st0 : slave) (d : Device B) : slave :=
  slave_view (_cs d) (_sclk d) (_mosi d) st0 (wire d).

(** The levels the object has read from its data input. *)
Definition sampled {B : Type} (d : Device B) : list bool :=
  miso_samples (_miso d) (wire d).

(** A board whose data input is wired to its data output: [digitalRead]
    on pin [miso] returns the level last written to pin [mosi]. *)
Module Loopback.

Record lines : Type := MkLines {
  mosi_pin : Z;
  miso_pin : Z;
  level : Z
}.

#[global] Instance board : Board lines := {
  pinMode _ _ b := b;
  digitalWrite p v b :=
    if p =? mosi_pin b
    then MkLines (mosi_pin b) (miso_pin b) (if v =? 0 then LOW else HIGH)
    else b;
  digitalRead p b := (if p =? miso_pin b then level b else LOW, b);
  SPI_begin b := b;
  SPI_beginTransaction b := b;
  SPI_transfer x b := (x, b);
  SPI_endTransaction b := b
}.

End Loopback.

End LegacyPins.

(** * Properties *)

(** ** Bytes and bits *)

Lemma u8_range (b : byte) : 0 <= u8 b < 2 ^ 8.
Proof. exact (byte.unsigned_range b). Qed.

Lemma u8_to_u8 (z : Z) : u8 (to_u8 z) = wrap8 z.
Proof. exact (byte.unsigned_of_Z z). Qed.

Lemma to_u8_u8 (b : byte) : to_u8 (u8 b) = b.
Proof. exact (byte.of_Z_unsigned b). Qed.

Lemma buffer_at_range (bs : list byte) (i : nat) : 0 <= buffer_at bs i < 2 ^ 8.
Proof. apply u8_range. Qed.

Lemma testbit_small (b n m : Z) :
  0 <= b < 2 ^ n -> n <= m -> Z.testbit b m = false.
Proof.
  intros Hb Hm.
  destruct (Z.le_gt_cases 0 n) as [Hn|Hn].
  - rewrite <- (Z.mod_small b (2 ^ n)) by assumption.
    apply Z.mod_pow2_bits_high. lia.
  - rewrite Z.pow_neg_r in Hb by assumption. lia.
Qed.

Lemma lor_mul_pow2_small (a b n : Z) :
  0 <= n -> 0 <= b < 2 ^ n -> Z.lor (a * 2 ^ n) b = a * 2 ^ n + b.
Proof.
  intros Hn Hb.
  rewrite <- Z.lxor_lor, <- Z.add_nocarry_lxor; trivial;
    apply Z.bits_inj'; intros m Hm;
    rewrite Z.land_spec, Z.testbit_0_l;
    (destruct (Z.lt_ge_cases m n) as [Hlt|Hge];
     [ rewrite Z.mul_pow2_bits_low by assumption; reflexivity
     | rewrite (testbit_small b n m) by assumption; apply andb_false_r ]).
Qed.

(** [ret <<= 8; ret |= b] in an unsigned type of modulus [m] that holds the
    result. *)
Lemma shift_or_byte (a b m : Z) :
  0 <= a -> 0 <= b < 2 ^ 8 -> a * 2 ^ 8 + b < m ->
  (Z.lor (Z.shiftl a 8 mod m) b) mod m = a * 2 ^ 8 + b.
Proof.
  intros Ha Hb Hm.
  rewrite Z.shiftl_mul_pow2 by lia.
  rewrite (Z.mod_small (a * 2 ^ 8)) by lia.
  rewrite lor_mul_pow2_small by lia.
  apply Z.mod_small. lia.
Qed.

Lemma testbit_top (x n : Z) :
  0 <= n -> 0 <= x < 2 ^ (n + 1) -> Z.testbit x n = (2 ^ n <=? x).
Proof.
  intros Hn Hx.
  rewrite Z.pow_add_r, Z.pow_1_r in Hx by lia.
  assert (Hp : 0 < 2 ^ n) by (apply Z.pow_pos_nonneg; lia).
  rewrite Z.testbit_eqb by assumption.
  destruct (Z.leb_spec (2 ^ n) x) as [Hle|Hlt].
  - replace (x / 2 ^ n) with 1; [reflexivity|].
    apply Z.div_unique with (r := x - 2 ^ n); lia.
  - rewrite Z.div_small by lia. reflexivity.
Qed.

Lemma land_pow2_testbit (x k : Z) :
  0 <= k -> (Z.land x (2 ^ k) =? 0) = negb (Z.testbit x k).
Proof.
  intros Hk.
  destruct (Z.testbit x k) eqn:E; simpl.
  - apply Z.eqb_neq. intros H0.
    assert (H : Z.testbit (Z.land x (2 ^ k)) k = true).
    { rewrite Z.land_spec, E, Z.pow2_bits_true; auto. }
    rewrite H0, Z.testbit_0_l in H. discriminate.
  - apply Z.eqb_eq. apply Z.bits_inj'. intros n Hn.
    rewrite Z.land_spec, Z.testbit_0_l.
    destruct (Z.eq_dec n k) as [->|Hne].
    + rewrite E. reflexivity.
    + rewrite Z.pow2_bits_false by auto. apply andb_false_r.
Qed.

(** ** Multi-byte register reads are big-endian *)

Lemma big_endian16_range (bs : list byte) : 0 <= big_endian16 bs < 2 ^ 16.
Proof.
  unfold big_endian16.
  pose proof (buffer_at_range bs 0). pose proof (buffer_at_range bs 1). lia.
Qed.

Lemma big_endian24_range (bs : list byte) : 0 <= big_endian24 bs < 2 ^ 24.
Proof.
  unfold big_endian24.
  pose proof (buffer_at_range bs 0). pose proof (buffer_at_range bs 1).
  pose proof (buffer_at_range bs 2). lia.
Qed.

Section RegisterReads.

Context {W : Type} {P : Platform W}.

Lemma readRegister8_spec (addr : Z) (s : Driver W) :
  forall bs w,
    spi_write_then_read [to_u8 (wrap8 (Z.land addr 0x7F))] 1 (world s) = (bs, w) ->
    readRegister8 addr s = (buffer_at bs 0, after_read s addr 1 bs w).
Proof.
  intros bs w H.
  unfold readRegister8, readRegisterN, bind, dev_write_then_read, ret.
  rewrite H. reflexivity.
Qed.

Lemma readRegister16_spec (addr : Z) (s : Driver W) :
  forall bs w,
    spi_write_then_read [to_u8 (wrap8 (Z.land addr 0x7F))] 2 (world s) = (bs, w) ->
    readRegister16 addr s = (big_endian16 bs, after_read s addr 2 bs w).
Proof.
  intros bs w H.
  unfold readRegister16, readRegisterN, bind, dev_write_then_read, ret.
  rewrite H. f_equal.
  pose proof (buffer_at_range bs 0) as H0.
  pose proof (buffer_at_range bs 1) as H1.
  unfold big_endian16, wrap16.
  apply shift_or_byte; lia.
Qed.

Lemma readRegister24_spec (addr : Z) (s : Driver W) :
  forall bs w,
    spi_write_then_read [to_u8 (wrap8 (Z.land addr 0x7F))] 3 (world s) = (bs, w) ->
    readRegister24 addr s = (big_endian24 bs, after_read s addr 3 bs w).
Proof.
  intros bs w H.
  unfold readRegister24, readRegisterN, bind, dev_write_then_read, ret.
  rewrite H. f_equal.
  pose proof (buffer_at_range bs 0) as H0.
  pose proof (buffer_at_range bs 1) as H1.
  pose proof (buffer_at_range bs 2) as H2.
  unfold big_endian24, wrap32.
  rewrite (shift_or_byte (buffer_at bs 0)) by lia.
  rewrite shift_or_byte by lia. lia.
Qed.

End RegisterReads.

(** ** Decoding the linearized thermocouple temperature *)

Lemma to_int32_small (z : Z) : - 2 ^ 31 <= z < 2 ^ 31 -> to_int32 z = z.
Proof. intros H. unfold to_int32. rewrite Z.mod_small; lia. Qed.

Lemma to_int16_small (z : Z) : - 2 ^ 15 <= z < 2 ^ 15 -> to_int16 z = z.
Proof. intros H. unfold to_int16. rewrite Z.mod_small; lia. Qed.

(** ORing [0xFF000000] into a 24-bit value and reading the result as
    [int32_t] subtracts [2 ^ 24]. *)
Lemma sign_fix24 (raw : Z) :
  0 <= raw < 2 ^ 24 -> to_int32 (Z.lor raw 0xFF000000) = raw - 2 ^ 24.
Proof.
  intros H.
  change 0xFF000000 with (255 * 2 ^ 24).
  rewrite Z.lor_comm, lor_mul_pow2_small by lia.
  unfold to_int32.
  replace (255 * 2 ^ 24 + raw + 2 ^ 31)
    with (raw + 2 ^ 31 - 2 ^ 24 + 1 * 2 ^ 32) by lia.
  rewrite Z.mod_add by lia.
  rewrite Z.mod_small; lia.
Qed.

(** The steps of the decoding, for a value of [readRegister24]. *)
Lemma thermocouple_of_raw_steps (raw : Z) :
  0 <= raw < 2 ^ 24 ->
  thermocouple_of_raw raw =
  (inject_Z (Z.shiftr (if Z.testbit raw 23
                       then to_int32 (Z.lor raw 0xFF000000)
                       else raw) 5) * 0.0078125)%Q.
Proof.
  intros H. unfold thermocouple_of_raw.
  rewrite (to_int32_small raw) by lia.
  change 0x800000 with (2 ^ 23).
  rewrite land_pow2_testbit by lia. rewrite negb_involutive.
  unfold wrap32. rewrite (Z.mod_small raw) by lia.
  reflexivity.
Qed.

Lemma thermocouple_of_raw_negative (raw : Z) :
  0 <= raw < 2 ^ 24 -> Z.testbit raw 23 = true ->
  (thermocouple_of_raw raw < 0)%Q.
Proof.
  intros H Hb.
  rewrite thermocouple_of_raw_steps, Hb, sign_fix24 by assumption.
  rewrite Z.shiftr_div_pow2 by lia.
  assert (Hneg : (raw - 2 ^ 24) / 2 ^ 5 < 0)
    by (apply Z.div_lt_upper_bound; lia).
  unfold Qlt. cbn [Qnum Qden Qmult inject_Z]. lia.
Qed.

Section Temperatures.

Context {W : Type} {P : Platform W}.

Lemma readCJTemperature_spec (s : Driver W) :
  forall bs w,
    spi_write_then_read [Byte.x0a] 2 (world s) = (bs, w) ->
    readCJTemperature s =
    (FNum (inject_Z (big_endian16 bs) / 256.0),
     after_read s MAX31856_CJTH_REG 2 bs w).
Proof.
  intros bs w H. unfold readCJTemperature, bind.
  rewrite (readRegister16_spec _ _ bs w) by exact H. reflexivity.
Qed.

(** The cold-junction result is the unsigned register value over 256: it is
    never negative. *)
Lemma readCJTemperature_nonnegative (s : Driver W) :
  exists q, fst (readCJTemperature s) = FNum q /\ (0 <= q)%Q.
Proof.
  destruct (spi_write_then_read [Byte.x0a] 2 (world s)) as [bs w] eqn:E.
  rewrite (readCJTemperature_spec s bs w E). eexists. split; [reflexivity|].
  pose proof (big_endian16_range bs) as H.
  unfold Qle. cbn [Qnum Qden Qdiv Qmult Qinv inject_Z]. lia.
Qed.

(** Without the blocking wait the function is the register read and its
    decoding. *)
Lemma readThermocoupleTemperature_nowait (fuel : nat) (s : Driver W) :
  is_oneshot (conversionMode s) = false ->
  forall bs w,
    spi_write_then_read [Byte.x0c] 3 (world s) = (bs, w) ->
    readThermocoupleTemperature fuel s =
    (Some (FNum (thermocouple_of_raw (big_endian24 bs))),
     after_read s MAX31856_LTCBH_REG 3 bs w).
Proof.
  intros Hm bs w H.
  unfold readThermocoupleTemperature, bind, get_mode. rewrite Hm.
  unfold ret.
  rewrite (readRegister24_spec _ _ bs w) by exact H. reflexivity.
Qed.

Lemma last_event_after_read (s : Driver W) addr n bs w :
  last_event (trace (after_read s addr n bs w)) =
  Some (EvWriteThenRead [to_u8 (wrap8 (Z.land addr 0x7F))] n bs).
Proof.
  unfold after_read, log, last_event. cbn [trace].
  rewrite rev_app_distr. reflexivity.
Qed.

(** A number returned in any mode is the decoding of the three bytes that
    the last transaction read from the temperature registers. *)
Lemma readThermocoupleTemperature_number (fuel : nat) (s : Driver W) :
  forall q s',
    readThermocoupleTemperature fuel s = (Some (FNum q), s') ->
    exists bs,
      last_event (trace s') = Some (EvWriteThenRead [Byte.x0c] 3 bs) /\
      q = thermocouple_of_raw (big_endian24 bs).
Proof.
  intros q s'. unfold readThermocoupleTemperature, bind at 1.
  unfold get_mode, bind at 1.
  match goal with
  | |- (let (_, _) := ?m in _) = _ -> _ => destruct m as [o s1]
  end.
  destruct o; unfold ret; try discriminate.
  unfold bind.
  destruct (spi_write_then_read [Byte.x0c] 3 (world s1)) as [bs w] eqn:E.
  rewrite (readRegister24_spec _ _ bs w) by exact E.
  intros H. injection H as Hq Hs. subst q s'.
  exists bs. split; [apply last_event_after_read | reflexivity].
Qed.

End Temperatures.

(** ** Cold-junction temperature (C1) *)

(** C1, evaluated where it fails: with the cold-junction register pair
    holding [0xFF 0x00] (bit 15 set; -1 degree Celsius as a signed value with
    eight fractional bits), [readCJTemperature] returns 255, not a negative
    number.  The value of [readRegister16] is a [uint16_t] and is divided
    as such; the earlier revision of the function converted it to [int16_t]
    first and returns -1 on the same registers. *)
Theorem readCJTemperature_bit15_set_is_positive :
  let s := SimChip.handle MAX31856_CONTINUOUS [(0x0A, 0xFF); (0x0B, 0x00)] in
  fst (spi_write_then_read [Byte.x0a] 2 (world s)) = [Byte.xff; Byte.x00] /\
  float_is (fst (readCJTemperature s)) 255 /\
  float_is (fst (Legacy.readCJTemperature s)) (-1).
Proof.
  cbv zeta. split; [reflexivity|]. split; vm_compute; reflexivity.
Qed.

(** ** Thermocouple temperature (C2, C3) *)

(** C2, as stated, fails: when the three bytes read are [0x19 0x00 0x00] the
    decoded temperature is not 200. *)
Lemma readThermocoupleTemperature_190000_is_not_200 :
  let s := SimChip.handle MAX31856_CONTINUOUS [(0x0C, 0x19)] in
  exists q s',
    readThermocoupleTemperature 0 s = (Some (FNum q), s') /\
    last_event (trace s') =
      Some (EvWriteThenRead [Byte.x0c] 3 [Byte.x19; Byte.x00; Byte.x00]) /\
    ~ (q == 200.0)%Q.
Proof.
  cbv zeta. eexists. eexists. split; [reflexivity|]. split; [reflexivity|].
  intros H. vm_compute in H. discriminate H.
Qed.

(** C2, amended: when the three linearized-temperature register bytes read
    are [0x19 0x00 0x00], the temperature [readThermocoupleTemperature]
    returns is 400.0 degrees Celsius ((0x190000 >> 5) * 0.0078125). *)
Theorem readThermocoupleTemperature_190000_is_400 :
  forall {W : Type} {P : Platform W} (s : Driver W) (fuel : nat)
         (q : Q) (s' : Driver W),
    readThermocoupleTemperature fuel s = (Some (FNum q), s') ->
    last_event (trace s') =
      Some (EvWriteThenRead [Byte.x0c] 3 [Byte.x19; Byte.x00; Byte.x00]) ->
    (q == 400.0)%Q.
Proof.
  intros W P s fuel q s' Hrun Hlast.
  destruct (readThermocoupleTemperature_number fuel s q s' Hrun)
    as (bs & Hbs & ->).
  rewrite Hbs in Hlast. injection Hlast as ->.
  vm_compute. reflexivity.
Qed.

Lemma readThermocoupleTemperature_190000_is_400_witness :
  (thermocouple_of_raw 0x190000 == 400.0)%Q.
Proof.
  exact (readThermocoupleTemperature_190000_is_400
           (SimChip.handle MAX31856_CONTINUOUS [(0x0C, 0x19)]) 0
           (thermocouple_of_raw 0x190000)
           (after_read (SimChip.handle MAX31856_CONTINUOUS [(0x0C, 0x19)])
                       MAX31856_LTCBH_REG 3
                       [Byte.x19; Byte.x00; Byte.x00]
                       (world (SimChip.handle MAX31856_CONTINUOUS
                                              [(0x0C, 0x19)])))
           eq_refl eq_refl).
Defined.

(** C3: whenever [readThermocoupleTemperature] returns a number, it is the
    decoding of the three bytes [bs] just read from the linearized-temperature
    registers, taken big-endian as [raw]: [0xFF000000] is ORed in when bit 23
    of [raw] is set, the signed 32-bit result (then [raw - 2^24]) is shifted
    right arithmetically by 5 bits and multiplied by 0.0078125; with bit 23
    set the number is negative. *)
Theorem readThermocoupleTemperature_decoding :
  forall {W : Type} {P : Platform W} (s : Driver W) (fuel : nat)
         (q : Q) (s' : Driver W),
    readThermocoupleTemperature fuel s = (Some (FNum q), s') ->
    exists bs,
      last_event (trace s') = Some (EvWriteThenRead [Byte.x0c] 3 bs) /\
      let raw := big_endian24 bs in
      let temp24 :=
        if Z.testbit raw 23 then to_int32 (Z.lor raw 0xFF000000) else raw in
      0 <= raw < 2 ^ 24 /\
      temp24 = (if Z.testbit raw 23 then raw - 2 ^ 24 else raw) /\
      q = (inject_Z (Z.shiftr temp24 5) * 0.0078125)%Q /\
      (Z.testbit raw 23 = true -> (q < 0)%Q).
Proof.
  intros W P s fuel q s' Hrun.
  destruct (readThermocoupleTemperature_number fuel s q s' Hrun)
    as (bs & Hbs & ->).
  exists bs. split; [exact Hbs|]. cbv zeta.
  pose proof (big_endian24_range bs) as Hr.
  split; [exact Hr|]. split.
  - destruct (Z.testbit (big_endian24 bs) 23); [apply sign_fix24; exact Hr|reflexivity].
  - split; [apply thermocouple_of_raw_steps; exact Hr|].
    apply thermocouple_of_raw_negative; exact Hr.
Qed.

Lemma readThermocoupleTemperature_decoding_witness :
  exists q s',
    readThermocoupleTemperature 0
      (SimChip.handle MAX31856_ONESHOT_NOWAIT [(0x0C, 0xE7)])
    = (Some (FNum q), s') /\ (q == -400.0)%Q.
Proof.
  pose (s := SimChip.handle MAX31856_ONESHOT_NOWAIT [(0x0C, 0xE7)]).
  pose (q := thermocouple_of_raw 0xE70000).
  pose (s' := after_read s MAX31856_LTCBH_REG 3
                         [Byte.xe7; Byte.x00; Byte.x00] (world s)).
  exists q, s'.
  assert (E : readThermocoupleTemperature 0 s = (Some (FNum q), s'))
    by (vm_compute; reflexivity).
  destruct (readThermocoupleTemperature_decoding s 0 q s' E)
    as (bs & Hbs & _ & _ & Hq & _).
  split; [exact E|].
  rewrite Hq. injection Hbs as <-. vm_compute. reflexivity.
Defined.

(** ** Bits of the values written *)

Ltac bit_consts :=
  repeat match goal with
    | |- context [Z.testbit (Z.pos ?p) ?i] =>
        let v := eval vm_compute in (Z.testbit (Z.pos p) i) in
        change (Z.testbit (Z.pos p) i) with v
    | |- context [Z.testbit (Z.neg ?p) ?i] =>
        let v := eval vm_compute in (Z.testbit (Z.neg p) i) in
        change (Z.testbit (Z.neg p) i) with v
    | |- context [Z.ltb ?a ?b] =>
        let v := eval vm_compute in (Z.ltb a b) in
        change (Z.ltb a b) with v
    end.

(** Reduces a bit of a value built from [wrap8], [Z.lor], [Z.land] and
    [Z.lnot] to the bits of its variables. *)
Ltac bit_at :=
  unfold wrap8;
  repeat first [ rewrite Z.testbit_mod_pow2 by lia
               | rewrite Z.lor_spec | rewrite Z.land_spec
               | rewrite Z.lnot_spec by lia ];
  bit_consts.

Lemma wrap8_small (z : Z) : 0 <= z < 2 ^ 8 -> wrap8 z = z.
Proof. intros H. apply Z.mod_small. exact H. Qed.

Lemma wrap8_range (z : Z) : 0 <= wrap8 z < 2 ^ 8.
Proof. apply Z.mod_pos_bound. lia. Qed.

Lemma wrap8_idem (z : Z) : wrap8 (wrap8 z) = wrap8 z.
Proof. apply wrap8_small, wrap8_range. Qed.

Lemma to_u8_wrap8 (z : Z) : to_u8 (wrap8 z) = to_u8 z.
Proof.
  apply byte.unsigned_inj. fold (u8 (to_u8 (wrap8 z))). fold (u8 (to_u8 z)).
  rewrite !u8_to_u8. apply wrap8_idem.
Qed.

(** The type nibble replaces the low four bits and keeps the high four. *)
Lemma type_nibble_low (r type : Z) :
  0 <= type < 16 ->
  Z.land (wrap8 (cr1_with_type r type)) 0x0F = type.
Proof.
  intros Ht. unfold cr1_with_type, wrap8.
  change 0x0F with (Z.ones 4). change 0xF0 with (Z.shiftl (Z.ones 4) 4).
  rewrite <- (Z.mod_small type (2 ^ 4)) at 2 by lia.
  Z.bitblast.
Qed.

Lemma type_nibble_high (r type : Z) :
  0 <= r < 2 ^ 8 ->
  Z.land (wrap8 (cr1_with_type r type)) 0xF0 = Z.land r 0xF0.
Proof.
  intros Hr. unfold cr1_with_type, wrap8.
  change 0x0F with (Z.ones 4). change 0xF0 with (Z.shiftl (Z.ones 4) 4).
  rewrite <- (Z.mod_small r (2 ^ 8)) at 2 by lia.
  Z.bitblast.
Qed.

Lemma land_0F (t : Z) : Z.land t 0x0F = t mod 16.
Proof. change 0x0F with (Z.ones 4). apply Z.land_ones. lia. Qed.

Lemma low_nibble (t : Z) :
  0 <= t < 2 ^ 8 -> wrap8 (Z.land t 0x0F) = t mod 16.
Proof.
  intros Ht. change 0x0F with (Z.ones 4). rewrite Z.land_ones by lia.
  apply wrap8_small. change (2 ^ 4) with 16. change (2 ^ 8) with 256.
  pose proof (Z.mod_pos_bound t 16). lia.
Qed.

(** ** Mode flags written to the main configuration register *)

Lemma cr0_oneshot_bit6 (t : Z) : Z.testbit (cr0_oneshot t) 6 = true.
Proof.
  unfold cr0_oneshot, MAX31856_CR0_AUTOCONVERT, MAX31856_CR0_1SHOT.
  bit_at. btauto.
Qed.

Lemma cr0_oneshot_bit7 (t : Z) : Z.testbit (cr0_oneshot t) 7 = false.
Proof.
  unfold cr0_oneshot, MAX31856_CR0_AUTOCONVERT, MAX31856_CR0_1SHOT.
  bit_at. btauto.
Qed.

Lemma cr0_continuous_bit6 (t : Z) : Z.testbit (cr0_continuous t) 6 = false.
Proof.
  unfold cr0_continuous, MAX31856_CR0_AUTOCONVERT, MAX31856_CR0_1SHOT.
  bit_at. btauto.
Qed.

Lemma cr0_continuous_bit7 (t : Z) : Z.testbit (cr0_continuous t) 7 = true.
Proof.
  unfold cr0_continuous, MAX31856_CR0_AUTOCONVERT, MAX31856_CR0_1SHOT.
  bit_at. btauto.
Qed.

(** The noise-filter update leaves the mode flags as they were read. *)
Lemma cr0_with_filter_bit (t : Z) (f : max31856_noise_filter_t) (k : Z) :
  k = 6 \/ k = 7 ->
  Z.testbit (cr0_with_filter t f) k = Z.testbit t k.
Proof.
  intros [-> | ->]; destruct f; unfold cr0_with_filter; bit_at; btauto.
Qed.

Lemma wrap8_bit (z k : Z) :
  0 <= k < 8 -> Z.testbit (wrap8 z) k = Z.testbit z k.
Proof.
  intros Hk. unfold wrap8. rewrite Z.testbit_mod_pow2 by lia.
  replace (k <? 8) with true by (symmetry; apply Z.ltb_lt; lia).
  reflexivity.
Qed.

(** ** Thermocouple type (C5, C10) *)

Lemma tctype_of_code_defined (e : max31856_thermocoupletype_t) :
  tctype_of_code (tctype_code e) = Some e.
Proof. destruct e; reflexivity. Qed.

Lemma tctype_of_code_undefined (t : Z) :
  0 <= t <= 15 ->
  (tctype_of_code t = None <-> In t [9; 10; 11; 13; 14; 15]).
Proof.
  intros Ht.
  assert (H : t = 0 \/ t = 1 \/ t = 2 \/ t = 3 \/ t = 4 \/ t = 5 \/ t = 6
              \/ t = 7 \/ t = 8 \/ t = 9 \/ t = 10 \/ t = 11 \/ t = 12
              \/ t = 13 \/ t = 14 \/ t = 15) by lia.
  repeat (destruct H as [-> | H]); try subst t;
    (split; [ intros E; first [ discriminate E | simpl; tauto ]
            | intros I; first [ reflexivity
                              | simpl in I; exfalso; intuition discriminate ] ]).
Qed.

Section ThermocoupleType.

Context {W : Type} {P : Platform W}.

Lemma getThermocoupleType_spec (s : Driver W) :
  forall bs w,
    spi_write_then_read [Byte.x01] 1 (world s) = (bs, w) ->
    getThermocoupleType s =
    (buffer_at bs 0 mod 16, after_read s MAX31856_CR1_REG 1 bs w).
Proof.
  intros bs w H. unfold getThermocoupleType, bind.
  rewrite (readRegister8_spec _ _ bs w) by exact H.
  unfold ret. rewrite low_nibble by apply buffer_at_range. reflexivity.
Qed.

Lemma getThermocoupleType_peek (s : Driver W) :
  fst (getThermocoupleType s) = peek MAX31856_CR1_REG (world s) mod 16.
Proof.
  destruct (spi_write_then_read [Byte.x01] 1 (world s)) as [bs w] eqn:E.
  rewrite (getThermocoupleType_spec s bs w E). unfold peek.
  change (to_u8 (wrap8 (Z.land MAX31856_CR1_REG 0x7F))) with Byte.x01.
  rewrite E. reflexivity.
Qed.

(** The platform state [setThermocoupleType] leaves behind: the register
    was read, then written with the merged byte. *)
Lemma setThermocoupleType_world (type : Z) (s : Driver W) :
  forall bs w,
    spi_write_then_read [Byte.x01] 1 (world s) = (bs, w) ->
    world (snd (setThermocoupleType type s)) =
    spi_write [Byte.x81; to_u8 (cr1_with_type (buffer_at bs 0) type)] w.
Proof.
  intros bs w H. unfold setThermocoupleType, bind.
  rewrite (readRegister8_spec _ _ bs w) by exact H.
  unfold writeRegister8, dev_write. cbn [snd world after_read].
  rewrite wrap8_idem. reflexivity.
Qed.

End ThermocoupleType.

(** C5: on a device whose type-configuration register holds what was last
    written to it, for every 4-bit code [t] and every prior content of the
    register, [getThermocoupleType] after [setThermocoupleType t] returns
    [t], and the upper four bits of the register are the same after
    [setThermocoupleType t] as before. *)
Theorem set_get_ThermocoupleType :
  forall {W : Type} {P : Platform W} (s : Driver W) (t : Z),
    holds_written MAX31856_CR1_REG ->
    0 <= t < 16 ->
    let s1 := snd (setThermocoupleType t s) in
    fst (getThermocoupleType s1) = t /\
    Z.land (peek MAX31856_CR1_REG (world s1)) 0xF0
    = Z.land (peek MAX31856_CR1_REG (world s)) 0xF0.
Proof.
  intros W P s t Hmem Ht s1. subst s1.
  destruct (spi_write_then_read [Byte.x01] 1 (world s)) as [bs w] eqn:E.
  rewrite getThermocoupleType_peek.
  rewrite (setThermocoupleType_world t s bs w E).
  change Byte.x81
    with (to_u8 (wrap8 (Z.lor (wrap8 MAX31856_CR1_REG) 0x80))).
  rewrite Hmem, u8_to_u8.
  assert (Hr : peek MAX31856_CR1_REG (world s) = buffer_at bs 0).
  { unfold peek.
    change (to_u8 (wrap8 (Z.land MAX31856_CR1_REG 0x7F))) with Byte.x01.
    rewrite E. reflexivity. }
  rewrite Hr. split.
  - rewrite <- land_0F. apply type_nibble_low. exact Ht.
  - apply type_nibble_high. apply buffer_at_range.
Qed.

Lemma SimChip_holds_written_CR1 :
  holds_written (P := SimChip.platform) MAX31856_CR1_REG.
Proof. intros w v. reflexivity. Qed.

Lemma set_get_ThermocoupleType_witness :
  let s := SimChip.handle MAX31856_ONESHOT [(0x01, 0xA3)] in
  let s1 := snd (setThermocoupleType (tctype_code MAX31856_VMODE_G32) s) in
  fst (getThermocoupleType s1) = tctype_code MAX31856_VMODE_G32 /\
  Z.land (peek MAX31856_CR1_REG (world s1)) 0xF0
  = Z.land (peek MAX31856_CR1_REG (world s)) 0xF0.
Proof.
  intros s.
  apply (set_get_ThermocoupleType s (tctype_code MAX31856_VMODE_G32)).
  - intros w v. reflexivity.
  - simpl. lia.
Defined.

(** C10: [getThermocoupleType] returns the low four bits of the byte read
    from the type-configuration register, a value between 0 and 15; the six
    nibbles that are no enumerator's value (9, 10, 11, 13, 14, 15) name no
    enumerator and are returned as they are, for example 0b1001 from a
    register holding 0xA9. *)
Theorem getThermocoupleType_low_nibble :
  (forall {W : Type} {P : Platform W} (s : Driver W),
      let r := peek MAX31856_CR1_REG (world s) in
      let t := fst (getThermocoupleType s) in
      t = Z.land r 0x0F /\
      0 <= t <= 15 /\
      (tctype_of_code t = None <-> In t [9; 10; 11; 13; 14; 15]) /\
      (forall e, tctype_of_code t = Some e -> tctype_code e = t)) /\
  (let s := SimChip.handle MAX31856_ONESHOT [(0x01, 0xA9)] in
   fst (getThermocoupleType s) = 9 /\ tctype_of_code 9 = None).
Proof.
  split; [|split; reflexivity].
  intros W P s r t. subst r t.
  rewrite getThermocoupleType_peek.
  set (r := peek MAX31856_CR1_REG (world s)).
  assert (Hr : 0 <= r < 2 ^ 8) by apply buffer_at_range.
  assert (Hm : 0 <= r mod 16 <= 15)
    by (pose proof (Z.mod_pos_bound r 16); lia).
  split.
  - change 0x0F with (Z.ones 4). rewrite Z.land_ones by lia. reflexivity.
  - split; [exact Hm|]. split; [apply tctype_of_code_undefined; exact Hm|].
    intros e He. unfold tctype_of_code in He.
    apply find_some in He. destruct He as [_ He].
    apply Z.eqb_eq. exact He.
Qed.

(** ** Conversion status (C7) *)

Lemma conversionComplete_oneshot {W : Type} {P : Platform W} (s : Driver W) :
  is_continuous (conversionMode s) = false ->
  forall bs w,
    spi_write_then_read [Byte.x00] 1 (world s) = (bs, w) ->
    conversionComplete s =
    (negb (Z.testbit (buffer_at bs 0) 6), after_read s MAX31856_CR0_REG 1 bs w).
Proof.
  intros Hm bs w H. unfold conversionComplete, bind at 1, get_mode.
  rewrite Hm. unfold bind.
  rewrite (readRegister8_spec _ _ bs w) by exact H.
  unfold ret. f_equal.
  change MAX31856_CR0_1SHOT with (2 ^ 6).
  apply land_pow2_testbit. lia.
Qed.

(** C7: in CONTINUOUS mode [conversionComplete] returns true and leaves the
    object, the platform and the log as they were (no register is read); in
    the one-shot modes it issues one read of the main configuration register
    and returns true exactly when bit 6 (ONE_SHOT) of the byte read is
    clear. *)
Theorem conversionComplete_spec :
  forall {W : Type} {P : Platform W} (s : Driver W),
    let bs := fst (spi_write_then_read [Byte.x00] 1 (world s)) in
    let w := snd (spi_write_then_read [Byte.x00] 1 (world s)) in
    match conversionMode s with
    | MAX31856_CONTINUOUS => conversionComplete s = (true, s)
    | _ =>
        fst (conversionComplete s) = negb (Z.testbit (buffer_at bs 0) 6) /\
        snd (conversionComplete s) =
        MkDriver (initialized s) (conversionMode s) w
                 (trace s ++ [LogEntry (conversionMode s)
                                       (EvWriteThenRead [Byte.x00] 1 bs)])
    end.
Proof.
  intros W P s bs w.
  assert (Hread : is_continuous (conversionMode s) = false ->
                  conversionComplete s =
                  (negb (Z.testbit (buffer_at bs 0) 6),
                   after_read s MAX31856_CR0_REG 1 bs w)).
  { intros Hm. apply conversionComplete_oneshot; [exact Hm|].
    subst bs w. apply surjective_pairing. }
  destruct (conversionMode s) eqn:E.
  - rewrite Hread by reflexivity. unfold after_read, log. cbn [fst snd].
    rewrite E. split; reflexivity.
  - rewrite Hread by reflexivity. unfold after_read, log. cbn [fst snd].
    rewrite E. split; reflexivity.
  - unfold conversionComplete, bind, get_mode. rewrite E. reflexivity.
Qed.

(** ** Initialization (C8) *)

(** C8: [begin] returns what the acquisition of the transport returned, and
    records it in [initialized].  On failure nothing else is done.  On
    success the transactions are, in order: write 0x00 to the fault-mask
    register (0x02), write the open-circuit detection bit 0x10 to the main
    configuration register (0x00), write 0x00 to the cold-junction offset
    register (0x09), the read-modify-write of the type register (0x01) that
    sets type K (low nibble 3, high nibble as read), and the
    read-modify-write of the main configuration register that sets ONE_SHOT
    and clears AUTOCONVERT, with the stored mode set to the blocking
    one-shot mode. *)
Theorem begin_spec :
  forall {W : Type} {P : Platform W} (s : Driver W),
    let ok := fst (spi_begin (world s)) in
    let s' := snd (begin s) in
    fst (begin s) = ok /\
    initialized s' = ok /\
    if ok then
      conversionMode s' = MAX31856_ONESHOT /\
      exists bs1 bs0,
        let v1 := to_u8 (cr1_with_type (buffer_at bs1 0)
                                       (tctype_code MAX31856_TCTYPE_K)) in
        let v0 := to_u8 (cr0_oneshot (buffer_at bs0 0)) in
        trace s' =
        trace s
        ++ map (LogEntry (conversionMode s))
             [EvBegin true;
              EvWrite [Byte.x82; Byte.x00];
              EvWrite [Byte.x80; Byte.x10];
              EvWrite [Byte.x89; Byte.x00];
              EvWriteThenRead [Byte.x01] 1 bs1;
              EvWrite [Byte.x81; v1]]
        ++ map (LogEntry MAX31856_ONESHOT)
             [EvWriteThenRead [Byte.x00] 1 bs0;
              EvWrite [Byte.x80; v0]] /\
        Z.land (u8 v1) 0x0F = tctype_code MAX31856_TCTYPE_K /\
        Z.land (u8 v1) 0xF0 = Z.land (buffer_at bs1 0) 0xF0 /\
        Z.testbit (u8 v0) 6 = true /\
        Z.testbit (u8 v0) 7 = false
    else
      conversionMode s' = conversionMode s /\
      world s' = snd (spi_begin (world s)) /\
      trace s' = trace s ++ [LogEntry (conversionMode s) (EvBegin false)].
Proof.
  intros W P s. cbv zeta.
  remember (begin s) as r eqn:E.
  unfold begin, bind at 1, dev_begin in E.
  destruct (spi_begin (world s)) as [ok w1]. cbn [fst snd].
  destruct ok.
  - unfold bind at 1, set_initialized in E.
    cbn [negb initialized conversionMode world trace] in E.
    unfold writeRegister8 at 1 2 3, bind at 1 2 3, dev_write in E.
    cbn [negb initialized conversionMode world trace] in E.
    unfold setThermocoupleType, bind at 1 2, readRegister8, readRegisterN,
      bind at 1, dev_write_then_read in E.
    cbn [negb initialized conversionMode world trace] in E.
    match type of E with
    | context [spi_write_then_read ?a ?n ?w] =>
        destruct (spi_write_then_read a n w) as [bs1 w5]
    end.
    unfold ret at 1 in E. unfold writeRegister8, dev_write in E.
    cbn [negb initialized conversionMode world trace] in E.
    unfold bind at 1 in E.
    unfold setConversionMode, bind at 1, set_mode in E.
    cbn [negb initialized conversionMode world trace] in E.
    unfold readRegister8, readRegisterN, bind at 1 2, dev_write_then_read in E.
    cbn [negb initialized conversionMode world trace] in E.
    match type of E with
    | context [spi_write_then_read ?a ?n ?w] =>
        destruct (spi_write_then_read a n w) as [bs0 w7]
    end.
    unfold ret at 1 in E. unfold bind at 1, get_mode in E.
    cbn [negb initialized conversionMode world trace is_continuous] in E.
    unfold writeRegister8, dev_write, bind, ret, log in E.
    cbn [negb initialized conversionMode world trace fst snd] in E.
    subst r. cbn [initialized conversionMode world trace fst snd].
    split; [reflexivity|]. split; [reflexivity|]. split; [reflexivity|].
    exists bs1, bs0. cbv zeta. rewrite !u8_to_u8.
    split; [rewrite !wrap8_idem; cbn [map]; rewrite <- !app_assoc;
            reflexivity|].
    split; [apply type_nibble_low; cbn; lia|].
    split; [apply type_nibble_high, buffer_at_range|].
    rewrite !wrap8_bit by lia.
    split; [apply cr0_oneshot_bit6|apply cr0_oneshot_bit7].
  - unfold bind, set_initialized, ret, log in E.
    cbn [negb initialized conversionMode world trace fst snd] in E.
    subst r. cbn [initialized conversionMode world trace fst snd].
    repeat split; reflexivity.
Qed.

(** ** Fault thresholds (C9) *)

Lemma to_int16_range (z : Z) : - 2 ^ 15 <= to_int16 z < 2 ^ 15.
Proof.
  unfold to_int16. pose proof (Z.mod_pos_bound (z + 2 ^ 15) (2 ^ 16)). lia.
Qed.

(** The high byte then the low byte of an [int16_t] are its 16-bit two's
    complement image, most significant byte first. *)
Lemma int16_bytes (v : Z) :
  - 2 ^ 15 <= v < 2 ^ 15 ->
  to_int16 (big_endian16 [to_u8 (Z.shiftr v 8); to_u8 v]) = v.
Proof.
  intros Hv. unfold big_endian16, buffer_at. cbn [nth].
  rewrite !u8_to_u8. unfold wrap8, to_int16.
  rewrite Z.shiftr_div_pow2 by lia.
  change (2 ^ 8) with 256. change (2 ^ 15) with 32768 in *.
  change (2 ^ 16) with 65536.
  Z.div_mod_to_equations. lia.
Qed.

(** [Qtrunc] drops the fraction: the result lies between zero and the
    argument, less than one away from it. *)
Lemma Qtrunc_toward_zero (q : Q) :
  ((0 <= q -> inject_Z (Qtrunc q) <= q /\ q < inject_Z (Qtrunc q) + 1) /\
   (q <= 0 -> inject_Z (Qtrunc q) - 1 < q /\ q <= inject_Z (Qtrunc q)))%Q.
Proof.
  destruct q as [n d]. unfold Qtrunc, Qle, Qlt. cbn [Qnum Qden].
  pose proof (Z.quot_rem' n (Z.pos d)) as E.
  cbn [Qplus Qminus Qopp inject_Z Qnum Qden].
  change (1 * 1)%positive with 1%positive.
  split; intros Hn.
  - assert (H0 : 0 <= n) by lia.
    pose proof (Z.rem_bound_pos n (Z.pos d) H0 ltac:(lia)) as Hr.
    revert E Hr.
    generalize (n ÷ Z.pos d) as t. generalize (Z.rem n (Z.pos d)) as r.
    intros r t E Hr. nia.
  - assert (H0 : n <= 0) by lia.
    pose proof (Z.rem_bound_pos_neg n (Z.pos d) ltac:(lia) H0) as Hr.
    revert E Hr.
    generalize (n ÷ Z.pos d) as t. generalize (Z.rem n (Z.pos d)) as r.
    intros r t E Hr. nia.
Qed.

Lemma Qtrunc_monotone (p q : Q) : (p <= q)%Q -> Qtrunc p <= Qtrunc q.
Proof.
  intros Hpq.
  destruct (Qtrunc_toward_zero p) as [Hp0 Hp1].
  destruct (Qtrunc_toward_zero q) as [Hq0 Hq1].
  assert (Hlt : forall a b : Z, (inject_Z a < inject_Z b + 1)%Q -> a <= b).
  { intros a b H. unfold Qlt in H.
    cbn [Qnum Qden Qplus inject_Z] in H. lia. }
  assert (Hlt' : forall a b : Z, (inject_Z a - 1 < inject_Z b)%Q -> a <= b).
  { intros a b H. unfold Qlt in H.
    cbn [Qnum Qden Qplus Qminus Qopp inject_Z] in H. lia. }
  destruct (Qlt_le_dec p 0) as [Hneg|Hpos].
  - destruct (Hp1 (Qlt_le_weak _ _ Hneg)) as [Hp _].
    destruct (Qlt_le_dec q 0) as [Hqn|Hqp].
    + destruct (Hq1 (Qlt_le_weak _ _ Hqn)) as [_ Hq].
      apply Hlt'. eapply Qlt_le_trans; [exact Hp|].
      eapply Qle_trans; [exact Hpq | exact Hq].
    + destruct (Hq0 Hqp) as [_ Hq].
      assert (H1 : Qtrunc p <= 0).
      { apply (Hlt' _ 0). eapply Qlt_trans; [exact Hp | exact Hneg]. }
      assert (H2 : 0 <= Qtrunc q).
      { apply (Hlt 0). eapply Qle_lt_trans; [exact Hqp | exact Hq]. }
      lia.
  - destruct (Hp0 Hpos) as [Hp _].
    destruct (Hq0 (Qle_trans _ _ _ Hpos Hpq)) as [_ Hq].
    apply Hlt. eapply Qle_lt_trans; [exact Hp|].
    eapply Qle_lt_trans; [exact Hpq | exact Hq].
Qed.

Lemma Qtrunc_scaled_range (f : Q) :
  (-2048 <= f)%Q -> (f < 2048)%Q ->
  - 2 ^ 15 <= Qtrunc (f * 16) < 2 ^ 15.
Proof.
  intros Hlo Hhi.
  assert (H1 : (inject_Z (-32768) <= f * 16)%Q).
  { unfold Qle in *. cbn [Qnum Qden Qmult inject_Z] in *. lia. }
  assert (H2 : (f * 16 < inject_Z 32768)%Q).
  { unfold Qle, Qlt in *. cbn [Qnum Qden Qmult inject_Z] in *. lia. }
  pose proof (Qtrunc_monotone _ _ H1) as M1.
  change (Qtrunc (inject_Z (-32768))) with (-32768) in M1.
  change (2 ^ 15) with 32768. split; [exact M1|].
  destruct (Qlt_le_dec (f * 16) 0) as [Hneg|Hpos].
  - pose proof (Qtrunc_monotone _ _ (Qlt_le_weak _ _ Hneg)) as M0.
    change (Qtrunc 0) with 0 in M0. lia.
  - destruct (Qtrunc_toward_zero (f * 16)) as [Hp _].
    destruct (Hp Hpos) as [Hp' _].
    pose proof (Qle_lt_trans _ _ _ Hp' H2) as H.
    unfold Qlt in H. cbn [Qnum Qden inject_Z] in H. lia.
Qed.

Lemma float_to_int16_range {W : Type} {P : Platform W} (f : Q) :
  - 2 ^ 15 <= float_to_int16 f < 2 ^ 15.
Proof.
  unfold float_to_int16.
  destruct ((- 2 ^ 15 <=? Qtrunc f) && (Qtrunc f <? 2 ^ 15)) eqn:E.
  - apply andb_prop in E. destruct E as [E1 E2].
    apply Z.leb_le in E1. apply Z.ltb_lt in E2. split; assumption.
  - apply to_int16_range.
Qed.

(** Where the conversion is defined it is the truncation. *)
Lemma float_to_int16_defined {W : Type} {P : Platform W} (f : Q) :
  - 2 ^ 15 <= Qtrunc f < 2 ^ 15 -> float_to_int16 f = Qtrunc f.
Proof.
  intros [H1 H2]. unfold float_to_int16.
  apply Z.leb_le in H1. apply Z.ltb_lt in H2. rewrite H1, H2. reflexivity.
Qed.

(** C9: [setTempFaultThreshholds] scales each threshold by 16, converts it
    to an [int16_t] (the fixed-point value with four fractional bits) and
    issues four writes: the high byte and then the low byte of the high
    threshold to registers 0x05 and 0x06, the high byte and then the low byte
    of the low threshold to 0x07 and 0x08.  Each pair is the two's complement
    image of its [int16_t] value, most significant byte first.  Wherever the
    conversion is defined (the scaled value, its fraction dropped, is an
    [int16_t], as for every threshold in [-2048, 2048)) the value is the
    scaled threshold with its fraction dropped; outside, C++ leaves the
    conversion undefined and nothing is said of the value but that it is
    an [int16_t].  For 26.5 the value is 424 and the bytes are 0x01 then
    0xA8. *)
Theorem setTempFaultThreshholds_spec :
  forall {W : Type} {P : Platform W} (s : Driver W) (flow fhigh : Q),
    let low := @float_to_int16 W P (flow * 16)%Q in
    let high := @float_to_int16 W P (fhigh * 16)%Q in
    let hb := fun v : Z => to_u8 (Z.shiftr v 8) in
    let lb := fun v : Z => to_u8 v in
    trace (snd (setTempFaultThreshholds flow fhigh s)) =
    trace s ++ map (LogEntry (conversionMode s))
                   [EvWrite [Byte.x85; hb high]; EvWrite [Byte.x86; lb high];
                    EvWrite [Byte.x87; hb low]; EvWrite [Byte.x88; lb low]] /\
    (- 2 ^ 15 <= high < 2 ^ 15 /\
     to_int16 (big_endian16 [hb high; lb high]) = high) /\
    (- 2 ^ 15 <= low < 2 ^ 15 /\
     to_int16 (big_endian16 [hb low; lb low]) = low) /\
    (- 2 ^ 15 <= Qtrunc (flow * 16) < 2 ^ 15 -> low = Qtrunc (flow * 16)) /\
    (- 2 ^ 15 <= Qtrunc (fhigh * 16) < 2 ^ 15 -> high = Qtrunc (fhigh * 16)) /\
    ((-2048 <= flow)%Q -> (flow < 2048)%Q ->
     - 2 ^ 15 <= Qtrunc (flow * 16) < 2 ^ 15) /\
    ((-2048 <= fhigh)%Q -> (fhigh < 2048)%Q ->
     - 2 ^ 15 <= Qtrunc (fhigh * 16) < 2 ^ 15) /\
    (Qtrunc (26.5 * 16) = 424 /\
     @float_to_int16 W P (26.5 * 16)%Q = 424 /\
     hb 424 = Byte.x01 /\ lb 424 = Byte.xa8).
Proof.
  intros W P s flow fhigh low high hb lb.
  pose proof (@float_to_int16_range W P (flow * 16)%Q) as Rl.
  pose proof (@float_to_int16_range W P (fhigh * 16)%Q) as Rh.
  fold low in Rl. fold high in Rh.
  split.
  - unfold setTempFaultThreshholds, writeRegister8, bind, dev_write, log.
    cbn [snd initialized conversionMode world trace map].
    rewrite !to_u8_wrap8. rewrite <- !app_assoc. reflexivity.
  - split; [split; [exact Rh | apply int16_bytes; exact Rh]|].
    split; [split; [exact Rl | apply int16_bytes; exact Rl]|].
    split; [apply float_to_int16_defined|].
    split; [apply float_to_int16_defined|].
    split; [apply Qtrunc_scaled_range|].
    split; [apply Qtrunc_scaled_range|].
    repeat split; reflexivity.
Qed.

Lemma setTempFaultThreshholds_spec_witness :
  trace (snd (setTempFaultThreshholds (-10.25) 26.5
                (SimChip.handle MAX31856_ONESHOT []))) =
  map (LogEntry MAX31856_ONESHOT)
      [EvWrite [Byte.x85; Byte.x01]; EvWrite [Byte.x86; Byte.xa8];
       EvWrite [Byte.x87; Byte.xff]; EvWrite [Byte.x88; Byte.x5c]] /\
  @float_to_int16 SimChip.chip SimChip.platform (-10.25 * 16)%Q = -164.
Proof.
  destruct (setTempFaultThreshholds_spec
              (SimChip.handle MAX31856_ONESHOT []) (-10.25) 26.5)
    as (Ht & _ & _ & Hlow & _ & Hrange & _).
  split.
  - rewrite Ht. reflexivity.
  - rewrite Hlow; [reflexivity|].
    apply Hrange; vm_compute; (discriminate || reflexivity).
Defined.

(** ** The blocking read of the thermocouple temperature (C4) *)

Lemma elapsed_since (m0 e : Z) :
  0 <= e < 2 ^ 32 -> wrap32 (wrap32 (m0 + e) - wrap32 m0) = e.
Proof.
  intros He. unfold wrap32. rewrite <- Zminus_mod.
  replace (m0 + e - m0) with e by lia. apply Z.mod_small. exact He.
Qed.

Lemma polls_step (j : nat) :
  polls (S (S j)) = SRead Byte.x00 1 :: SDelay 10 :: polls (S j).
Proof. reflexivity. Qed.

Section Polling.

Context {W : Type} {P : Platform W}.

Lemma triggerOneShot_oneshot (s : Driver W) :
  is_continuous (conversionMode s) = false ->
  forall bs w,
    spi_write_then_read [Byte.x00] 1 (world s) = (bs, w) ->
    triggerOneShot s =
    (tt, after_write (after_read s MAX31856_CR0_REG 1 bs w)
                     MAX31856_CR0_REG (cr0_oneshot (buffer_at bs 0))).
Proof.
  intros Hm bs w H. unfold triggerOneShot, bind at 1, get_mode.
  rewrite Hm. unfold bind.
  rewrite (readRegister8_spec _ _ bs w) by exact H. reflexivity.
Qed.

Lemma peek_read (s : Driver W) (addr : Z) :
  forall bs w,
    spi_write_then_read [to_u8 (wrap8 (Z.land addr 0x7F))] 1 (world s) = (bs, w) ->
    buffer_at bs 0 = peek addr (world s).
Proof. intros bs w H. unfold peek. rewrite H. reflexivity. Qed.

Variable B : Z.
Hypothesis HB : 0 <= B < 2 ^ 30.
Hypothesis Hclock : clock_latency B.
Hypothesis Hstuck : oneshot_never_cleared.

(** With the flag stuck and at most [10 * j] ms of the 260 left at the head
    of the loop, the loop polls at most [j + 1] times, [delay(10)] between
    polls, and takes the [return NAN] at the first poll with more than 250 ms
    elapsed.  With an ideal clock the polls are exactly [j + 1]. *)
Lemma wait_conversion_expires (m0 : Z) :
  forall (j fuel : nat) (s : Driver W),
    is_continuous (conversionMode s) = false ->
    Z.testbit (peek MAX31856_CR0_REG (world s)) 6 = true ->
    260 - 10 * Z.of_nat j <= millis (world s) - m0 <= 260 + B ->
    (j <= 26)%nat -> (j < fuel)%nat ->
    exists s' new k,
      wait_conversion fuel (wrap32 m0) s = (WaitTimeout, s') /\
      trace s' = trace s ++ new /\
      map shape new = polls (S k) /\
      (k <= j)%nat /\
      250 < millis (world s') - m0 <= 260 + 2 * B /\
      (B = 0 -> millis (world s) - m0 = 260 - 10 * Z.of_nat j ->
       k = j /\ millis (world s') = m0 + 260).
Proof.
  destruct Hclock as (Hdelay & _ & Hread).
  destruct Hstuck as (_ & Hsr & Hsd).
  pose proof HB as HB'. change (2 ^ 30) with 1073741824 in HB'.
  induction j as [|j IH]; intros fuel s Hm Hbit He Hj Hf;
    (destruct fuel as [|fuel]; [lia|]);
    destruct (spi_write_then_read [Byte.x00] 1 (world s)) as [bs w] eqn:E;
    pose proof (peek_read s MAX31856_CR0_REG bs w E) as Hpk;
    pose proof (Hread (world s) [Byte.x00] 1%nat) as Hmw;
    pose proof (Hsr (world s) [Byte.x00] 1%nat Hbit) as Hbw;
    rewrite E in Hmw, Hbw; cbn [snd] in Hmw, Hbw;
    cbn [wait_conversion]; unfold bind at 1;
    rewrite (conversionComplete_oneshot s Hm bs w E), Hpk, Hbit;
    cbn [negb]; unfold bind at 1, dev_millis; cbn [world after_read];
    replace (millis w) with (m0 + (millis w - m0)) by lia;
    rewrite elapsed_since by (change (2 ^ 32) with 4294967296; lia);
    destruct (millis w - m0 >? 250) eqn:G;
    rewrite Z.gtb_ltb in G;
    [apply Z.ltb_lt in G | apply Z.ltb_ge in G
    |apply Z.ltb_lt in G | apply Z.ltb_ge in G].
  - unfold ret. eexists. eexists. exists 0%nat. split; [reflexivity|].
    cbn [trace after_read world]. unfold log.
    split; [reflexivity|]. split; [reflexivity|]. split; [lia|].
    split; lia.
  - lia.
  - unfold ret. eexists. eexists. exists 0%nat. split; [reflexivity|].
    cbn [trace after_read world]. unfold log.
    split; [reflexivity|]. split; [reflexivity|]. split; [lia|].
    split; lia.
  - unfold bind, dev_delay.
    cbn [initialized conversionMode world trace after_read].
    pose proof (Hdelay w 10 ltac:(lia)) as Hd.
    match goal with
    | |- context [wait_conversion fuel (wrap32 m0) ?s1] =>
        destruct (IH fuel s1)
          as (s' & new & k & Hrun & Htr & Hsh & Hk & Hmil & Hex)
    end.
    + exact Hm.
    + cbn [world]. apply Hsd. exact Hbw.
    + cbn [world]. lia.
    + lia.
    + lia.
    + exists s'. eexists. exists (S k). split; [exact Hrun|].
      split; [rewrite Htr; unfold after_read, log;
              cbn [trace conversionMode];
              rewrite <- !app_assoc; reflexivity|].
      split; [rewrite polls_step, <- Hsh; reflexivity|].
      split; [lia|]. split; [exact Hmil|].
      intros HB0 He0. cbn [world] in Hex.
      destruct (Hex HB0 ltac:(lia)) as [-> Hfin]. split; [reflexivity|exact Hfin].
Qed.

End Polling.

(** C4: in the blocking one-shot mode, on a device that never clears the
    ONE_SHOT flag, [readThermocoupleTemperature] triggers a conversion (reads
    the main configuration register and writes it back with ONE_SHOT set and
    AUTOCONVERT clear), then polls the register, [delay(10)] between
    consecutive polls, and returns [NAN] at the first poll with more than
    250 ms elapsed, without touching the temperature registers.  It takes at
    most 27 polls when a transaction costs at most [B] ms, and exactly 27
    polls and 260 ms when time passes in [delay] only.  In the other two
    modes the only transaction is the read of the three temperature
    registers, and a number is returned. *)
Theorem readThermocoupleTemperature_blocking_timeout :
  forall {W : Type} {P : Platform W} (s : Driver W) (fuel : nat) (B : Z),
    (conversionMode s = MAX31856_ONESHOT ->
     0 <= B < 2 ^ 30 -> clock_latency B -> oneshot_never_cleared ->
     (27 <= fuel)%nat ->
     exists s' bs v new k,
       readThermocoupleTemperature fuel s = (Some FNaN, s') /\
       trace s' =
       trace s
       ++ [LogEntry MAX31856_ONESHOT (EvWriteThenRead [Byte.x00] 1 bs);
           LogEntry MAX31856_ONESHOT (EvWrite [Byte.x80; v])]
       ++ new /\
       Z.testbit (u8 v) 6 = true /\
       Z.testbit (u8 v) 7 = false /\
       map shape new = polls k /\
       (1 <= k <= 27)%nat /\
       250 < millis (world s') - millis (world s) <= 260 + 4 * B /\
       (B = 0 -> k = 27%nat /\ millis (world s') = millis (world s) + 260)) /\
    (conversionMode s <> MAX31856_ONESHOT ->
     exists q s' bs,
       readThermocoupleTemperature fuel s = (Some (FNum q), s') /\
       trace s' =
       trace s ++ [LogEntry (conversionMode s)
                            (EvWriteThenRead [Byte.x0c] 3 bs)]).
Proof.
  intros W P s fuel B. split.
  - intros Hmode HB Hclock Hstuck Hfuel.
    assert (Hc : is_continuous (conversionMode s) = false)
      by (rewrite Hmode; reflexivity).
    destruct (spi_write_then_read [Byte.x00] 1 (world s)) as [bs w] eqn:E.
    set (v := to_u8 (wrap8 (cr0_oneshot (buffer_at bs 0)))).
    set (s1 := after_write (after_read s MAX31856_CR0_REG 1 bs w)
                           MAX31856_CR0_REG (cr0_oneshot (buffer_at bs 0))).
    assert (Hv6 : Z.testbit (u8 v) 6 = true).
    { subst v. rewrite u8_to_u8, !wrap8_bit by lia. apply cr0_oneshot_bit6. }
    assert (Hv7 : Z.testbit (u8 v) 7 = false).
    { subst v. rewrite u8_to_u8, !wrap8_bit by lia. apply cr0_oneshot_bit7. }
    assert (Hm1 : millis (world s) <= millis (world s1)
                  <= millis (world s) + 2 * B).
    { destruct Hclock as (_ & Hw & Hr). subst s1.
      cbn [world after_write after_read].
      specialize (Hr (world s) [Byte.x00] 1%nat). rewrite E in Hr.
      cbn [snd] in Hr.
      match goal with
      | |- _ <= millis (spi_write ?l ?w0) <= _ => specialize (Hw w0 l)
      end. lia. }
    destruct (wait_conversion_expires B HB Hclock Hstuck (millis (world s1))
                26 fuel s1)
      as (s' & new & k & Hrun & Htr & Hsh & Hk & Hmil & Hex).
    + exact Hc.
    + destruct Hstuck as (Hsw & _ & _). subst s1.
      cbn [world after_write after_read]. apply Hsw. exact Hv6.
    + lia.
    + lia.
    + lia.
    + exists s', bs, v, new, (S k).
      split.
      * unfold readThermocoupleTemperature, bind at 1, get_mode.
        rewrite Hmode. cbn [is_oneshot]. unfold bind at 1 2.
        rewrite (triggerOneShot_oneshot s Hc bs w E).
        fold s1. unfold bind at 1, dev_millis. rewrite Hrun.
        reflexivity.
      * split.
        { rewrite Htr. subst s1. unfold after_write, after_read, log.
          cbn [trace conversionMode]. rewrite Hmode, <- !app_assoc.
          reflexivity. }
        split; [exact Hv6|]. split; [exact Hv7|]. split; [exact Hsh|].
        split; [lia|]. split; [lia|].
        intros HB0. destruct (Hex HB0 ltac:(lia)) as [-> Hfin].
        split; [reflexivity|lia].
  - intros Hmode.
    assert (Ho : is_oneshot (conversionMode s) = false)
      by (destruct (conversionMode s); [congruence|reflexivity|reflexivity]).
    destruct (spi_write_then_read [Byte.x0c] 3 (world s)) as [bs w] eqn:E.
    eexists. eexists. exists bs.
    split; [apply (readThermocoupleTemperature_nowait fuel s Ho bs w E)|].
    reflexivity.
Qed.

Lemma SimChip_ideal_clock : ideal_clock (P := SimChip.platform).
Proof.
  split; [|split].
  - intros w ms Hms. simpl. lia.
  - intros w [|a ds]; [simpl; lia|].
    cbn [millis spi_write SimChip.platform]. unfold SimChip.sim_write.
    destruct (Z.testbit (u8 a) 7); simpl; lia.
  - intros w [|a wr] n; simpl; lia.
Qed.

Lemma SimChip_oneshot_never_cleared :
  oneshot_never_cleared (P := SimChip.platform).
Proof.
  split; [|split].
  - intros w v Hv. exact Hv.
  - intros w [|a wr] n H; exact H.
  - intros w ms H. exact H.
Qed.

Lemma readThermocoupleTemperature_blocking_timeout_witness :
  exists s',
    readThermocoupleTemperature 27
      (SimChip.handle MAX31856_ONESHOT [(0x0C, 0x19)]) = (Some FNaN, s') /\
    SimChip.clock (world s') = 260 /\
    exists q s2,
      readThermocoupleTemperature 27
        (SimChip.handle MAX31856_CONTINUOUS [(0x0C, 0x19)])
      = (Some (FNum q), s2).
Proof.
  destruct (readThermocoupleTemperature_blocking_timeout
              (SimChip.handle MAX31856_ONESHOT [(0x0C, 0x19)]) 27 0)
    as [Hblock _].
  destruct (Hblock eq_refl ltac:(split; [reflexivity|reflexivity])
                   SimChip_ideal_clock SimChip_oneshot_never_cleared
                   (le_n 27))
    as (s' & bs & v & new & k & Hrun & _ & _ & _ & _ & _ & _ & Hex).
  exists s'. split; [exact Hrun|]. split; [apply (Hex eq_refl)|].
  destruct (readThermocoupleTemperature_blocking_timeout
              (SimChip.handle MAX31856_CONTINUOUS [(0x0C, 0x19)]) 27 0)
    as [_ Hnow].
  destruct (Hnow ltac:(discriminate)) as (q & s2 & _ & Hrun2 & _).
  exists q, s2. exact Hrun2.
Defined.

(** ** Mode flags are never written against the stored mode (C6) *)

Lemma mode_ok_mono (m : max31856_conversion_mode_t) (v v' : Z) :
  (Z.testbit v' 6 = true -> Z.testbit v 6 = true) ->
  (Z.testbit v' 7 = true -> Z.testbit v 7 = true) ->
  mode_ok m v -> mode_ok m v'.
Proof.
  intros H6 H7. destruct m; unfold mode_ok; intros Hv.
  - destruct (Z.testbit v' 7); [rewrite H7 in Hv by reflexivity; discriminate|reflexivity].
  - destruct (Z.testbit v' 7); [rewrite H7 in Hv by reflexivity; discriminate|reflexivity].
  - destruct (Z.testbit v' 6); [rewrite H6 in Hv by reflexivity; discriminate|reflexivity].
Qed.

Lemma mode_ok_cr0_write (m : max31856_conversion_mode_t) (v : byte) :
  mode_ok m (u8 v) -> cr0_write_ok (LogEntry m (EvWrite [Byte.x80; v])) = true.
Proof.
  unfold cr0_write_ok, mode_ok. cbn [ev at_mode].
  change (Byte.eqb Byte.x80 Byte.x80) with true. cbv iota.
  destruct m; intros ->; reflexivity.
Qed.

Section ModeFlags.

Context {W : Type} {P : Platform W}.

Lemma preserves_ret {A : Type} (I : Driver W -> Prop) (a : A) :
  preserves I (ret a).
Proof. intros s H. exact H. Qed.

Lemma preserves_bind {A B : Type} (I : Driver W -> Prop)
      (m : M W A) (k : A -> M W B) :
  preserves I m -> (forall a, preserves I (k a)) -> preserves I (bind m k).
Proof.
  intros Hm Hk s H. unfold bind.
  specialize (Hm s H). destruct (m s) as [a s1]. apply Hk. exact Hm.
Qed.

Lemma preserves_if {A : Type} (I : Driver W -> Prop) (b : bool)
      (m1 m2 : M W A) :
  preserves I m1 -> preserves I m2 -> preserves I (if b then m1 else m2).
Proof. destruct b; auto. Qed.

Lemma preserves_get_mode (I : Driver W -> Prop) : preserves I get_mode.
Proof. intros s H. exact H. Qed.

Lemma preserves_dev_millis (I : Driver W -> Prop) : preserves I dev_millis.
Proof. intros s H. exact H. Qed.

Lemma trace_ok_log (s s' : Driver W) (e : bus_event) :
  trace s' = log s e ->
  cr0_write_ok (LogEntry (conversionMode s) e) = true ->
  trace_ok s -> trace_ok s'.
Proof.
  unfold trace_ok, log. intros -> He Hs.
  rewrite forallb_app, Hs. cbn [forallb]. rewrite He. reflexivity.
Qed.

Hypothesis Hdev : mode_flags_not_set_by_device.

Lemma flags_agree_kept (s s' : Driver W) :
  conversionMode s' = conversionMode s ->
  (forall k, k = 6 \/ k = 7 ->
             Z.testbit (peek MAX31856_CR0_REG (world s')) k = true ->
             Z.testbit (peek MAX31856_CR0_REG (world s)) k = true) ->
  flags_agree s -> flags_agree s'.
Proof.
  unfold flags_agree. intros -> Hk. apply mode_ok_mono; apply Hk; auto.
Qed.

Lemma Hdev_bit (k : Z) : k = 6 \/ k = 7 -> bit_not_set_by_device k.
Proof. destruct Hdev as [H6 H7]. intros [-> | ->]; assumption. Qed.

Lemma consistent_set_initialized (b : bool) :
  preserves consistent (set_initialized b).
Proof. intros s H. exact H. Qed.

Lemma consistent_dev_write_then_read (wr : list byte) (n : nat) :
  preserves consistent (dev_write_then_read wr n).
Proof.
  intros s [Hf Ht]. unfold dev_write_then_read.
  destruct (spi_write_then_read wr n (world s)) as [bs w] eqn:E.
  cbn [snd]. split.
  - apply (flags_agree_kept s); [reflexivity| |exact Hf].
    intros k Hk. cbn [world].
    destruct (Hdev_bit k Hk) as (Hr & _).
    specialize (Hr (world s) wr n). rewrite E in Hr. exact Hr.
  - apply (trace_ok_log s _ (EvWriteThenRead wr n bs));
      [reflexivity|reflexivity|exact Ht].
Qed.

Lemma consistent_dev_delay (ms : Z) : preserves consistent (dev_delay ms).
Proof.
  intros s [Hf Ht]. unfold dev_delay. cbn [snd]. split.
  - apply (flags_agree_kept s); [reflexivity| |exact Hf].
    intros k Hk. cbn [world].
    destruct (Hdev_bit k Hk) as (_ & Hd & _). apply Hd.
  - apply (trace_ok_log s _ (EvDelay ms)); [reflexivity|reflexivity|exact Ht].
Qed.

Lemma consistent_dev_begin : preserves consistent dev_begin.
Proof.
  intros s [Hf Ht]. unfold dev_begin.
  destruct (spi_begin (world s)) as [ok w] eqn:E. cbn [snd]. split.
  - apply (flags_agree_kept s); [reflexivity| |exact Hf].
    intros k Hk. cbn [world].
    destruct (Hdev_bit k Hk) as (_ & _ & Hb & _).
    specialize (Hb (world s)). rewrite E in Hb. exact Hb.
  - apply (trace_ok_log s _ (EvBegin ok)); [reflexivity|reflexivity|exact Ht].
Qed.

(** A write to another register than the main configuration register. *)
Lemma consistent_write_other (addr data : Z) :
  Byte.eqb (to_u8 (wrap8 (Z.lor (wrap8 addr) 0x80))) Byte.x80 = false ->
  preserves consistent (writeRegister8 addr data).
Proof.
  intros Ha s [Hf Ht]. unfold writeRegister8, dev_write. cbn [snd]. split.
  - apply (flags_agree_kept s); [reflexivity| |exact Hf].
    intros k Hk. cbn [world].
    destruct (Hdev_bit k Hk) as (_ & _ & _ & Hw).
    intros Hbit. apply Hw in Hbit. rewrite Ha in Hbit. exact Hbit.
  - eapply (trace_ok_log s); [reflexivity| |exact Ht].
    unfold cr0_write_ok. cbn [ev]. rewrite Ha. reflexivity.
Qed.

(** A write to the main configuration register of a byte that fits the
    stored mode: the log stays good and the register fits the mode after
    it, whatever it held before. *)
Lemma consistent_write_cr0 (data : Z) (s : Driver W) :
  mode_ok (conversionMode s) data -> trace_ok s ->
  consistent (snd (writeRegister8 MAX31856_CR0_REG data s)).
Proof.
  intros Hd Ht.
  assert (Hv : mode_ok (conversionMode s) (u8 (to_u8 (wrap8 data)))).
  { rewrite u8_to_u8. revert Hd.
    apply mode_ok_mono; rewrite !wrap8_bit by lia; auto. }
  unfold writeRegister8, dev_write. cbn [snd].
  change (to_u8 (wrap8 (Z.lor (wrap8 MAX31856_CR0_REG) 0x80))) with Byte.x80.
  split.
  - unfold flags_agree. cbn [world conversionMode]. revert Hv.
    apply mode_ok_mono; intros Hbit.
    + destruct (Hdev_bit 6 ltac:(auto)) as (_ & _ & _ & Hw).
      apply Hw in Hbit. exact Hbit.
    + destruct (Hdev_bit 7 ltac:(auto)) as (_ & _ & _ & Hw).
      apply Hw in Hbit. exact Hbit.
  - eapply (trace_ok_log s); [reflexivity| |exact Ht].
    apply mode_ok_cr0_write. exact Hv.
Qed.

Lemma trace_ok_readRegister8 (addr : Z) :
  preserves trace_ok (readRegister8 addr).
Proof.
  intros s Ht. unfold readRegister8, readRegisterN, bind, dev_write_then_read.
  destruct (spi_write_then_read _ 1 (world s)) as [bs w]. cbn [snd ret].
  eapply (trace_ok_log s); [reflexivity|reflexivity|exact Ht].
Qed.

Lemma trace_ok_dev_begin : preserves trace_ok dev_begin.
Proof.
  intros s Ht. unfold dev_begin.
  destruct (spi_begin (world s)) as [ok w]. cbn [snd].
  eapply (trace_ok_log s); [reflexivity|reflexivity|exact Ht].
Qed.

Lemma trace_ok_write_other (addr data : Z) :
  Byte.eqb (to_u8 (wrap8 (Z.lor (wrap8 addr) 0x80))) Byte.x80 = false ->
  preserves trace_ok (writeRegister8 addr data).
Proof.
  intros Ha s Ht. unfold writeRegister8, dev_write. cbn [snd].
  eapply (trace_ok_log s); [reflexivity| |exact Ht].
  unfold cr0_write_ok. cbn [ev]. rewrite Ha. reflexivity.
Qed.

Lemma consistent_readRegisterN (addr : Z) (n : nat) :
  preserves consistent (readRegisterN addr n).
Proof. apply consistent_dev_write_then_read. Qed.

Lemma consistent_readRegister8 (addr : Z) :
  preserves consistent (readRegister8 addr).
Proof.
  apply preserves_bind; [apply consistent_readRegisterN|].
  intros bs. apply preserves_ret.
Qed.

Lemma consistent_readRegister16 (addr : Z) :
  preserves consistent (readRegister16 addr).
Proof.
  apply preserves_bind; [apply consistent_readRegisterN|].
  intros bs. apply preserves_ret.
Qed.

Lemma consistent_readRegister24 (addr : Z) :
  preserves consistent (readRegister24 addr).
Proof.
  apply preserves_bind; [apply consistent_readRegisterN|].
  intros bs. apply preserves_ret.
Qed.

Lemma readRegister8_run (addr : Z) (s : Driver W) :
  fst (readRegister8 addr s) = peek addr (world s) /\
  conversionMode (snd (readRegister8 addr s)) = conversionMode s.
Proof.
  destruct (spi_write_then_read [to_u8 (wrap8 (Z.land addr 0x7F))] 1 (world s))
    as [bs w] eqn:E.
  rewrite (readRegister8_spec addr s bs w E). cbn [fst snd].
  split; [apply (peek_read s addr bs w E)|reflexivity].
Qed.

Lemma rmw_run (addr : Z) (f : Z -> Z) (s : Driver W) :
  rmw addr f s =
  writeRegister8 addr (f (fst (readRegister8 addr s)))
                 (snd (readRegister8 addr s)).
Proof. unfold rmw, bind. destruct (readRegister8 addr s). reflexivity. Qed.

(** A read-modify-write of the main configuration register whose update
    forces flags that fit the stored mode. *)
Lemma consistent_rmw_cr0_forced (f : Z -> Z) (s : Driver W) :
  (forall t, mode_ok (conversionMode s) (f t)) -> trace_ok s ->
  consistent (snd (rmw MAX31856_CR0_REG f s)).
Proof.
  intros Hf Ht. rewrite rmw_run.
  destruct (readRegister8_run MAX31856_CR0_REG s) as [_ Hm].
  apply consistent_write_cr0.
  - rewrite Hm. apply Hf.
  - apply trace_ok_readRegister8. exact Ht.
Qed.

(** A read-modify-write of the main configuration register whose update
    leaves the mode flags as read. *)
Lemma consistent_rmw_cr0_echo (f : Z -> Z) :
  (forall t k, k = 6 \/ k = 7 -> Z.testbit (f t) k = Z.testbit t k) ->
  preserves consistent (rmw MAX31856_CR0_REG f).
Proof.
  intros Hf s Hs. rewrite rmw_run.
  destruct (readRegister8_run MAX31856_CR0_REG s) as [Hv Hm].
  pose proof (consistent_readRegister8 MAX31856_CR0_REG s Hs) as [_ Ht1].
  apply consistent_write_cr0; [|exact Ht1].
  rewrite Hm, Hv. destruct Hs as [Hfl _]. revert Hfl.
  unfold flags_agree. apply mode_ok_mono; rewrite Hf by auto; auto.
Qed.

Lemma consistent_rmw_other (addr : Z) (f : Z -> Z) :
  Byte.eqb (to_u8 (wrap8 (Z.lor (wrap8 addr) 0x80))) Byte.x80 = false ->
  preserves consistent (rmw addr f).
Proof.
  intros Ha. apply preserves_bind; [apply consistent_readRegister8|].
  intros t. apply consistent_write_other. exact Ha.
Qed.

Lemma consistent_setThermocoupleType (type : Z) :
  preserves consistent (setThermocoupleType type).
Proof.
  change (setThermocoupleType type)
    with (rmw MAX31856_CR1_REG (fun t => cr1_with_type t type)).
  apply consistent_rmw_other. reflexivity.
Qed.

Lemma consistent_setNoiseFilter (noiseFilter : max31856_noise_filter_t) :
  preserves consistent (setNoiseFilter noiseFilter).
Proof.
  change (setNoiseFilter noiseFilter)
    with (rmw MAX31856_CR0_REG (fun t => cr0_with_filter t noiseFilter)).
  apply consistent_rmw_cr0_echo. intros t k Hk.
  apply cr0_with_filter_bit. exact Hk.
Qed.

Lemma consistent_triggerOneShot : preserves consistent triggerOneShot.
Proof.
  intros s Hs. unfold triggerOneShot, bind at 1, get_mode.
  destruct (is_continuous (conversionMode s)) eqn:Hm; [exact Hs|].
  change (consistent (snd (rmw MAX31856_CR0_REG cr0_oneshot s))).
  apply consistent_rmw_cr0_forced; [|apply Hs].
  intros t. destruct (conversionMode s); try discriminate Hm;
    apply cr0_oneshot_bit7.
Qed.

(** [setConversionMode] needs nothing of the register's previous content. *)
Lemma consistent_setConversionMode (mode : max31856_conversion_mode_t)
      (s : Driver W) :
  trace_ok s -> consistent (snd (setConversionMode mode s)).
Proof.
  intros Ht.
  set (s0 := MkDriver (initialized s) mode (world s) (trace s)).
  assert (E : setConversionMode mode s =
              rmw MAX31856_CR0_REG
                  (if is_continuous mode then cr0_continuous else cr0_oneshot)
                  s0).
  { unfold setConversionMode, rmw, bind at 1, set_mode. fold s0.
    unfold bind.
    destruct (spi_write_then_read [Byte.x00] 1 (world s0)) as [bs w] eqn:E.
    rewrite (readRegister8_spec _ s0 bs w) by exact E.
    unfold get_mode. cbn [conversionMode after_read s0].
    destruct (is_continuous mode); reflexivity. }
  rewrite E. apply consistent_rmw_cr0_forced; [|exact Ht].
  intros t. cbn [conversionMode s0].
  destruct mode; cbn [is_continuous mode_ok];
    first [apply cr0_oneshot_bit7 | apply cr0_continuous_bit6].
Qed.

Lemma consistent_conversionComplete : preserves consistent conversionComplete.
Proof.
  apply preserves_bind; [apply preserves_get_mode|]. intros m.
  apply preserves_if; [apply preserves_ret|].
  apply preserves_bind; [apply consistent_readRegister8|].
  intros t. apply preserves_ret.
Qed.

Lemma consistent_wait_conversion (fuel : nat) (start : Z) :
  preserves consistent (wait_conversion fuel start).
Proof.
  induction fuel as [|fuel IH]; cbn [wait_conversion].
  - apply preserves_ret.
  - apply preserves_bind; [apply consistent_conversionComplete|]. intros c.
    apply preserves_if; [apply preserves_ret|].
    apply preserves_bind; [apply preserves_dev_millis|]. intros now.
    apply preserves_if; [apply preserves_ret|].
    apply preserves_bind; [apply consistent_dev_delay|]. intros _. exact IH.
Qed.

Lemma consistent_readThermocoupleTemperature (fuel : nat) :
  preserves consistent (readThermocoupleTemperature fuel).
Proof.
  apply preserves_bind; [apply preserves_get_mode|]. intros m.
  apply preserves_bind.
  - apply preserves_if; [|apply preserves_ret].
    apply preserves_bind; [apply consistent_triggerOneShot|]. intros _.
    apply preserves_bind; [apply preserves_dev_millis|]. intros start.
    apply consistent_wait_conversion.
  - intros [| |]; try apply preserves_ret.
    apply preserves_bind; [apply consistent_readRegister24|].
    intros raw. apply preserves_ret.
Qed.

Lemma consistent_begin : preserves consistent begin.
Proof.
  apply preserves_bind; [apply consistent_dev_begin|]. intros ok.
  apply preserves_bind; [apply consistent_set_initialized|]. intros _.
  apply preserves_if; [apply preserves_ret|].
  apply preserves_bind; [apply consistent_write_other; reflexivity|]. intros _.
  apply preserves_bind.
  { intros s Hs. apply consistent_write_cr0; [|apply Hs].
    destruct (conversionMode s); reflexivity. }
  intros _.
  apply preserves_bind; [apply consistent_write_other; reflexivity|]. intros _.
  apply preserves_bind; [apply consistent_setThermocoupleType|]. intros _.
  apply preserves_bind; [|intros _; apply preserves_ret].
  intros s Hs. apply consistent_setConversionMode. apply Hs.
Qed.

(** A successful [begin] makes the register fit the stored mode, whatever
    it held before. *)
Lemma begin_establishes (s : Driver W) :
  trace_ok s -> fst (spi_begin (world s)) = true ->
  consistent (snd (begin s)).
Proof.
  intros Ht Hok. unfold begin, bind at 1.
  pose proof (trace_ok_dev_begin s Ht) as Ht1.
  assert (Hfst : fst (dev_begin s) = true).
  { unfold dev_begin. destruct (spi_begin (world s)). exact Hok. }
  destruct (dev_begin s) as [ok s1]. cbn [fst snd] in *. subst ok.
  unfold bind at 1, set_initialized. cbn [negb].
  set (s2 := MkDriver true (conversionMode s1) (world s1) (trace s1)).
  assert (Ht2 : trace_ok s2) by exact Ht1.
  unfold bind at 1.
  pose proof (trace_ok_write_other MAX31856_MASK_REG 0 eq_refl s2 Ht2) as Ht3.
  destruct (writeRegister8 MAX31856_MASK_REG 0 s2) as [[] s3]. cbn [snd] in Ht3.
  unfold bind at 1.
  assert (Hc4 : consistent
                  (snd (writeRegister8 MAX31856_CR0_REG MAX31856_CR0_OCFAULT0 s3))).
  { apply consistent_write_cr0; [|exact Ht3].
    destruct (conversionMode s3); reflexivity. }
  destruct (writeRegister8 MAX31856_CR0_REG MAX31856_CR0_OCFAULT0 s3)
    as [[] s4].
  cbn [snd] in Hc4. revert s4 Hc4.
  change (preserves consistent
            (writeRegister8 MAX31856_CJTO_REG 0;;;
             setThermocoupleType (tctype_code MAX31856_TCTYPE_K);;;
             setConversionMode MAX31856_ONESHOT;;; ret true)).
  apply preserves_bind; [apply consistent_write_other; reflexivity|]. intros _.
  apply preserves_bind; [apply consistent_setThermocoupleType|]. intros _.
  apply preserves_bind; [|intros _; apply preserves_ret].
  intros s5 Hs. apply consistent_setConversionMode. apply Hs.
Qed.

Lemma consistent_ignore {A : Type} (m : M W A) :
  preserves consistent m -> preserves consistent (ignore m).
Proof.
  intros H. apply preserves_bind; [exact H|]. intros _. apply preserves_ret.
Qed.

Lemma consistent_run_op (fuel : nat) (o : op) :
  preserves consistent (run_op fuel o).
Proof.
  destruct o; cbn [run_op].
  - apply consistent_ignore, consistent_begin.
  - intros s Hs. apply consistent_setConversionMode. apply Hs.
  - apply consistent_ignore, preserves_get_mode.
  - apply consistent_setThermocoupleType.
  - apply consistent_ignore.
    apply preserves_bind; [apply consistent_readRegister8|].
    intros t. apply preserves_ret.
  - apply consistent_ignore, consistent_readRegister8.
  - apply consistent_triggerOneShot.
  - apply consistent_ignore, consistent_conversionComplete.
  - apply consistent_ignore.
    apply preserves_bind; [apply consistent_readRegister16|].
    intros r. apply preserves_ret.
  - apply consistent_ignore, consistent_readThermocoupleTemperature.
  - repeat (apply preserves_bind;
            [apply consistent_write_other; reflexivity|intros _]).
    apply consistent_write_other. reflexivity.
  - apply preserves_bind; [apply consistent_write_other; reflexivity|].
    intros _. apply consistent_write_other. reflexivity.
  - apply consistent_setNoiseFilter.
Qed.

Lemma consistent_run_ops (fuel : nat) (os : list op) :
  preserves consistent (run_ops fuel os).
Proof.
  induction os as [|o os IH]; cbn [run_ops].
  - apply preserves_ret.
  - apply preserves_bind; [apply consistent_run_op|]. intros _. exact IH.
Qed.

End ModeFlags.

(** C6: on a device that does not set the ONE_SHOT or AUTOCONVERT flag on
    its own, and starting either with a main configuration register whose
    flags fit the stored mode (as after power-on, when both are clear) or
    with a successful [begin], every write to the main configuration
    register issued in any sequence of driver operations fits the mode stored
    when it is issued: ONE_SHOT clear in CONTINUOUS mode, AUTOCONVERT clear
    in the one-shot modes. *)
Theorem cr0_writes_fit_stored_mode :
  forall {W : Type} {P : Platform W} (fuel : nat) (os : list op)
         (s : Driver W),
    mode_flags_not_set_by_device ->
    trace_ok s ->
    flags_agree s \/
    (exists os', os = OpBegin :: os' /\ fst (spi_begin (world s)) = true) ->
    forallb cr0_write_ok (trace (snd (run_ops fuel os s))) = true.
Proof.
  intros W P fuel os s Hdev Ht [Hf | (os' & -> & Hok)].
  - apply (consistent_run_ops Hdev fuel os s). split; assumption.
  - cbn [run_ops run_op]. unfold bind at 1, ignore, bind at 1.
    pose proof (begin_establishes Hdev s Ht Hok) as Hc.
    destruct (begin s) as [r s1]. cbn [snd] in Hc. unfold ret.
    apply (consistent_run_ops Hdev fuel os' s1). exact Hc.
Qed.

Lemma SimChip_mode_flags_not_set_by_device :
  mode_flags_not_set_by_device (P := SimChip.platform).
Proof.
  assert (H : forall k, bit_not_set_by_device (P := SimChip.platform) k).
  { intros k. split; [|split; [|split]].
    - intros w [|a wr] n Hb; exact Hb.
    - intros w ms Hb. exact Hb.
    - intros w Hb. exact Hb.
    - intros w a v. destruct a; intros Hb; exact Hb. }
  split; apply H.
Qed.

Lemma cr0_writes_fit_stored_mode_witness :
  forallb cr0_write_ok
    (trace (snd (run_ops 30
                   [OpBegin;
                    OpSetNoiseFilter MAX31856_NOISE_FILTER_50HZ;
                    OpSetConversionMode MAX31856_CONTINUOUS;
                    OpSetNoiseFilter MAX31856_NOISE_FILTER_60HZ;
                    OpTriggerOneShot;
                    OpReadThermocoupleTemperature;
                    OpSetConversionMode MAX31856_ONESHOT;
                    OpReadThermocoupleTemperature]
                   (SimChip.handle MAX31856_CONTINUOUS [(0x00, 0xC0)]))))
  = true.
Proof.
  apply cr0_writes_fit_stored_mode.
  - exact SimChip_mode_flags_not_set_by_device.
  - reflexivity.
  - right. eexists. split; reflexivity.
Defined.

(** C6, as stated for every sequence on every device: two sequences with a
    write to the main configuration register that has AUTOCONVERT set while
    the stored mode is a one-shot mode.  In the first the register was left
    with AUTOCONVERT set before the object existed and [setNoiseFilter] is
    called without [begin]; in the second [begin] succeeds but no chip
    answers, every byte read is 0xFF, and [setNoiseFilter] writes back what
    it read. *)
Lemma cr0_write_against_stored_mode :
  (let s := SimChip.handle MAX31856_ONESHOT [(0x00, 0x80)] in
   let s' := snd (run_ops 0 [OpSetNoiseFilter MAX31856_NOISE_FILTER_50HZ] s) in
   conversionMode s' = MAX31856_ONESHOT /\
   trace s' =
   map (LogEntry MAX31856_ONESHOT)
       [EvWriteThenRead [Byte.x00] 1 [Byte.x80];
        EvWrite [Byte.x80; Byte.x81]] /\
   Z.testbit (u8 Byte.x81) 7 = true /\
   forallb cr0_write_ok (trace s') = false) /\
  (let s := MkDriver false MAX31856_CONTINUOUS (FloatingBus.MkBus 0) [] in
   let s' := snd (run_ops 0 [OpBegin;
                             OpSetNoiseFilter MAX31856_NOISE_FILTER_50HZ] s) in
   fst (begin s) = true /\
   conversionMode s' = MAX31856_ONESHOT /\
   last_event (trace s') = Some (EvWrite [Byte.x80; Byte.xff]) /\
   Z.testbit (u8 Byte.xff) 7 = true /\
   forallb cr0_write_ok (trace s') = false).
Proof.
  cbv zeta. split; repeat split; vm_compute; reflexivity.
Qed.

(** Where the assumption on the register matters: [setNoiseFilter] writes
    back the mode flags it read.  In front of a register left with
    AUTOCONVERT set and a handle whose stored mode is a one-shot mode (no
    [begin], no [setConversionMode]), the byte it writes has the flag. *)
Remark setNoiseFilter_writes_back_flags :
  let s := SimChip.handle MAX31856_ONESHOT [(0x00, 0x80)] in
  ~ flags_agree s /\
  map ev (trace (snd (setNoiseFilter MAX31856_NOISE_FILTER_50HZ s))) =
  [EvWriteThenRead [Byte.x00] 1 [Byte.x80]; EvWrite [Byte.x80; Byte.x81]].
Proof.
  split; [|reflexivity]. intros H. vm_compute in H. discriminate H.
Qed.

(** ** The results are exact in single precision

    The numbers returned are integers of at most 19 bits over a power of
    two. *)

Lemma thermocouple_of_raw_dyadic (raw : Z) :
  0 <= raw < 2 ^ 24 ->
  exists m, - 2 ^ 18 <= m < 2 ^ 18 /\ (thermocouple_of_raw raw == m # 128)%Q.
Proof.
  intros H. rewrite thermocouple_of_raw_steps by exact H.
  destruct (Z.testbit raw 23) eqn:Hb.
  - rewrite sign_fix24, Z.shiftr_div_pow2 by lia.
    exists ((raw - 2 ^ 24) / 2 ^ 5). split.
    + rewrite testbit_top in Hb by lia. apply Z.leb_le in Hb.
      change (2 ^ 23) with 8388608 in *.
      change (2 ^ 5) with 32. change (2 ^ 24) with 16777216 in *.
      change (2 ^ 18) with 262144. Z.div_mod_to_equations. lia.
    + unfold Qeq. cbn [Qnum Qden Qmult inject_Z]. lia.
  - rewrite Z.shiftr_div_pow2 by lia.
    exists (raw / 2 ^ 5). split.
    + rewrite testbit_top in Hb by lia. apply Z.leb_gt in Hb.
      change (2 ^ 5) with 32. change (2 ^ 24) with 16777216 in *.
      change (2 ^ 23) with 8388608 in *.
      change (2 ^ 18) with 262144. Z.div_mod_to_equations. lia.
    + unfold Qeq. cbn [Qnum Qden Qmult inject_Z]. lia.
Qed.

Lemma readCJTemperature_dyadic {W : Type} {P : Platform W} (s : Driver W) :
  exists q m,
    fst (readCJTemperature s) = FNum q /\ 0 <= m < 2 ^ 16 /\ (q == m # 256)%Q.
Proof.
  destruct (spi_write_then_read [Byte.x0a] 2 (world s)) as [bs w] eqn:E.
  rewrite (readCJTemperature_spec s bs w E).
  eexists. exists (big_endian16 bs). split; [reflexivity|].
  split; [apply big_endian16_range|].
  unfold Qeq. cbn [Qnum Qden Qdiv Qmult Qinv inject_Z]. lia.
Qed.

(** In the blocking mode, when the poll that follows the trigger finds the
    ONE_SHOT flag clear, the registers are read and a number is returned. *)
Lemma readThermocoupleTemperature_blocking_done
      {W : Type} {P : Platform W} (s : Driver W) (fuel : nat) :
  conversionMode s = MAX31856_ONESHOT ->
  Z.testbit (peek MAX31856_CR0_REG (world (snd (triggerOneShot s)))) 6 = false ->
  exists q s', readThermocoupleTemperature (S fuel) s = (Some (FNum q), s').
Proof.
  intros Hmode Hbit.
  unfold readThermocoupleTemperature, bind at 1, get_mode.
  rewrite Hmode. cbn [is_oneshot]. unfold bind at 1 2.
  destruct (triggerOneShot s) as [[] s1] eqn:Et. cbn [snd] in Hbit.
  assert (Hm1 : is_continuous (conversionMode s1) = false).
  { assert (Hc : is_continuous (conversionMode s) = false)
      by (rewrite Hmode; reflexivity).
    destruct (spi_write_then_read [Byte.x00] 1 (world s)) as [bs w] eqn:E.
    rewrite (triggerOneShot_oneshot s Hc bs w E) in Et.
    injection Et as <-. exact Hc. }
  unfold bind at 1, dev_millis. cbn [wait_conversion]. unfold bind at 1.
  destruct (spi_write_then_read [Byte.x00] 1 (world s1)) as [bs1 w1] eqn:E1.
  rewrite (conversionComplete_oneshot s1 Hm1 bs1 w1 E1).
  rewrite (peek_read s1 MAX31856_CR0_REG bs1 w1 E1), Hbit. cbn [negb].
  unfold ret at 1. unfold bind.
  destruct (readRegister24 MAX31856_LTCBH_REG _) as [raw s2].
  eexists. eexists. reflexivity.
Qed.

(** * Further properties of the driver *)

(** ** The register protocol *)

Section Protocol.

Context {W : Type} {P : Platform W}.

Lemma follows_protocol_log (s s' : Driver W) (e : bus_event) :
  trace s' = log s e ->
  protocol_ok (LogEntry (conversionMode s) e) = true ->
  follows_protocol s -> follows_protocol s'.
Proof.
  unfold follows_protocol, log. intros -> He Hs.
  rewrite forallb_app, Hs. cbn [forallb]. rewrite He. reflexivity.
Qed.

Lemma protocol_read (addr : Z) (n : nat) :
  (forall m bs,
      protocol_ok
        (LogEntry m (EvWriteThenRead [to_u8 (wrap8 (Z.land addr 0x7F))] n bs))
      = true) ->
  preserves follows_protocol (readRegisterN addr n).
Proof.
  intros Hok s Hs. unfold readRegisterN, dev_write_then_read.
  destruct (spi_write_then_read _ n (world s)) as [bs w]. cbn [snd].
  eapply (follows_protocol_log s); [reflexivity|apply Hok|exact Hs].
Qed.

Lemma protocol_write (addr data : Z) :
  (forall m v,
      protocol_ok
        (LogEntry m (EvWrite [to_u8 (wrap8 (Z.lor (wrap8 addr) 0x80)); v]))
      = true) ->
  preserves follows_protocol (writeRegister8 addr data).
Proof.
  intros Hok s Hs. unfold writeRegister8, dev_write. cbn [snd].
  eapply (follows_protocol_log s); [reflexivity|apply Hok|exact Hs].
Qed.

Lemma protocol_readRegister8 (addr : Z) :
  In addr [MAX31856_CR0_REG; MAX31856_CR1_REG; MAX31856_SR_REG] ->
  preserves follows_protocol (readRegister8 addr).
Proof.
  intros Ha. apply preserves_bind; [|intros bs; apply preserves_ret].
  apply protocol_read. intros m bs.
  cbn [In] in Ha. destruct Ha as [<-|[<-|[<-|[]]]]; reflexivity.
Qed.

Lemma protocol_writeRegister8 (addr data : Z) :
  0 <= addr <= 9 -> preserves follows_protocol (writeRegister8 addr data).
Proof.
  intros Ha. apply protocol_write. intros m v.
  assert (H : addr = 0 \/ addr = 1 \/ addr = 2 \/ addr = 3 \/ addr = 4
              \/ addr = 5 \/ addr = 6 \/ addr = 7 \/ addr = 8 \/ addr = 9)
    by lia.
  repeat (destruct H as [-> | H]); try subst addr; reflexivity.
Qed.

Lemma protocol_rmw (addr : Z) (f : Z -> Z) :
  In addr [MAX31856_CR0_REG; MAX31856_CR1_REG] ->
  preserves follows_protocol (rmw addr f).
Proof.
  intros Ha. apply preserves_bind.
  - apply protocol_readRegister8. cbn [In] in *. tauto.
  - intros t. apply protocol_writeRegister8.
    cbn [In] in Ha. destruct Ha as [<-|[<-|[]]]; cbv; split; discriminate.
Qed.

Lemma protocol_triggerOneShot : preserves follows_protocol triggerOneShot.
Proof.
  apply preserves_bind; [apply preserves_get_mode|]. intros m.
  apply preserves_if; [apply preserves_ret|].
  apply (protocol_rmw MAX31856_CR0_REG cr0_oneshot). cbn [In]. tauto.
Qed.

Lemma protocol_setConversionMode (mode : max31856_conversion_mode_t) :
  preserves follows_protocol (setConversionMode mode).
Proof.
  apply preserves_bind; [intros s Hs; exact Hs|]. intros _.
  apply preserves_bind; [apply protocol_readRegister8; cbn [In]; tauto|].
  intros t. apply preserves_bind; [apply preserves_get_mode|]. intros m.
  apply protocol_writeRegister8. cbv. split; discriminate.
Qed.

Lemma protocol_conversionComplete :
  preserves follows_protocol conversionComplete.
Proof.
  apply preserves_bind; [apply preserves_get_mode|]. intros m.
  apply preserves_if; [apply preserves_ret|].
  apply preserves_bind; [apply protocol_readRegister8; cbn [In]; tauto|].
  intros t. apply preserves_ret.
Qed.

Lemma protocol_dev_delay10 : preserves follows_protocol (dev_delay 10).
Proof.
  intros s Hs. unfold dev_delay. cbn [snd].
  eapply (follows_protocol_log s); [reflexivity|reflexivity|exact Hs].
Qed.

Lemma protocol_wait_conversion (fuel : nat) (start : Z) :
  preserves follows_protocol (wait_conversion fuel start).
Proof.
  induction fuel as [|fuel IH]; cbn [wait_conversion].
  - apply preserves_ret.
  - apply preserves_bind; [apply protocol_conversionComplete|]. intros c.
    apply preserves_if; [apply preserves_ret|].
    apply preserves_bind; [apply preserves_dev_millis|]. intros now.
    apply preserves_if; [apply preserves_ret|].
    apply preserves_bind; [apply protocol_dev_delay10|]. intros _. exact IH.
Qed.

Lemma protocol_readThermocoupleTemperature (fuel : nat) :
  preserves follows_protocol (readThermocoupleTemperature fuel).
Proof.
  apply preserves_bind; [apply preserves_get_mode|]. intros m.
  apply preserves_bind.
  - apply preserves_if; [|apply preserves_ret].
    apply preserves_bind; [apply protocol_triggerOneShot|]. intros _.
    apply preserves_bind; [apply preserves_dev_millis|]. intros start.
    apply protocol_wait_conversion.
  - intros [| |]; try apply preserves_ret.
    apply preserves_bind; [|intros raw; apply preserves_ret].
    apply preserves_bind; [|intros bs; apply preserves_ret].
    apply protocol_read. intros mo bs. reflexivity.
Qed.

Lemma protocol_begin : preserves follows_protocol begin.
Proof.
  apply preserves_bind.
  { intros s Hs. unfold dev_begin.
    destruct (spi_begin (world s)) as [ok w]. cbn [snd].
    eapply (follows_protocol_log s); [reflexivity|reflexivity|exact Hs]. }
  intros ok. apply preserves_bind; [intros s Hs; exact Hs|]. intros _.
  apply preserves_if; [apply preserves_ret|].
  repeat (apply preserves_bind;
          [apply protocol_writeRegister8; cbv; split; discriminate|intros _]).
  apply preserves_bind.
  { apply (protocol_rmw MAX31856_CR1_REG
                        (fun t => cr1_with_type t (tctype_code MAX31856_TCTYPE_K))).
    cbn [In]. tauto. }
  intros _.
  apply preserves_bind; [apply protocol_setConversionMode|].
  intros _. apply preserves_ret.
Qed.

Lemma protocol_ignore {A : Type} (m : M W A) :
  preserves follows_protocol m -> preserves follows_protocol (ignore m).
Proof.
  intros H. apply preserves_bind; [exact H|]. intros _. apply preserves_ret.
Qed.

Lemma protocol_run_op (fuel : nat) (o : op) :
  preserves follows_protocol (run_op fuel o).
Proof.
  destruct o; cbn [run_op].
  - apply protocol_ignore, protocol_begin.
  - apply protocol_setConversionMode.
  - apply protocol_ignore, preserves_get_mode.
  - apply (protocol_rmw MAX31856_CR1_REG (fun t => cr1_with_type t type)).
    cbn [In]. tauto.
  - apply protocol_ignore.
    apply preserves_bind; [apply protocol_readRegister8; cbn [In]; tauto|].
    intros t. apply preserves_ret.
  - apply protocol_ignore, protocol_readRegister8. cbn [In]. tauto.
  - apply protocol_triggerOneShot.
  - apply protocol_ignore, protocol_conversionComplete.
  - apply protocol_ignore.
    apply preserves_bind; [|intros r; apply preserves_ret].
    apply preserves_bind; [|intros bs; apply preserves_ret].
    apply protocol_read. intros mo bs. reflexivity.
  - apply protocol_ignore, protocol_readThermocoupleTemperature.
  - repeat (apply preserves_bind;
            [apply protocol_writeRegister8; cbv; split; discriminate|intros _]).
    apply protocol_writeRegister8; cbv; split; discriminate.
  - apply preserves_bind;
      [apply protocol_writeRegister8; cbv; split; discriminate|intros _].
    apply protocol_writeRegister8; cbv; split; discriminate.
  - apply (protocol_rmw MAX31856_CR0_REG
                        (fun t => cr0_with_filter t noiseFilter)).
    cbn [In]. tauto.
Qed.

End Protocol.

(** X1: whatever operations are called, in whatever order and on whatever
    device, every transaction follows the register protocol: a read sends
    one address byte with bit 7 clear and fetches one byte of a
    configuration or the status register, the two cold-junction bytes or the
    three linearized-temperature bytes (never past register 0x0F); a write
    sends an address byte with bit 7 set for one of the registers 0x00 to
    0x09 and one data byte (the temperature and status registers are never
    written); the only wait is the 10 ms of the polling loop. *)
Theorem operations_follow_protocol :
  forall {W : Type} {P : Platform W} (fuel : nat) (os : list op)
         (s : Driver W),
    forallb protocol_ok (trace s) = true ->
    forallb protocol_ok (trace (snd (run_ops fuel os s))) = true.
Proof.
  intros W P fuel os. induction os as [|o os IH]; intros s Hs.
  - exact Hs.
  - cbn [run_ops]. unfold bind.
    pose proof (protocol_run_op fuel o s Hs) as H1.
    destruct (run_op fuel o s) as [[] s1]. apply IH. exact H1.
Qed.

Lemma operations_follow_protocol_witness :
  forallb protocol_ok
    (trace (snd (run_ops 30
                   [OpBegin; OpSetTempFaultThreshholds (-10.25) 26.5;
                    OpSetColdJunctionFaultThreshholds (-10) 85;
                    OpReadCJTemperature; OpReadThermocoupleTemperature;
                    OpReadFault]
                   (SimChip.handle MAX31856_CONTINUOUS []))))
  = true.
Proof. apply operations_follow_protocol. reflexivity. Defined.

(** ** Cold-junction fault thresholds *)

Lemma to_int8_byte (v : Z) :
  - 2 ^ 7 <= v < 2 ^ 7 -> to_int8 (u8 (to_u8 v)) = v.
Proof.
  intros Hv. rewrite u8_to_u8. unfold to_int8, wrap8.
  change (2 ^ 7) with 128 in *. change (2 ^ 8) with 256.
  Z.div_mod_to_equations. lia.
Qed.

(** X2: [setColdJunctionFaultThreshholds low high] issues two writes, the
    low threshold to register 0x04 first and then the high threshold to
    register 0x03, each byte the two's complement image of its [int8_t]
    argument. *)
Theorem setColdJunctionFaultThreshholds_spec :
  forall {W : Type} {P : Platform W} (s : Driver W) (low high : Z),
    - 2 ^ 7 <= low < 2 ^ 7 ->
    - 2 ^ 7 <= high < 2 ^ 7 ->
    trace (snd (setColdJunctionFaultThreshholds low high s)) =
    trace s ++ map (LogEntry (conversionMode s))
                   [EvWrite [Byte.x84; to_u8 low];
                    EvWrite [Byte.x83; to_u8 high]] /\
    to_int8 (u8 (to_u8 low)) = low /\
    to_int8 (u8 (to_u8 high)) = high /\
    u8 (to_u8 low) = low mod 2 ^ 8 /\
    u8 (to_u8 high) = high mod 2 ^ 8.
Proof.
  intros W P s low high Hl Hh. split.
  - unfold setColdJunctionFaultThreshholds, writeRegister8, bind, dev_write,
      log.
    cbn [snd initialized conversionMode world trace map].
    rewrite !to_u8_wrap8, <- !app_assoc. reflexivity.
  - split; [apply to_int8_byte; exact Hl|].
    split; [apply to_int8_byte; exact Hh|].
    split; apply u8_to_u8.
Qed.

Lemma setColdJunctionFaultThreshholds_spec_witness :
  trace (snd (setColdJunctionFaultThreshholds (-10) 85
                (SimChip.handle MAX31856_ONESHOT []))) =
  map (LogEntry MAX31856_ONESHOT)
      [EvWrite [Byte.x84; Byte.xf6]; EvWrite [Byte.x83; Byte.x55]].
Proof.
  destruct (setColdJunctionFaultThreshholds_spec
              (SimChip.handle MAX31856_ONESHOT []) (-10) 85)
    as (Ht & _); [cbv; split; [discriminate|reflexivity]..|].
  rewrite Ht. reflexivity.
Defined.

(** ** What the read-modify-write operations change in the byte they read *)

Lemma to_u8_bit (z k : Z) :
  0 <= k < 8 -> Z.testbit (u8 (to_u8 (wrap8 z))) k = Z.testbit z k.
Proof. intros Hk. rewrite u8_to_u8, !wrap8_bit by lia. reflexivity. Qed.

Ltac bit_cases k :=
  match goal with
  | H : _ <= k < _ |- _ =>
      assert (k = 0 \/ k = 1 \/ k = 2 \/ k = 3 \/ k = 4 \/ k = 5 \/ k = 6
              \/ k = 7) as Hcases by lia;
      repeat (destruct Hcases as [-> | Hcases]); try subst k; try lia
  end.

Lemma cr0_with_filter_bit0 (t : Z) (f : max31856_noise_filter_t) :
  Z.testbit (cr0_with_filter t f) 0 =
  match f with
  | MAX31856_NOISE_FILTER_50HZ => true
  | MAX31856_NOISE_FILTER_60HZ => false
  end.
Proof. destruct f; unfold cr0_with_filter; bit_at; btauto. Qed.

Lemma cr0_with_filter_other_bits (t : Z) (f : max31856_noise_filter_t) (k : Z) :
  1 <= k < 8 -> Z.testbit (cr0_with_filter t f) k = Z.testbit t k.
Proof.
  intros Hk. bit_cases k; destruct f; unfold cr0_with_filter; bit_at; btauto.
Qed.

Lemma cr0_oneshot_low_bits (t k : Z) :
  0 <= k < 6 -> Z.testbit (cr0_oneshot t) k = Z.testbit t k.
Proof.
  intros Hk.
  bit_cases k;
    unfold cr0_oneshot, MAX31856_CR0_AUTOCONVERT, MAX31856_CR0_1SHOT;
    bit_at; btauto.
Qed.

Lemma cr0_continuous_low_bits (t k : Z) :
  0 <= k < 6 -> Z.testbit (cr0_continuous t) k = Z.testbit t k.
Proof.
  intros Hk.
  bit_cases k;
    unfold cr0_continuous, MAX31856_CR0_AUTOCONVERT, MAX31856_CR0_1SHOT;
    bit_at; btauto.
Qed.

Section ReadModifyWrite.

Context {W : Type} {P : Platform W}.

Lemma rmw_trace (addr : Z) (f : Z -> Z) (s : Driver W) :
  forall bs w,
    spi_write_then_read [to_u8 (wrap8 (Z.land addr 0x7F))] 1 (world s) = (bs, w) ->
    rmw addr f s =
    (tt, after_write (after_read s addr 1 bs w) addr (f (buffer_at bs 0))).
Proof.
  intros bs w E. unfold rmw, bind.
  rewrite (readRegister8_spec addr s bs w E). reflexivity.
Qed.

Lemma setConversionMode_run (mode : max31856_conversion_mode_t) (s : Driver W) :
  setConversionMode mode s =
  rmw MAX31856_CR0_REG
      (if is_continuous mode then cr0_continuous else cr0_oneshot)
      (MkDriver (initialized s) mode (world s) (trace s)).
Proof.
  set (s0 := MkDriver (initialized s) mode (world s) (trace s)).
  unfold setConversionMode, rmw, bind at 1, set_mode. fold s0.
  unfold bind.
  destruct (spi_write_then_read [Byte.x00] 1 (world s0)) as [bs w] eqn:E.
  rewrite (readRegister8_spec _ s0 bs w) by exact E.
  unfold get_mode. cbn [conversionMode after_read s0].
  destruct (is_continuous mode); reflexivity.
Qed.

End ReadModifyWrite.

(** X3: [setNoiseFilter] reads the main configuration register and writes
    the byte back with bit 0 set for 50 Hz and clear for 60 Hz; the other
    seven bits are written as read, and the stored mode is untouched. *)
Theorem setNoiseFilter_changes_bit0_only :
  forall {W : Type} {P : Platform W} (s : Driver W)
         (noiseFilter : max31856_noise_filter_t),
    let bs := fst (spi_write_then_read [Byte.x00] 1 (world s)) in
    let s' := snd (setNoiseFilter noiseFilter s) in
    exists v,
      trace s' =
      trace s ++ map (LogEntry (conversionMode s))
                     [EvWriteThenRead [Byte.x00] 1 bs;
                      EvWrite [Byte.x80; v]] /\
      conversionMode s' = conversionMode s /\
      Z.testbit (u8 v) 0 =
      match noiseFilter with
      | MAX31856_NOISE_FILTER_50HZ => true
      | MAX31856_NOISE_FILTER_60HZ => false
      end /\
      forall k, 1 <= k < 8 ->
                Z.testbit (u8 v) k = Z.testbit (buffer_at bs 0) k.
Proof.
  intros W P s f bs s'. subst bs s'.
  destruct (spi_write_then_read [Byte.x00] 1 (world s)) as [bs w] eqn:E.
  change (setNoiseFilter f s)
    with (rmw MAX31856_CR0_REG (fun t => cr0_with_filter t f) s).
  rewrite (rmw_trace MAX31856_CR0_REG _ s bs w E). cbn [fst snd].
  eexists. split.
  - unfold after_write, after_read, log. cbn [trace conversionMode map].
    rewrite <- app_assoc. reflexivity.
  - split; [reflexivity|]. split.
    + rewrite to_u8_bit by lia. apply cr0_with_filter_bit0.
    + intros k Hk. rewrite to_u8_bit by lia.
      apply cr0_with_filter_other_bits. exact Hk.
Qed.

(** X4: [setConversionMode mode] stores [mode] (which [getConversionMode]
    then returns without any transaction), reads the main configuration
    register and writes the byte back with AUTOCONVERT (bit 7) set and
    ONE_SHOT (bit 6) clear for CONTINUOUS, AUTOCONVERT clear and ONE_SHOT set
    for the two one-shot modes; bits 0 to 5 are written as read. *)
Theorem setConversionMode_spec :
  forall {W : Type} {P : Platform W} (s : Driver W)
         (mode : max31856_conversion_mode_t),
    let bs := fst (spi_write_then_read [Byte.x00] 1 (world s)) in
    let s' := snd (setConversionMode mode s) in
    exists v,
      trace s' =
      trace s ++ map (LogEntry mode)
                     [EvWriteThenRead [Byte.x00] 1 bs;
                      EvWrite [Byte.x80; v]] /\
      getConversionMode s' = (mode, s') /\
      Z.testbit (u8 v) 7 = is_continuous mode /\
      Z.testbit (u8 v) 6 = negb (is_continuous mode) /\
      forall k, 0 <= k < 6 ->
                Z.testbit (u8 v) k = Z.testbit (buffer_at bs 0) k.
Proof.
  intros W P s mode bs s'. subst bs s'.
  destruct (spi_write_then_read [Byte.x00] 1 (world s)) as [bs w] eqn:E.
  rewrite setConversionMode_run.
  rewrite (rmw_trace MAX31856_CR0_REG _
                     (MkDriver (initialized s) mode (world s) (trace s))
                     bs w E).
  cbn [fst snd]. eexists. split.
  - unfold after_write, after_read, log. cbn [trace conversionMode map].
    rewrite <- app_assoc. reflexivity.
  - split; [reflexivity|].
    rewrite !to_u8_bit by lia.
    destruct mode; cbn [is_continuous negb];
      (split; [first [apply cr0_oneshot_bit7 | apply cr0_continuous_bit7]|]);
      (split; [first [apply cr0_oneshot_bit6 | apply cr0_continuous_bit6]|]);
      intros k Hk; rewrite to_u8_bit by lia;
      first [apply cr0_oneshot_low_bits | apply cr0_continuous_low_bits];
      exact Hk.
Qed.

(** X5: [triggerOneShot] does nothing at all in CONTINUOUS mode; in the two
    one-shot modes it reads the main configuration register and writes the
    byte back with ONE_SHOT set and AUTOCONVERT clear, bits 0 to 5 as read,
    and leaves the stored mode as it is. *)
Theorem triggerOneShot_spec :
  forall {W : Type} {P : Platform W} (s : Driver W),
    let bs := fst (spi_write_then_read [Byte.x00] 1 (world s)) in
    let s' := snd (triggerOneShot s) in
    match conversionMode s with
    | MAX31856_CONTINUOUS => s' = s
    | _ =>
        exists v,
          trace s' =
          trace s ++ map (LogEntry (conversionMode s))
                         [EvWriteThenRead [Byte.x00] 1 bs;
                          EvWrite [Byte.x80; v]] /\
          conversionMode s' = conversionMode s /\
          Z.testbit (u8 v) 7 = false /\
          Z.testbit (u8 v) 6 = true /\
          forall k, 0 <= k < 6 ->
                    Z.testbit (u8 v) k = Z.testbit (buffer_at bs 0) k
    end.
Proof.
  intros W P s bs s'. subst bs s'.
  destruct (spi_write_then_read [Byte.x00] 1 (world s)) as [bs w] eqn:E.
  assert (Hrun : is_continuous (conversionMode s) = false ->
                 exists v,
                   trace (snd (triggerOneShot s)) =
                   trace s ++ map (LogEntry (conversionMode s))
                                  [EvWriteThenRead [Byte.x00] 1 bs;
                                   EvWrite [Byte.x80; v]] /\
                   conversionMode (snd (triggerOneShot s)) = conversionMode s /\
                   Z.testbit (u8 v) 7 = false /\
                   Z.testbit (u8 v) 6 = true /\
                   forall k, 0 <= k < 6 ->
                             Z.testbit (u8 v) k = Z.testbit (buffer_at bs 0) k).
  { intros Hc. rewrite (triggerOneShot_oneshot s Hc bs w E). cbn [fst snd].
    eexists. split.
    - unfold after_write, after_read, log. cbn [trace conversionMode map].
      rewrite <- app_assoc. reflexivity.
    - split; [reflexivity|]. rewrite !to_u8_bit by lia.
      split; [apply cr0_oneshot_bit7|]. split; [apply cr0_oneshot_bit6|].
      intros k Hk. rewrite to_u8_bit by lia.
      apply cr0_oneshot_low_bits. exact Hk. }
  cbn [fst].
  destruct (conversionMode s) eqn:Em.
  - apply Hrun. reflexivity.
  - apply Hrun. reflexivity.
  - unfold triggerOneShot, bind, get_mode. rewrite Em. reflexivity.
Qed.

(** ** Effects on a device that only stores *)

Lemma bind_run {W A B : Type} (m : M W A) (k : A -> M W B) (s : Driver W) :
  bind m k s = k (fst (m s)) (snd (m s)).
Proof. unfold bind. destruct (m s). reflexivity. Qed.

Ltac reg_range := vm_compute; split; [discriminate | reflexivity].

Section Storing.

Context {W : Type} {P : Platform W}.
Hypothesis Hrf : register_file.

Lemma peek_writeRegister8 (a d r : Z) (s : Driver W) :
  0 <= a < 16 -> 0 <= r < 16 ->
  peek r (world (snd (writeRegister8 a d s))) =
  if r =? a then wrap8 d else peek r (world s).
Proof.
  intros Ha Hr. destruct Hrf as (Hw & _).
  unfold writeRegister8, dev_write. cbn [snd world].
  rewrite Hw by assumption. rewrite u8_to_u8, wrap8_idem. reflexivity.
Qed.

Lemma peek_readRegister8 (a r : Z) (s : Driver W) :
  0 <= r < 16 ->
  peek r (world (snd (readRegister8 a s))) = peek r (world s).
Proof.
  intros Hr. destruct Hrf as (_ & Hrd & _).
  unfold readRegister8, readRegisterN, bind, dev_write_then_read.
  specialize (Hrd (to_u8 (wrap8 (Z.land a 0x7F))) 1%nat r (world s) Hr).
  destruct (spi_write_then_read _ 1 (world s)) as [bs w].
  cbn [snd ret world] in *. exact Hrd.
Qed.

Lemma peek_rmw (a : Z) (f : Z -> Z) (r : Z) (s : Driver W) :
  0 <= a < 16 -> 0 <= r < 16 ->
  peek r (world (snd (rmw a f s))) =
  if r =? a then wrap8 (f (peek a (world s))) else peek r (world s).
Proof.
  intros Ha Hr. rewrite rmw_run, peek_writeRegister8 by assumption.
  rewrite peek_readRegister8 by assumption.
  destruct (readRegister8_run a s) as [-> _]. reflexivity.
Qed.

Lemma peek_setConversionMode (mode : max31856_conversion_mode_t) (r : Z)
      (s : Driver W) :
  0 <= r < 16 ->
  peek r (world (snd (setConversionMode mode s))) =
  if r =? MAX31856_CR0_REG
  then wrap8 ((if is_continuous mode then cr0_continuous else cr0_oneshot)
                (peek MAX31856_CR0_REG (world s)))
  else peek r (world s).
Proof.
  intros Hr. rewrite setConversionMode_run, peek_rmw by (assumption || reg_range).
  reflexivity.
Qed.

Lemma conversionMode_rmw (a : Z) (f : Z -> Z) (s : Driver W) :
  conversionMode (snd (rmw a f s)) = conversionMode s.
Proof.
  rewrite rmw_run. destruct (readRegister8_run a s) as [_ Hm].
  unfold writeRegister8, dev_write. cbn [snd conversionMode]. exact Hm.
Qed.

(** The registers other than [a] after a write to [a]. *)
Lemma frame_write (r c a d : Z) :
  0 <= a < 16 -> 0 <= r < 16 -> r <> a ->
  preserves (holds r c) (writeRegister8 a d).
Proof.
  intros Ha Hr Hne s Hs. unfold holds in *.
  rewrite peek_writeRegister8 by assumption.
  replace (r =? a) with false by (symmetry; apply Z.eqb_neq; exact Hne).
  exact Hs.
Qed.

Lemma frame_readRegisterN (r c a : Z) (n : nat) :
  0 <= r < 16 -> preserves (holds r c) (readRegisterN a n).
Proof.
  intros Hr s Hs. destruct Hrf as (_ & Hrd & _). unfold holds in *.
  unfold readRegisterN, dev_write_then_read.
  specialize (Hrd (to_u8 (wrap8 (Z.land a 0x7F))) n r (world s) Hr).
  destruct (spi_write_then_read _ n (world s)) as [bs w].
  cbn [snd world] in *. rewrite Hrd. exact Hs.
Qed.

Lemma frame_read (r c a : Z) (n : nat) {A : Type} (k : list byte -> A) :
  0 <= r < 16 ->
  preserves (holds r c) (bind (readRegisterN a n) (fun bs => ret (k bs))).
Proof.
  intros Hr. apply preserves_bind; [apply frame_readRegisterN; exact Hr|].
  intros bs. apply preserves_ret.
Qed.

Lemma frame_dev_delay (r c ms : Z) :
  0 <= r < 16 -> preserves (holds r c) (dev_delay ms).
Proof.
  intros Hr s Hs. destruct Hrf as (_ & _ & Hd & _). unfold holds in *.
  unfold dev_delay. cbn [snd world]. rewrite Hd by exact Hr. exact Hs.
Qed.

Lemma frame_dev_begin (r c : Z) :
  0 <= r < 16 -> preserves (holds r c) dev_begin.
Proof.
  intros Hr s Hs. destruct Hrf as (_ & _ & _ & Hb). unfold holds in *.
  unfold dev_begin. specialize (Hb r (world s) Hr).
  destruct (spi_begin (world s)) as [ok w]. cbn [snd world] in *.
  rewrite Hb. exact Hs.
Qed.

Lemma frame_rmw (r c a : Z) (f : Z -> Z) :
  0 <= a < 16 -> 0 <= r < 16 -> r <> a -> preserves (holds r c) (rmw a f).
Proof.
  intros Ha Hr Hne. apply preserves_bind.
  - apply (frame_read r c a 1 (fun bs => buffer_at bs 0)). exact Hr.
  - intros t. apply frame_write; assumption.
Qed.

Lemma frame_conversionComplete (r c : Z) :
  0 <= r < 16 -> preserves (holds r c) conversionComplete.
Proof.
  intros Hr. apply preserves_bind; [apply preserves_get_mode|]. intros m.
  apply preserves_if; [apply preserves_ret|].
  apply preserves_bind.
  - apply (frame_read r c MAX31856_CR0_REG 1 (fun bs => buffer_at bs 0)).
    exact Hr.
  - intros t. apply preserves_ret.
Qed.

Lemma frame_wait_conversion (r c : Z) (fuel : nat) (start : Z) :
  0 <= r < 16 -> preserves (holds r c) (wait_conversion fuel start).
Proof.
  intros Hr. induction fuel as [|fuel IH]; cbn [wait_conversion].
  - apply preserves_ret.
  - apply preserves_bind; [apply frame_conversionComplete; exact Hr|].
    intros b. apply preserves_if; [apply preserves_ret|].
    apply preserves_bind; [apply preserves_dev_millis|]. intros now.
    apply preserves_if; [apply preserves_ret|].
    apply preserves_bind; [apply frame_dev_delay; exact Hr|].
    intros _. exact IH.
Qed.

Lemma frame_triggerOneShot (r c : Z) :
  0 <= r < 16 -> r <> MAX31856_CR0_REG ->
  preserves (holds r c) triggerOneShot.
Proof.
  intros Hr Hne. apply preserves_bind; [apply preserves_get_mode|]. intros m.
  apply preserves_if; [apply preserves_ret|].
  apply (frame_rmw r c MAX31856_CR0_REG cr0_oneshot);
    [reg_range|exact Hr|exact Hne].
Qed.

Lemma frame_setConversionMode (r c : Z) (mode : max31856_conversion_mode_t) :
  0 <= r < 16 -> r <> MAX31856_CR0_REG ->
  preserves (holds r c) (setConversionMode mode).
Proof.
  intros Hr Hne s Hs. unfold holds in *.
  rewrite peek_setConversionMode by exact Hr.
  replace (r =? MAX31856_CR0_REG) with false
    by (symmetry; apply Z.eqb_neq; exact Hne).
  exact Hs.
Qed.

Lemma frame_ignore (r c : Z) {A : Type} (m : M W A) :
  preserves (holds r c) m -> preserves (holds r c) (ignore m).
Proof.
  intros H. apply preserves_bind; [exact H|]. intros _. apply preserves_ret.
Qed.

Lemma frame_run_op (r c : Z) (fuel : nat) (o : op) :
  0 <= r < 16 -> ~ In r (op_targets o) ->
  preserves (holds r c) (run_op fuel o).
Proof.
  intros Hr Hnot.
  assert (Hne : forall a, In a (op_targets o) -> r <> a)
    by (intros a Ha ->; exact (Hnot Ha)).
  destruct o; cbn [run_op op_targets] in *.
  - apply frame_ignore.
    apply preserves_bind; [apply frame_dev_begin; exact Hr|]. intros ok.
    apply preserves_bind; [intros s Hs; exact Hs|]. intros _.
    apply preserves_if; [apply preserves_ret|].
    apply preserves_bind;
      [apply frame_write; [reg_range|exact Hr|apply Hne; cbn [In]; auto]|].
    intros _.
    apply preserves_bind;
      [apply frame_write; [reg_range|exact Hr|apply Hne; cbn [In]; auto]|].
    intros _.
    apply preserves_bind;
      [apply frame_write; [reg_range|exact Hr|apply Hne; cbn [In]; auto]|].
    intros _.
    apply preserves_bind.
    { apply (frame_rmw r c MAX31856_CR1_REG
                       (fun t => cr1_with_type t (tctype_code MAX31856_TCTYPE_K)));
        [reg_range|exact Hr|apply Hne; cbn [In]; auto 6]. }
    intros _.
    apply preserves_bind; [|intros _; apply preserves_ret].
    apply frame_setConversionMode; [exact Hr|apply Hne; cbn [In]; auto].
  - apply frame_setConversionMode; [exact Hr|apply Hne; cbn [In]; auto].
  - apply frame_ignore, preserves_get_mode.
  - apply (frame_rmw r c MAX31856_CR1_REG (fun t => cr1_with_type t type));
      [reg_range|exact Hr|apply Hne; cbn [In]; auto].
  - apply frame_ignore. apply preserves_bind.
    + apply (frame_read r c MAX31856_CR1_REG 1 (fun bs => buffer_at bs 0)).
      exact Hr.
    + intros t. apply preserves_ret.
  - apply frame_ignore.
    apply (frame_read r c MAX31856_SR_REG 1 (fun bs => buffer_at bs 0)).
    exact Hr.
  - apply frame_triggerOneShot; [exact Hr|apply Hne; cbn [In]; auto].
  - apply frame_ignore, frame_conversionComplete. exact Hr.
  - apply frame_ignore. apply preserves_bind.
    + apply preserves_bind; [apply frame_readRegisterN; exact Hr|].
      intros bs. apply preserves_ret.
    + intros t. apply preserves_ret.
  - apply frame_ignore.
    apply preserves_bind; [apply preserves_get_mode|]. intros m.
    apply preserves_bind.
    + apply preserves_if; [|apply preserves_ret].
      apply preserves_bind;
        [apply frame_triggerOneShot; [exact Hr|apply Hne; cbn [In]; auto]|].
      intros _.
      apply preserves_bind; [apply preserves_dev_millis|]. intros start.
      apply frame_wait_conversion. exact Hr.
    + intros [| |]; try apply preserves_ret.
      apply preserves_bind; [|intros raw; apply preserves_ret].
      apply preserves_bind; [apply frame_readRegisterN; exact Hr|].
      intros bs. apply preserves_ret.
  - repeat (apply preserves_bind;
            [apply frame_write;
             [reg_range|exact Hr|apply Hne; cbn [In]; auto 6]|intros _]).
    apply frame_write; [reg_range|exact Hr|apply Hne; cbn [In]; auto 6].
  - apply preserves_bind;
      [apply frame_write; [reg_range|exact Hr|apply Hne; cbn [In]; auto]|].
    intros _.
    apply frame_write; [reg_range|exact Hr|apply Hne; cbn [In]; auto].
  - apply (frame_rmw r c MAX31856_CR0_REG
                     (fun t => cr0_with_filter t noiseFilter));
      [reg_range|exact Hr|apply Hne; cbn [In]; auto].
Qed.

End Storing.

(** X6: on a device that only stores, an operation leaves every register
    outside its own set as it was: the reading operations change none;
    [setThermocoupleType] only the type register; [setConversionMode],
    [setNoiseFilter], [triggerOneShot] and [readThermocoupleTemperature] only
    the main configuration register; the threshold setters only their
    threshold registers; [begin] only the mask, the two configuration
    registers and the cold-junction offset.  In particular the thermocouple
    type read back is not disturbed by any operation but
    [setThermocoupleType] and [begin]. *)
Theorem operation_changes_only_its_registers :
  forall {W : Type} {P : Platform W} (fuel : nat) (o : op) (s : Driver W)
         (r : Z),
    register_file ->
    0 <= r < 16 ->
    ~ In r (op_targets o) ->
    peek r (world (snd (run_op fuel o s))) = peek r (world s) /\
    (r = MAX31856_CR1_REG ->
     fst (getThermocoupleType (snd (run_op fuel o s)))
     = fst (getThermocoupleType s)).
Proof.
  intros W P fuel o s r Hrf Hr Hnot.
  assert (H : peek r (world (snd (run_op fuel o s))) = peek r (world s))
    by (apply (frame_run_op Hrf r (peek r (world s)) fuel o Hr Hnot s);
        reflexivity).
  split; [exact H|]. intros ->.
  rewrite !getThermocoupleType_peek, H. reflexivity.
Qed.

Lemma SimChip_register_file : register_file (P := SimChip.platform).
Proof.
  split; [|split; [|split]].
  - intros a r v w Ha Hr.
    assert (Ca : a = 0 \/ a = 1 \/ a = 2 \/ a = 3 \/ a = 4 \/ a = 5 \/ a = 6
                 \/ a = 7 \/ a = 8 \/ a = 9 \/ a = 10 \/ a = 11 \/ a = 12
                 \/ a = 13 \/ a = 14 \/ a = 15) by lia.
    assert (Cr : r = 0 \/ r = 1 \/ r = 2 \/ r = 3 \/ r = 4 \/ r = 5 \/ r = 6
                 \/ r = 7 \/ r = 8 \/ r = 9 \/ r = 10 \/ r = 11 \/ r = 12
                 \/ r = 13 \/ r = 14 \/ r = 15) by lia.
    clear Ha Hr.
    repeat (destruct Ca as [-> | Ca]); try subst a;
      repeat (destruct Cr as [-> | Cr]); try subst r; reflexivity.
  - intros a n r w Hr. reflexivity.
  - intros ms r w Hr. reflexivity.
  - intros r w Hr. reflexivity.
Qed.

Lemma operation_changes_only_its_registers_witness :
  let s := SimChip.handle MAX31856_ONESHOT [(0x01, 0x27); (0x00, 0x11)] in
  fst (getThermocoupleType
         (snd (run_op 30 OpReadThermocoupleTemperature s)))
  = fst (getThermocoupleType s).
Proof.
  intros s.
  apply (operation_changes_only_its_registers
           30 OpReadThermocoupleTemperature s MAX31856_CR1_REG).
  - exact SimChip_register_file.
  - vm_compute. split; [discriminate | reflexivity].
  - cbn [op_targets In]. intros [H | []]. discriminate H.
  - reflexivity.
Defined.

Section StoringResults.

Context {W : Type} {P : Platform W}.
Hypothesis Hrf : register_file.

Lemma peek_dev_begin (r : Z) (s : Driver W) :
  0 <= r < 16 -> peek r (world (snd (dev_begin s))) = peek r (world s).
Proof.
  intros Hr. apply (frame_dev_begin Hrf r (peek r (world s)) Hr s).
  reflexivity.
Qed.

Lemma peek_setThermocoupleType (type r : Z) (s : Driver W) :
  0 <= r < 16 ->
  peek r (world (snd (setThermocoupleType type s))) =
  if r =? MAX31856_CR1_REG
  then wrap8 (cr1_with_type (peek MAX31856_CR1_REG (world s)) type)
  else peek r (world s).
Proof.
  intros Hr.
  change (setThermocoupleType type s)
    with (rmw MAX31856_CR1_REG (fun t => cr1_with_type t type) s).
  rewrite (peek_rmw Hrf) by (assumption || reg_range). reflexivity.
Qed.

Lemma peek_setNoiseFilter (f : max31856_noise_filter_t) (r : Z) (s : Driver W) :
  0 <= r < 16 ->
  peek r (world (snd (setNoiseFilter f s))) =
  if r =? MAX31856_CR0_REG
  then wrap8 (cr0_with_filter (peek MAX31856_CR0_REG (world s)) f)
  else peek r (world s).
Proof.
  intros Hr.
  change (setNoiseFilter f s)
    with (rmw MAX31856_CR0_REG (fun t => cr0_with_filter t f) s).
  rewrite (peek_rmw Hrf) by (assumption || reg_range). reflexivity.
Qed.

(** The state [begin] reaches when the transport is acquired. *)
Lemma begin_run (s : Driver W) :
  fst (spi_begin (world s)) = true ->
  begin s =
  (true,
   let s1 := snd (set_initialized true (snd (dev_begin s))) in
   let s2 := snd (writeRegister8 MAX31856_MASK_REG 0 s1) in
   let s3 := snd (writeRegister8 MAX31856_CR0_REG MAX31856_CR0_OCFAULT0 s2) in
   let s4 := snd (writeRegister8 MAX31856_CJTO_REG 0 s3) in
   let s5 := snd (setThermocoupleType (tctype_code MAX31856_TCTYPE_K) s4) in
   snd (setConversionMode MAX31856_ONESHOT s5)).
Proof.
  intros Hok.
  assert (Hb : fst (dev_begin s) = true).
  { unfold dev_begin. destruct (spi_begin (world s)). exact Hok. }
  unfold begin. rewrite bind_run, Hb. rewrite bind_run. cbn [negb].
  rewrite !bind_run. reflexivity.
Qed.

End StoringResults.

(** X7: on a device that only stores, a successful [begin] leaves the main
    configuration register at exactly 0x50 whatever it held (open-circuit
    detection on, ONE_SHOT set, AUTOCONVERT clear, and the noise filter back
    at 60 Hz), the fault mask and the cold-junction offset at zero, the low
    nibble of the type register at K with its high nibble kept; the stored
    mode is the blocking one-shot mode and [getThermocoupleType] returns
    K. *)
Theorem begin_configures :
  forall {W : Type} {P : Platform W} (s : Driver W),
    register_file ->
    fst (spi_begin (world s)) = true ->
    let s' := snd (begin s) in
    peek MAX31856_CR0_REG (world s') = 0x50 /\
    peek MAX31856_MASK_REG (world s') = 0x00 /\
    peek MAX31856_CJTO_REG (world s') = 0x00 /\
    peek MAX31856_CR1_REG (world s')
    = Z.lor (Z.land (peek MAX31856_CR1_REG (world s)) 0xF0) 0x03 /\
    fst (getThermocoupleType s') = tctype_code MAX31856_TCTYPE_K /\
    conversionMode s' = MAX31856_ONESHOT /\
    initialized s' = true.
Proof.
  intros W P s Hrf Hok s'. subst s'.
  rewrite (begin_run s Hok). cbn [snd]. cbv zeta.
  set (s1 := snd (set_initialized true (snd (dev_begin s)))).
  assert (H1 : forall r, 0 <= r < 16 -> peek r (world s1) = peek r (world s))
    by (intros r Hr; apply (peek_dev_begin Hrf r s Hr)).
  set (s2 := snd (writeRegister8 MAX31856_MASK_REG 0 s1)).
  set (s3 := snd (writeRegister8 MAX31856_CR0_REG MAX31856_CR0_OCFAULT0 s2)).
  set (s4 := snd (writeRegister8 MAX31856_CJTO_REG 0 s3)).
  set (s5 := snd (setThermocoupleType (tctype_code MAX31856_TCTYPE_K) s4)).
  assert (Hpk : forall r, 0 <= r < 16 ->
            peek r (world (snd (setConversionMode MAX31856_ONESHOT s5))) =
            if r =? MAX31856_CR0_REG then 0x50
            else if r =? MAX31856_CR1_REG
                 then wrap8 (cr1_with_type (peek MAX31856_CR1_REG (world s))
                                           (tctype_code MAX31856_TCTYPE_K))
            else if r =? MAX31856_CJTO_REG then 0
            else if r =? MAX31856_MASK_REG then 0
            else peek r (world s)).
  { intros r Hr. subst s5 s4 s3 s2.
    rewrite (peek_setConversionMode Hrf), !(peek_setThermocoupleType Hrf),
      !(peek_writeRegister8 Hrf), !H1 by (assumption || reg_range).
    destruct (r =? MAX31856_CR0_REG) eqn:E0; [reflexivity|].
    destruct (r =? MAX31856_CR1_REG) eqn:E1; [reflexivity|].
    destruct (r =? MAX31856_CJTO_REG) eqn:E9; [reflexivity|].
    destruct (r =? MAX31856_MASK_REG) eqn:E2; reflexivity. }
  assert (Hc1 : peek MAX31856_CR1_REG
                     (world (snd (setConversionMode MAX31856_ONESHOT s5)))
                = Z.lor (Z.land (peek MAX31856_CR1_REG (world s)) 0xF0) 0x03).
  { rewrite Hpk by reg_range.
    change (MAX31856_CR1_REG =? MAX31856_CR0_REG) with false.
    change (MAX31856_CR1_REG =? MAX31856_CR1_REG) with true. cbv iota.
    set (r1 := peek MAX31856_CR1_REG (world s)).
    assert (Hr1 : 0 <= r1 < 2 ^ 8) by apply buffer_at_range.
    unfold cr1_with_type, wrap8.
    change (tctype_code MAX31856_TCTYPE_K) with 3.
    change 0xF0 with (Z.shiftl (Z.ones 4) 4). change 0x0F with (Z.ones 4).
    change 3 with (Z.ones 2).
    rewrite <- (Z.mod_small r1 (2 ^ 8)) at 2 by lia.
    Z.bitblast. }
  split; [rewrite Hpk by reg_range; reflexivity|].
  split; [rewrite Hpk by reg_range; reflexivity|].
  split; [rewrite Hpk by reg_range; reflexivity|].
  split; [exact Hc1|].
  split.
  { rewrite getThermocoupleType_peek, Hc1, <- land_0F.
    set (r1 := peek MAX31856_CR1_REG (world s)).
    change (tctype_code MAX31856_TCTYPE_K) with (Z.ones 2).
    change 0xF0 with (Z.shiftl (Z.ones 4) 4). change 0x0F with (Z.ones 4).
    change 0x03 with (Z.ones 2).
    Z.bitblast. }
  split.
  { rewrite setConversionMode_run, conversionMode_rmw. reflexivity. }
  assert (Hinit : forall a f (t : Driver W),
             initialized (snd (rmw a f t)) = initialized t).
  { intros a f t. unfold rmw. rewrite bind_run.
    unfold writeRegister8, dev_write. cbn [snd initialized].
    unfold readRegister8, readRegisterN. rewrite bind_run.
    unfold dev_write_then_read.
    destruct (spi_write_then_read _ 1 _) as [bs w]. reflexivity. }
  rewrite setConversionMode_run, Hinit. cbn [initialized]. subst s5.
  change (setThermocoupleType (tctype_code MAX31856_TCTYPE_K) s4)
    with (rmw MAX31856_CR1_REG
              (fun t => cr1_with_type t (tctype_code MAX31856_TCTYPE_K)) s4).
  rewrite Hinit. reflexivity.
Qed.

Lemma begin_configures_witness :
  let s := SimChip.handle MAX31856_CONTINUOUS
             [(0x00, 0x81); (0x01, 0x27); (0x02, 0xFF); (0x09, 0x30)] in
  peek MAX31856_CR0_REG (world (snd (begin s))) = 0x50 /\
  peek MAX31856_CR1_REG (world (snd (begin s))) = 0x23.
Proof.
  intros s.
  pose proof (begin_configures s SimChip_register_file eq_refl) as H.
  cbv zeta in H. destruct H as (H0 & _ & _ & H1 & _).
  split; [exact H0 | exact H1].
Defined.

Section Termination.

Context {W : Type} {P : Platform W}.
Variable B : Z.
Hypothesis HB : 0 <= B < 2 ^ 30.
Hypothesis Hclock : clock_latency B.

(** One turn of the polling loop outside the continuous mode. *)
Lemma wait_conversion_step (fuel : nat) (start : Z) (s : Driver W) :
  is_continuous (conversionMode s) = false ->
  forall bs w,
    spi_write_then_read [Byte.x00] 1 (world s) = (bs, w) ->
    let s1 := after_read s MAX31856_CR0_REG 1 bs w in
    wait_conversion (S fuel) start s =
    if negb (Z.testbit (buffer_at bs 0) 6) then (WaitDone, s1)
    else if wrap32 (wrap32 (millis w) - start) >? 250 then (WaitTimeout, s1)
    else wait_conversion fuel start (snd (dev_delay 10 s1)).
Proof.
  intros Hm bs w E s1. cbn [wait_conversion]. rewrite bind_run.
  rewrite (conversionComplete_oneshot s Hm bs w E). cbn [fst snd]. fold s1.
  destruct (negb (Z.testbit (buffer_at bs 0) 6)); [reflexivity|].
  rewrite bind_run. unfold dev_millis at 1 2. cbn [fst snd].
  change (world s1) with w.
  destruct (wrap32 (wrap32 (millis w) - start) >? 250); [reflexivity|].
  rewrite bind_run. reflexivity.
Qed.

(** With at most [10 * j] ms of the 260 left at the head of the loop, any
    fuel above [j] is enough: the loop leaves by its condition or by its
    [return NAN], the same way for every such fuel. *)
Lemma wait_conversion_enough (m0 : Z) :
  forall (j fuel fuel' : nat) (s : Driver W),
    is_continuous (conversionMode s) = false ->
    260 - 10 * Z.of_nat j <= millis (world s) - m0 <= 260 + B ->
    (j <= 26)%nat -> (j < fuel)%nat -> (j < fuel')%nat ->
    exists o s',
      wait_conversion fuel (wrap32 m0) s = (o, s') /\
      wait_conversion fuel' (wrap32 m0) s = (o, s') /\
      o <> WaitFuel /\
      conversionMode s' = conversionMode s /\
      millis (world s) <= millis (world s') /\
      millis (world s') - m0 <= 260 + 2 * B.
Proof.
  destruct Hclock as (Hdelay & _ & Hread).
  pose proof HB as HB'. change (2 ^ 30) with 1073741824 in HB'.
  induction j as [|j IH]; intros fuel fuel' s Hm He Hj Hf Hf';
    (destruct fuel as [|fuel]; [lia|]);
    (destruct fuel' as [|fuel']; [lia|]);
    destruct (spi_write_then_read [Byte.x00] 1 (world s)) as [bs w] eqn:E;
    pose proof (Hread (world s) [Byte.x00] 1%nat) as Hmw;
    rewrite E in Hmw; cbn [snd] in Hmw;
    rewrite !(wait_conversion_step _ _ s Hm bs w E);
    (destruct (negb (Z.testbit (buffer_at bs 0) 6));
     [eexists; eexists;
      split; [reflexivity|]; split; [reflexivity|];
      split; [discriminate|]; split; [reflexivity|];
      cbn [world after_read]; lia|]);
    replace (millis w) with (m0 + (millis w - m0)) by lia;
    rewrite elapsed_since by (change (2 ^ 32) with 4294967296; lia);
    destruct (millis w - m0 >? 250) eqn:G;
    rewrite Z.gtb_ltb in G;
    [apply Z.ltb_lt in G | apply Z.ltb_ge in G
    |apply Z.ltb_lt in G | apply Z.ltb_ge in G].
  - eexists. eexists.
    split; [reflexivity|]. split; [reflexivity|].
    split; [discriminate|]. split; [reflexivity|]. cbn [world after_read]. lia.
  - lia.
  - eexists. eexists.
    split; [reflexivity|]. split; [reflexivity|].
    split; [discriminate|]. split; [reflexivity|]. cbn [world after_read]. lia.
  - pose proof (Hdelay w 10 ltac:(lia)) as Hd.
    set (s2 := snd (dev_delay 10 (after_read s MAX31856_CR0_REG 1 bs w))).
    assert (Hw2 : world s2 = delay 10 w) by reflexivity.
    assert (Hm2 : conversionMode s2 = conversionMode s) by reflexivity.
    destruct (IH fuel fuel' s2)
      as (o & s' & Hrun & Hrun' & Ho & Hmode & Hmono & Hmil).
    + rewrite Hm2. exact Hm.
    + rewrite Hw2. lia.
    + lia.
    + lia.
    + lia.
    + exists o, s'. split; [exact Hrun|]. split; [exact Hrun'|].
      split; [exact Ho|]. split; [rewrite Hmode; exact Hm2|].
      rewrite Hw2 in Hmono. split; [lia | exact Hmil].
Qed.

End Termination.

(** X8: whatever the device answers, a call of
    [readThermocoupleTemperature] returns: with a clock that does not run
    backwards and transactions of at most [B] ms, 27 evaluations of the loop
    condition are enough in the blocking mode, the result (a number or
    [NAN]) and the final state do not depend on the bound once it is at
    least 27, the stored mode is unchanged, and the call takes at most
    [260 + 5 * B] ms. *)
Theorem readThermocoupleTemperature_returns :
  forall {W : Type} {P : Platform W} (s : Driver W) (B : Z)
         (fuel fuel' : nat),
    0 <= B < 2 ^ 30 ->
    clock_latency B ->
    (27 <= fuel)%nat -> (27 <= fuel')%nat ->
    exists r s',
      readThermocoupleTemperature fuel s = (Some r, s') /\
      readThermocoupleTemperature fuel' s = (Some r, s') /\
      conversionMode s' = conversionMode s /\
      millis (world s) <= millis (world s')
      <= millis (world s) + 260 + 5 * B.
Proof.
  intros W P s B fuel fuel' HB Hclock Hf Hf'.
  pose proof Hclock as (Hdelay & Hwrite & Hread).
  destruct (is_oneshot (conversionMode s)) eqn:Hone.
  - assert (Hc : is_continuous (conversionMode s) = false)
      by (destruct (conversionMode s); (discriminate || reflexivity)).
    destruct (spi_write_then_read [Byte.x00] 1 (world s)) as [bs w] eqn:E.
    pose proof (Hread (world s) [Byte.x00] 1%nat) as Hmw.
    rewrite E in Hmw. cbn [snd] in Hmw.
    set (st := after_write (after_read s MAX31856_CR0_REG 1 bs w)
                           MAX31856_CR0_REG (cr0_oneshot (buffer_at bs 0))).
    pose proof (triggerOneShot_oneshot s Hc bs w E) as Ht. fold st in Ht.
    assert (Hmt : millis w <= millis (world st) <= millis w + B)
      by apply Hwrite.
    destruct (wait_conversion_enough B HB Hclock (millis (world st))
                26%nat fuel fuel' st)
      as (o & s1 & Hrun & Hrun' & Ho & Hmode & Hmono & Hmil);
      [exact Hc | lia | lia | lia | lia |].
    assert (Hshape : forall f,
               wait_conversion f (wrap32 (millis (world st))) st = (o, s1) ->
               readThermocoupleTemperature f s =
               match o with
               | WaitFuel => (None, s1)
               | WaitTimeout => (Some FNaN, s1)
               | WaitDone =>
                   (Some (FNum (thermocouple_of_raw
                                  (fst (readRegister24 MAX31856_LTCBH_REG s1)))),
                    snd (readRegister24 MAX31856_LTCBH_REG s1))
               end).
    { intros f Hw. unfold readThermocoupleTemperature.
      rewrite bind_run. unfold get_mode at 1 2. cbn [fst snd].
      rewrite Hone. rewrite bind_run. rewrite (bind_run triggerOneShot).
      rewrite Ht. cbn [fst snd]. rewrite (bind_run dev_millis).
      unfold dev_millis. cbn [fst snd]. rewrite Hw. cbn [fst snd].
      destruct o; try reflexivity. rewrite bind_run. reflexivity. }
    rewrite (Hshape fuel Hrun), (Hshape fuel' Hrun').
    destruct o; [| |congruence].
    + destruct (spi_write_then_read [Byte.x0c] 3 (world s1)) as [bs3 w3] eqn:E3.
      pose proof (Hread (world s1) [Byte.x0c] 3%nat) as Hm3.
      rewrite E3 in Hm3. cbn [snd] in Hm3.
      rewrite (readRegister24_spec MAX31856_LTCBH_REG s1 bs3 w3) by exact E3.
      cbn [fst snd]. eexists. eexists.
      split; [reflexivity|]. split; [reflexivity|].
      cbn [conversionMode world after_read].
      split; [exact Hmode|]. lia.
    + eexists. eexists.
      split; [reflexivity|]. split; [reflexivity|].
      split; [exact Hmode|]. lia.
  - destruct (spi_write_then_read [Byte.x0c] 3 (world s)) as [bs3 w3] eqn:E3.
    pose proof (Hread (world s) [Byte.x0c] 3%nat) as Hm3.
    rewrite E3 in Hm3. cbn [snd] in Hm3.
    rewrite !(readThermocoupleTemperature_nowait _ s Hone bs3 w3 E3).
    eexists. eexists.
    split; [reflexivity|]. split; [reflexivity|].
    cbn [conversionMode world after_read].
    split; [reflexivity|]. lia.
Qed.

Lemma readThermocoupleTemperature_returns_witness :
  exists r s',
    readThermocoupleTemperature 27
      (SimChip.handle MAX31856_ONESHOT [(0x00, 0x10)]) = (Some r, s') /\
    readThermocoupleTemperature 40
      (SimChip.handle MAX31856_ONESHOT [(0x00, 0x10)]) = (Some r, s').
Proof.
  destruct (readThermocoupleTemperature_returns
              (SimChip.handle MAX31856_ONESHOT [(0x00, 0x10)]) 0 27 40)
    as (r & s' & H1 & H2 & _).
  - vm_compute. split; [discriminate | reflexivity].
  - exact SimChip_ideal_clock.
  - lia.
  - lia.
  - exists r, s'. split; [exact H1 | exact H2].
Defined.

Lemma wrap8_ext (a b : Z) :
  (forall k, 0 <= k < 8 -> Z.testbit a k = Z.testbit b k) ->
  wrap8 a = wrap8 b.
Proof.
  intros H. apply Z.bits_inj'. intros k Hk. unfold wrap8.
  rewrite !Z.testbit_mod_pow2 by lia.
  destruct (k <? 8) eqn:E; [|reflexivity].
  apply Z.ltb_lt in E. cbn [andb]. apply H. lia.
Qed.

Lemma cr0_mode_bits (mode : max31856_conversion_mode_t) (t k : Z) :
  0 <= k < 8 ->
  Z.testbit ((if is_continuous mode then cr0_continuous else cr0_oneshot) t) k =
  if k =? 7 then is_continuous mode
  else if k =? 6 then negb (is_continuous mode)
  else Z.testbit t k.
Proof.
  intros Hk. bit_cases k; cbn [Z.eqb Pos.eqb];
    destruct (is_continuous mode); cbn [negb];
    first [ apply cr0_continuous_bit7 | apply cr0_continuous_bit6
          | apply cr0_oneshot_bit7 | apply cr0_oneshot_bit6
          | apply cr0_continuous_low_bits; lia
          | apply cr0_oneshot_low_bits; lia ].
Qed.

Lemma cr0_filter_bits (f : max31856_noise_filter_t) (t k : Z) :
  0 <= k < 8 ->
  Z.testbit (cr0_with_filter t f) k =
  if k =? 0
  then match f with
       | MAX31856_NOISE_FILTER_50HZ => true
       | MAX31856_NOISE_FILTER_60HZ => false
       end
  else Z.testbit t k.
Proof.
  intros Hk. destruct (k =? 0) eqn:E.
  - apply Z.eqb_eq in E. subst k. apply cr0_with_filter_bit0.
  - apply Z.eqb_neq in E. apply cr0_with_filter_other_bits. lia.
Qed.

(** X9: on a device that only stores, [setNoiseFilter] and
    [setConversionMode] can be called in either order: every register and
    the stored mode end up the same, with bit 0 of the main configuration
    register telling the filter, bits 7 and 6 the mode, and bits 1 to 5 as
    they were. *)
Theorem setNoiseFilter_setConversionMode_commute :
  forall {W : Type} {P : Platform W} (s : Driver W)
         (noiseFilter : max31856_noise_filter_t)
         (mode : max31856_conversion_mode_t) (r : Z),
    register_file ->
    0 <= r < 16 ->
    let a := snd (setConversionMode mode (snd (setNoiseFilter noiseFilter s))) in
    let b := snd (setNoiseFilter noiseFilter (snd (setConversionMode mode s))) in
    peek r (world a) = peek r (world b) /\
    conversionMode a = mode /\ conversionMode b = mode /\
    forall k, 0 <= k < 8 ->
      Z.testbit (peek MAX31856_CR0_REG (world a)) k =
      if k =? 7 then is_continuous mode
      else if k =? 6 then negb (is_continuous mode)
      else if k =? 0
           then match noiseFilter with
                | MAX31856_NOISE_FILTER_50HZ => true
                | MAX31856_NOISE_FILTER_60HZ => false
                end
      else Z.testbit (peek MAX31856_CR0_REG (world s)) k.
Proof.
  intros W P s f mode r Hrf Hr a b. subst a b.
  split; [|split; [|split]].
  - rewrite (peek_setConversionMode Hrf), !(peek_setNoiseFilter Hrf),
      !(peek_setConversionMode Hrf) by (assumption || reg_range).
    destruct (r =? MAX31856_CR0_REG); [|reflexivity].
    change (MAX31856_CR0_REG =? MAX31856_CR0_REG) with true. cbv iota.
    apply wrap8_ext. intros k Hk.
    rewrite cr0_mode_bits, cr0_filter_bits, !wrap8_bit,
      cr0_mode_bits, cr0_filter_bits by lia.
    bit_cases k; reflexivity.
  - rewrite setConversionMode_run, conversionMode_rmw. reflexivity.
  - change (setNoiseFilter f (snd (setConversionMode mode s)))
      with (rmw MAX31856_CR0_REG (fun t => cr0_with_filter t f)
                (snd (setConversionMode mode s))).
    rewrite conversionMode_rmw, setConversionMode_run, conversionMode_rmw.
    reflexivity.
  - intros k Hk.
    rewrite (peek_setConversionMode Hrf), (peek_setNoiseFilter Hrf)
      by reg_range.
    change (MAX31856_CR0_REG =? MAX31856_CR0_REG) with true. cbv iota.
    rewrite wrap8_bit, cr0_mode_bits, wrap8_bit, cr0_filter_bits by lia.
    reflexivity.
Qed.

Lemma setNoiseFilter_setConversionMode_commute_witness :
  let s := SimChip.handle MAX31856_ONESHOT [(0x00, 0x50)] in
  peek MAX31856_CR0_REG
    (world (snd (setConversionMode MAX31856_CONTINUOUS
             (snd (setNoiseFilter MAX31856_NOISE_FILTER_50HZ s)))))
  = peek MAX31856_CR0_REG
      (world (snd (setNoiseFilter MAX31856_NOISE_FILTER_50HZ
               (snd (setConversionMode MAX31856_CONTINUOUS s))))).
Proof.
  intros s.
  apply (setNoiseFilter_setConversionMode_commute
           s MAX31856_NOISE_FILTER_50HZ MAX31856_CONTINUOUS MAX31856_CR0_REG
           SimChip_register_file).
  vm_compute. split; [discriminate | reflexivity].
Defined.

(** X10: [readCJTemperature] reads the two cold-junction registers as one
    unsigned big-endian number and divides it by 256: the result lies in
    [0, 256), equals the two's-complement reading of the registers when
    bit 15 is clear, and is exactly 256 above it when bit 15 is set. *)
Theorem readCJTemperature_reading :
  forall {W : Type} {P : Platform W} (s : Driver W),
    let bs := fst (spi_write_then_read [Byte.x0a] 2 (world s)) in
    let raw := big_endian16 bs in
    exists q,
      fst (readCJTemperature s) = FNum q /\
      trace (snd (readCJTemperature s)) =
      trace s ++ [LogEntry (conversionMode s)
                           (EvWriteThenRead [Byte.x0a] 2 bs)] /\
      (q == inject_Z raw / 256)%Q /\
      (0 <= q)%Q /\ (q < 256)%Q /\
      (q == inject_Z (to_int16 raw) / 256
            + (if Z.testbit raw 15 then 256 else 0))%Q.
Proof.
  intros W P s bs raw. subst raw bs.
  destruct (spi_write_then_read [Byte.x0a] 2 (world s)) as [bs w] eqn:E.
  rewrite (readCJTemperature_spec s bs w E). cbn [fst snd].
  pose proof (big_endian16_range bs) as H.
  set (raw := big_endian16 bs) in *.
  eexists. split; [reflexivity|].
  split; [reflexivity|].
  split; [unfold Qeq; cbn [Qnum Qden Qdiv Qmult Qinv inject_Z]; lia|].
  split; [unfold Qle; cbn [Qnum Qden Qdiv Qmult Qinv inject_Z]; lia|].
  split; [unfold Qlt; cbn [Qnum Qden Qdiv Qmult Qinv inject_Z];
          change (2 ^ 16) with 65536 in H; lia|].
  rewrite (testbit_top raw 15) by (change (2 ^ (15 + 1)) with (2 ^ 16); lia).
  change (2 ^ 16) with 65536 in H. change (2 ^ 15) with 32768.
  destruct (Z.leb_spec 32768 raw) as [Hle|Hlt].
  - replace (to_int16 raw) with (raw - 65536).
    + unfold Qeq. cbn [Qnum Qden Qdiv Qmult Qinv Qplus inject_Z]. lia.
    + unfold to_int16. change (2 ^ 15) with 32768. change (2 ^ 16) with 65536.
      replace (raw + 32768) with (raw - 32768 + 1 * 65536) by lia.
      rewrite Z.mod_add by lia. rewrite Z.mod_small by lia. lia.
  - rewrite to_int16_small by (change (2 ^ 15) with 32768; lia).
    unfold Qeq. cbn [Qnum Qden Qdiv Qmult Qinv Qplus inject_Z]. lia.
Qed.

(** X11: the earlier revision's [readCJTemperature] first runs a one-shot
    sequence: it writes zero to the cold-junction offset register, writes
    the main configuration register back with ONE_SHOT set and AUTOCONVERT
    clear, and waits 250 ms; only then does it read the two cold-junction
    registers, which it decodes as a two's-complement number: the result
    lies in [-128, 128) and is negative exactly when bit 15 is set. *)
Theorem Legacy_readCJTemperature_spec :
  forall {W : Type} {P : Platform W} (s : Driver W),
    exists bs0 v bs q,
      fst (Legacy.readCJTemperature s) = FNum q /\
      trace (snd (Legacy.readCJTemperature s)) =
      trace s ++ map (LogEntry (conversionMode s))
                     [EvWrite [Byte.x89; Byte.x00];
                      EvWriteThenRead [Byte.x00] 1 bs0;
                      EvWrite [Byte.x80; v];
                      EvDelay 250;
                      EvWriteThenRead [Byte.x0a] 2 bs] /\
      Z.testbit (u8 v) 6 = true /\
      Z.testbit (u8 v) 7 = false /\
      (forall k, 0 <= k < 6 ->
                 Z.testbit (u8 v) k = Z.testbit (buffer_at bs0 0) k) /\
      (q == inject_Z (to_int16 (big_endian16 bs)) / 256)%Q /\
      (-128 <= q)%Q /\ (q < 128)%Q /\
      (Z.testbit (big_endian16 bs) 15 = true <-> (q < 0)%Q).
Proof.
  intros W P s.
  set (s1 := after_write s MAX31856_CJTO_REG 0).
  destruct (spi_write_then_read [Byte.x00] 1 (world s1)) as [bs0 w0] eqn:E0.
  set (s2 := after_read s1 MAX31856_CR0_REG 1 bs0 w0).
  set (s3 := after_write s2 MAX31856_CR0_REG (cr0_oneshot (buffer_at bs0 0))).
  set (s4 := snd (dev_delay 250 s3)).
  destruct (spi_write_then_read [Byte.x0a] 2 (world s4)) as [bs w] eqn:E.
  assert (Hrun : Legacy.readCJTemperature s =
                 (FNum (inject_Z (to_int16 (big_endian16 bs)) / 256.0),
                  after_read s4 MAX31856_CJTH_REG 2 bs w)).
  { unfold Legacy.readCJTemperature, Legacy.oneShotTemperature.
    rewrite !bind_run.
    change (snd (writeRegister8 MAX31856_CJTO_REG 0 s)) with s1.
    rewrite (readRegister8_spec MAX31856_CR0_REG s1 bs0 w0 E0).
    cbn [fst snd]. fold s2.
    change (snd (writeRegister8 MAX31856_CR0_REG
                   (wrap8 (Z.lor (wrap8 (Z.land (buffer_at bs0 0)
                              (Z.lnot MAX31856_CR0_AUTOCONVERT)))
                           MAX31856_CR0_1SHOT)) s2))
      with (after_write s2 MAX31856_CR0_REG (cr0_oneshot (buffer_at bs0 0))).
    fold s3. fold s4.
    rewrite (readRegister16_spec MAX31856_CJTH_REG s4 bs w E).
    reflexivity. }
  rewrite Hrun. cbn [fst snd].
  exists bs0, (to_u8 (wrap8 (cr0_oneshot (buffer_at bs0 0)))), bs.
  eexists. split; [reflexivity|].
  split.
  { unfold after_read, log, s4, dev_delay, s3, after_write, log, s2, after_read,
      log, s1, after_write, log.
    cbn [trace conversionMode snd map]. rewrite <- !app_assoc. reflexivity. }
  split; [rewrite to_u8_bit by lia; apply cr0_oneshot_bit6|].
  split; [rewrite to_u8_bit by lia; apply cr0_oneshot_bit7|].
  split; [intros k Hk; rewrite to_u8_bit by lia;
          apply cr0_oneshot_low_bits; exact Hk|].
  pose proof (big_endian16_range bs) as Hr.
  pose proof (to_int16_range (big_endian16 bs)) as Hi.
  set (raw := big_endian16 bs) in *.
  change (2 ^ 15) with 32768 in Hi. change (2 ^ 16) with 65536 in Hr.
  split; [unfold Qeq; cbn [Qnum Qden Qdiv Qmult Qinv inject_Z]; lia|].
  split; [unfold Qle; cbn [Qnum Qden Qdiv Qmult Qinv inject_Z]; lia|].
  split; [unfold Qlt; cbn [Qnum Qden Qdiv Qmult Qinv inject_Z]; lia|].
  rewrite (testbit_top raw 15) by (change (2 ^ (15 + 1)) with 65536; lia).
  change (2 ^ 15) with 32768.
  unfold Qlt. cbn [Qnum Qden Qdiv Qmult Qinv inject_Z].
  destruct (Z.leb_spec 32768 raw) as [Hle|Hlt].
  - replace (to_int16 raw) with (raw - 65536).
    + split; [intros _; lia | reflexivity].
    + unfold to_int16. change (2 ^ 15) with 32768. change (2 ^ 16) with 65536.
      replace (raw + 32768) with (raw - 32768 + 1 * 65536) by lia.
      rewrite Z.mod_add by lia. rewrite Z.mod_small by lia. lia.
  - rewrite to_int16_small by (change (2 ^ 15) with 32768; lia).
    split; [discriminate | lia].
Qed.

Lemma Qtrunc_within_one (q : Q) :
  (inject_Z (Qtrunc q) - 1 < q)%Q /\ (q < inject_Z (Qtrunc q) + 1)%Q.
Proof.
  destruct (Qtrunc_toward_zero q) as [Hp Hn].
  assert (Hs : (inject_Z (Qtrunc q) - 1 < inject_Z (Qtrunc q))%Q
               /\ (inject_Z (Qtrunc q) < inject_Z (Qtrunc q) + 1)%Q).
  { unfold Qlt. cbn [Qnum Qden Qplus Qminus Qopp inject_Z]. lia. }
  destruct Hs as [Hs1 Hs2].
  destruct (Qlt_le_dec q 0) as [Hneg|Hpos].
  - destruct (Hn (Qlt_le_weak _ _ Hneg)) as [H1 H2].
    split; [exact H1 | eapply Qle_lt_trans; [exact H2 | exact Hs2]].
  - destruct (Hp Hpos) as [H1 H2].
    split; [eapply Qlt_le_trans; [exact Hs1 | exact H1] | exact H2].
Qed.

(** X12: on a device that only stores, after [setTempFaultThreshholds] with
    both arguments in [-2048, 2048) the two threshold register pairs hold,
    as big-endian two's-complement numbers, the arguments times 16 with the
    fraction dropped: each is less than one unit (1/16 degree) away from
    the scaled argument, and a low argument that does not exceed the high
    one is stored as a low threshold that does not exceed the high one. *)
Theorem setTempFaultThreshholds_stored :
  forall {W : Type} {P : Platform W} (s : Driver W) (flow fhigh : Q),
    register_file ->
    (-2048 <= flow)%Q -> (flow < 2048)%Q ->
    (-2048 <= fhigh)%Q -> (fhigh < 2048)%Q ->
    let w' := world (snd (setTempFaultThreshholds flow fhigh s)) in
    let stored := fun hi lo : Z =>
      to_int16 (big_endian16 [to_u8 (peek hi w'); to_u8 (peek lo w')]) in
    let low := stored MAX31856_LTLFTH_REG MAX31856_LTLFTL_REG in
    let high := stored MAX31856_LTHFTH_REG MAX31856_LTHFTL_REG in
    low = Qtrunc (flow * 16) /\
    high = Qtrunc (fhigh * 16) /\
    (inject_Z low - 1 < flow * 16)%Q /\ (flow * 16 < inject_Z low + 1)%Q /\
    (inject_Z high - 1 < fhigh * 16)%Q /\ (fhigh * 16 < inject_Z high + 1)%Q /\
    ((flow <= fhigh)%Q -> low <= high).
Proof.
  intros W P s flow fhigh Hrf Hl0 Hl1 Hh0 Hh1 w' stored low high.
  pose proof (Qtrunc_scaled_range flow Hl0 Hl1) as Rl.
  pose proof (Qtrunc_scaled_range fhigh Hh0 Hh1) as Rh.
  assert (Hpk : forall r, 0 <= r < 16 ->
            peek r w' =
            if r =? MAX31856_LTLFTL_REG
            then wrap8 (float_to_int16 (flow * 16))
            else if r =? MAX31856_LTLFTH_REG
            then wrap8 (Z.shiftr (float_to_int16 (flow * 16)) 8)
            else if r =? MAX31856_LTHFTL_REG
            then wrap8 (float_to_int16 (fhigh * 16))
            else if r =? MAX31856_LTHFTH_REG
            then wrap8 (Z.shiftr (float_to_int16 (fhigh * 16)) 8)
            else peek r (world s)).
  { intros r Hr. subst w'. unfold setTempFaultThreshholds.
    rewrite !bind_run.
    rewrite !(peek_writeRegister8 Hrf) by (assumption || reg_range).
    reflexivity. }
  assert (Hlow : low = Qtrunc (flow * 16)).
  { subst low stored. cbv beta. rewrite !Hpk by reg_range.
    change (MAX31856_LTLFTH_REG =? MAX31856_LTLFTL_REG) with false.
    change (MAX31856_LTLFTH_REG =? MAX31856_LTLFTH_REG) with true.
    change (MAX31856_LTLFTL_REG =? MAX31856_LTLFTL_REG) with true.
    cbv iota. rewrite !to_u8_wrap8.
    rewrite !(float_to_int16_defined (flow * 16)) by exact Rl.
    apply int16_bytes. exact Rl. }
  assert (Hhigh : high = Qtrunc (fhigh * 16)).
  { subst high stored. cbv beta. rewrite !Hpk by reg_range.
    change (MAX31856_LTHFTH_REG =? MAX31856_LTLFTL_REG) with false.
    change (MAX31856_LTHFTH_REG =? MAX31856_LTLFTH_REG) with false.
    change (MAX31856_LTHFTH_REG =? MAX31856_LTHFTL_REG) with false.
    change (MAX31856_LTHFTH_REG =? MAX31856_LTHFTH_REG) with true.
    change (MAX31856_LTHFTL_REG =? MAX31856_LTLFTL_REG) with false.
    change (MAX31856_LTHFTL_REG =? MAX31856_LTLFTH_REG) with false.
    change (MAX31856_LTHFTL_REG =? MAX31856_LTHFTL_REG) with true.
    cbv iota. rewrite !to_u8_wrap8.
    rewrite !(float_to_int16_defined (fhigh * 16)) by exact Rh.
    apply int16_bytes. exact Rh. }
  rewrite Hlow, Hhigh.
  split; [reflexivity|]. split; [reflexivity|].
  split; [apply Qtrunc_within_one|]. split; [apply Qtrunc_within_one|].
  split; [apply Qtrunc_within_one|]. split; [apply Qtrunc_within_one|].
  intros Hle. apply Qtrunc_monotone.
  unfold Qle in *. cbn [Qnum Qden Qmult] in *. nia.
Qed.

Lemma setTempFaultThreshholds_stored_witness :
  let w' := world (snd (setTempFaultThreshholds (-10.25) 26.5
                          (SimChip.handle MAX31856_ONESHOT []))) in
  to_int16 (big_endian16 [to_u8 (peek MAX31856_LTLFTH_REG w');
                          to_u8 (peek MAX31856_LTLFTL_REG w')])
  = Qtrunc (-10.25 * 16).
Proof.
  intros w'.
  apply (setTempFaultThreshholds_stored
           (SimChip.handle MAX31856_ONESHOT []) (-10.25) 26.5
           SimChip_register_file);
    vm_compute; (discriminate || reflexivity).
Defined.

(** X13: every number [readThermocoupleTemperature] returns, in any mode
    and whatever the device delivers, is a multiple of 1/128 degree in
    [-2048, 2048): the 19 bits kept of the three temperature registers,
    sign included. *)
Theorem readThermocoupleTemperature_range :
  forall {W : Type} {P : Platform W} (s : Driver W) (fuel : nat) (q : Q),
    fst (readThermocoupleTemperature fuel s) = Some (FNum q) ->
    exists m,
      - 2 ^ 18 <= m < 2 ^ 18 /\
      (q == m # 128)%Q /\ (-2048 <= q)%Q /\ (q < 2048)%Q.
Proof.
  intros W P s fuel q H.
  destruct (readThermocoupleTemperature fuel s) as [r s'] eqn:E.
  cbn [fst] in H. subst r.
  destruct (readThermocoupleTemperature_number fuel s q s' E) as (bs & _ & ->).
  destruct (thermocouple_of_raw_dyadic (big_endian24 bs)
              (big_endian24_range bs)) as (m & Hm & Hq).
  exists m. split; [exact Hm|]. split; [exact Hq|].
  change (2 ^ 18) with 262144 in Hm.
  rewrite Hq. unfold Qle, Qlt. cbn [Qnum Qden]. lia.
Qed.

Lemma readThermocoupleTemperature_range_witness :
  exists m, (-100 == m # 128)%Q.
Proof.
  destruct (readThermocoupleTemperature_range
              (SimChip.handle MAX31856_CONTINUOUS
                 [(0x0C, 0xF9); (0x0D, 0xC0); (0x0E, 0x00)])
              1 (inject_Z (-12800) * 0.0078125)%Q)
    as (m & _ & Hm & _).
  - vm_compute. reflexivity.
  - exists m. rewrite <- Hm. reflexivity.
Defined.

(** ** The earlier revision's pin-level transport *)

Lemma of_bits_acc (bs : list bool) (acc : Z) :
  fold_left (fun a (b : bool) => 2 * a + (if b then 1 else 0)) bs acc
  = acc * 2 ^ Z.of_nat (length bs) + LegacyPins.of_bits bs.
Proof.
  unfold LegacyPins.of_bits. revert acc.
  induction bs as [|b bs IH]; intros acc.
  - cbn. lia.
  - cbn [fold_left length]. rewrite IH. rewrite (IH (2 * 0 + _)).
    rewrite Nat2Z.inj_succ, Z.pow_succ_r by lia. lia.
Qed.

Lemma of_bits_snoc (bs : list bool) (b : bool) :
  LegacyPins.of_bits (bs ++ [b])
  = 2 * LegacyPins.of_bits bs + (if b then 1 else 0).
Proof. unfold LegacyPins.of_bits. rewrite fold_left_app. reflexivity. Qed.

Lemma of_bits_range (bs : list bool) :
  0 <= LegacyPins.of_bits bs < 2 ^ Z.of_nat (length bs).
Proof.
  induction bs as [|b bs IH] using rev_ind.
  - cbn. lia.
  - rewrite of_bits_snoc, length_app, Nat2Z.inj_add. cbn [length].
    change (Z.of_nat 1) with 1. rewrite Z.pow_add_r, Z.pow_1_r by lia.
    destruct b; lia.
Qed.

Lemma of_bits_msb_first (n : nat) (x : Z) :
  LegacyPins.of_bits (LegacyPins.msb_first n x) = x mod 2 ^ Z.of_nat n.
Proof.
  induction n as [|n IH].
  - cbn. rewrite Z.mod_1_r. reflexivity.
  - cbn [LegacyPins.msb_first]. unfold LegacyPins.of_bits. cbn [fold_left].
    rewrite of_bits_acc, IH.
    assert (Hl : length (LegacyPins.msb_first n x) = n).
    { clear. induction n; cbn; [reflexivity | f_equal; assumption]. }
    rewrite Hl, Nat2Z.inj_succ, Z.pow_succ_r by lia.
    assert (Hp : 0 < 2 ^ Z.of_nat n) by (apply Z.pow_pos_nonneg; lia).
    rewrite (Z.mul_comm 2 (2 ^ Z.of_nat n)), Z.rem_mul_r by lia.
    destruct (Z.testbit x (Z.of_nat n)) eqn:T.
    + apply Z.testbit_true in T; [|lia]. rewrite T. lia.
    + apply Z.testbit_false in T; [|lia]. rewrite T. lia.
Qed.

Lemma msb_first_length (n : nat) (x : Z) :
  length (LegacyPins.msb_first n x) = n.
Proof. induction n; cbn; [reflexivity | f_equal; assumption]. Qed.

Lemma mosi_bit (x i : Z) :
  0 <= i < 8 -> negb (wrap8 (Z.land x (Z.shiftl 1 i)) =? 0) = Z.testbit x i.
Proof.
  intros Hi. rewrite Z.shiftl_1_l.
  assert (Hp : 0 < 2 ^ i < 2 ^ 8).
  { split; [apply Z.pow_pos_nonneg; lia|].
    apply Z.pow_lt_mono_r; lia. }
  assert (E : wrap8 (Z.land x (2 ^ i)) = Z.land x (2 ^ i)).
  { unfold wrap8. rewrite <- Z.land_ones, <- Z.land_assoc by lia.
    rewrite (Z.land_ones (2 ^ i)), (Z.mod_small (2 ^ i)) by lia.
    reflexivity. }
  rewrite E, land_pow2_testbit by lia. apply negb_involutive.
Qed.

Lemma miso_samples_app (miso : Z) (a b : list LegacyPins.pin_event) :
  LegacyPins.miso_samples miso (a ++ b)
  = LegacyPins.miso_samples miso a ++ LegacyPins.miso_samples miso b.
Proof.
  induction a as [|e a IH]; [reflexivity|].
  cbn [app LegacyPins.miso_samples].
  destruct e; try exact IH.
  destruct (pin =? miso); [cbn [app]; f_equal|]; exact IH.
Qed.

Section PinFacts.

Context {B : Type} {Bd : LegacyPins.Board B}.

Lemma seen_write (st0 : LegacyPins.slave) (p v : Z) (d : LegacyPins.Device B) :
  LegacyPins.seen st0 (LegacyPins.do_digitalWrite p v d) =
  LegacyPins.sees (LegacyPins._cs d) (LegacyPins._sclk d) (LegacyPins._mosi d)
                  (LegacyPins.seen st0 d)
                  (LegacyPins.PinWrite (wrap8 p) (wrap8 v)).
Proof.
  unfold LegacyPins.seen, LegacyPins.slave_view, LegacyPins.do_digitalWrite,
    LegacyPins.with_board.
  cbn [LegacyPins._cs LegacyPins._sclk LegacyPins._mosi LegacyPins.wire].
  rewrite fold_left_app. reflexivity.
Qed.

Lemma seen_read (st0 : LegacyPins.slave) (p : Z) (d : LegacyPins.Device B) :
  LegacyPins.seen st0 (snd (LegacyPins.do_digitalRead p d))
  = LegacyPins.seen st0 d.
Proof.
  unfold LegacyPins.seen, LegacyPins.slave_view, LegacyPins.do_digitalRead,
    LegacyPins.with_board.
  destruct (LegacyPins.digitalRead (wrap8 p) (LegacyPins.board d)) as [v b].
  cbn [snd LegacyPins._cs LegacyPins._sclk LegacyPins._mosi LegacyPins.wire].
  rewrite fold_left_app. reflexivity.
Qed.

End PinFacts.

Section PinLoop.

Context {B : Type} {Bd : LegacyPins.Board B}.

Lemma same_pins_refl (d : LegacyPins.Device B) : LegacyPins.same_pins d d.
Proof. repeat split. Qed.

Lemma same_pins_trans (a b c : LegacyPins.Device B) :
  LegacyPins.same_pins a b -> LegacyPins.same_pins b c ->
  LegacyPins.same_pins a c.
Proof.
  unfold LegacyPins.same_pins. intros (A1 & A2 & A3 & A4) (B1 & B2 & B3 & B4).
  repeat split; congruence.
Qed.

Lemma software_pins_same (d d' : LegacyPins.Device B) :
  LegacyPins.same_pins d d' -> LegacyPins.software_pins d ->
  LegacyPins.software_pins d'.
Proof.
  unfold LegacyPins.same_pins, LegacyPins.software_pins.
  intros (-> & -> & -> & ->) H. exact H.
Qed.

Lemma seen_same (st0 : LegacyPins.slave) (d d' : LegacyPins.Device B) :
  LegacyPins.same_pins d d' ->
  LegacyPins.seen st0 d' =
  LegacyPins.slave_view (LegacyPins._cs d) (LegacyPins._sclk d)
                        (LegacyPins._mosi d) st0 (LegacyPins.wire d').
Proof.
  unfold LegacyPins.same_pins, LegacyPins.seen.
  intros (-> & -> & -> & _). reflexivity.
Qed.

(** The clock loop of [spixfer], as the chip sees it: with chip select
    low, each turn gives the chip one more bit of [x], from bit [n-1]
    down. *)
Lemma spixfer_loop_seen (st0 : LegacyPins.slave) (x : Z) :
  forall (n : nat) (reply : Z) (d : LegacyPins.Device B),
    LegacyPins.software_pins d ->
    (n <= 8)%nat ->
    LegacyPins.cs_level (LegacyPins.seen st0 d) = false ->
    let d' := snd (LegacyPins.spixfer_loop n x reply d) in
    LegacyPins.same_pins d d' /\
    LegacyPins.cs_level (LegacyPins.seen st0 d') = false /\
    LegacyPins.shifted (LegacyPins.seen st0 d')
    = LegacyPins.shifted (LegacyPins.seen st0 d) ++ LegacyPins.msb_first n x /\
    LegacyPins.frames (LegacyPins.seen st0 d')
    = LegacyPins.frames (LegacyPins.seen st0 d).
Proof.
  induction n as [|n IH]; intros reply d Hp Hn Hcs d'.
  - subst d'. cbn [LegacyPins.spixfer_loop snd LegacyPins.msb_first].
    rewrite app_nil_r. repeat split. exact Hcs.
  - subst d'. cbn [LegacyPins.spixfer_loop].
    set (d1 := LegacyPins.do_digitalWrite (LegacyPins._sclk d) LegacyPins.LOW d).
    set (d2 := LegacyPins.do_digitalWrite (LegacyPins._mosi d1) _ d1).
    set (d3 := LegacyPins.do_digitalWrite (LegacyPins._sclk d2) LegacyPins.HIGH d2).
    destruct (LegacyPins.do_digitalRead (LegacyPins._miso d3) d3) as [v d4] eqn:E4.
    assert (H4 : d4 = snd (LegacyPins.do_digitalRead (LegacyPins._miso d3) d3))
      by (rewrite E4; reflexivity).
    assert (Hs4 : LegacyPins.same_pins d d4).
    { rewrite H4. unfold LegacyPins.do_digitalRead.
      destruct (LegacyPins.digitalRead _ _). repeat split. }
    pose proof Hp as (Hc & Hk & Hm & Hi & Hck & Hcm & Hkm).
    assert (Hseen : LegacyPins.seen st0 d4 =
                    LegacyPins.MkSlave false true (Z.testbit x (Z.of_nat n))
                      (LegacyPins.shifted (LegacyPins.seen st0 d)
                       ++ [Z.testbit x (Z.of_nat n)])
                      (LegacyPins.frames (LegacyPins.seen st0 d))).
    { rewrite H4, seen_read. unfold d3. rewrite seen_write.
      unfold d2. rewrite seen_write. unfold d1. rewrite seen_write.
      cbn [LegacyPins.do_digitalWrite LegacyPins.with_board
           LegacyPins._cs LegacyPins._sclk LegacyPins._mosi].
      destruct (LegacyPins.seen st0 d) as [c k m sh fr].
      cbn [LegacyPins.cs_level] in Hcs. subst c.
      rewrite !(wrap8_small (LegacyPins._sclk d)),
        !(wrap8_small (LegacyPins._mosi d))
        by (change (2 ^ 8) with 256; lia).
      unfold LegacyPins.sees at 3.
      replace (LegacyPins._sclk d =? LegacyPins._cs d) with false
        by (symmetry; apply Z.eqb_neq; congruence).
      rewrite Z.eqb_refl.
      change (negb (wrap8 LegacyPins.LOW =? 0)) with false.
      cbn [LegacyPins.cs_level LegacyPins.clk_level LegacyPins.mosi_level
           LegacyPins.shifted LegacyPins.frames negb andb].
      rewrite andb_false_r.
      unfold LegacyPins.sees at 2.
      replace (LegacyPins._mosi d =? LegacyPins._cs d) with false
        by (symmetry; apply Z.eqb_neq; congruence).
      replace (LegacyPins._mosi d =? LegacyPins._sclk d) with false
        by (symmetry; apply Z.eqb_neq; congruence).
      rewrite Z.eqb_refl.
      rewrite mosi_bit by lia.
      cbn [LegacyPins.cs_level LegacyPins.clk_level LegacyPins.mosi_level
           LegacyPins.shifted LegacyPins.frames].
      unfold LegacyPins.sees.
      replace (LegacyPins._sclk d =? LegacyPins._cs d) with false
        by (symmetry; apply Z.eqb_neq; congruence).
      rewrite Z.eqb_refl.
      change (negb (wrap8 LegacyPins.HIGH =? 0)) with true.
      cbn [LegacyPins.cs_level LegacyPins.clk_level LegacyPins.mosi_level
           LegacyPins.shifted LegacyPins.frames negb andb].
      reflexivity. }
    match goal with
    | |- context [LegacyPins.spixfer_loop n x ?r d4] =>
        destruct (IH r d4) as (Hs & Hcs' & Hsh & Hfr)
    end.
    + exact (software_pins_same d d4 Hs4 Hp).
    + lia.
    + rewrite Hseen. reflexivity.
    + split; [exact (same_pins_trans _ _ _ Hs4 Hs)|].
      split; [exact Hcs'|].
      rewrite Hsh, Hfr, Hseen.
      cbn [LegacyPins.shifted LegacyPins.frames LegacyPins.msb_first].
      rewrite <- app_assoc. split; reflexivity.
Qed.

End PinLoop.

Section PinReply.

Context {B : Type} {Bd : LegacyPins.Board B}.

Lemma reply_step (reply : Z) (l : bool) :
  0 <= reply < 2 ^ 8 ->
  (if l then wrap8 (Z.lor (wrap8 (Z.shiftl reply 1)) 1)
   else wrap8 (Z.shiftl reply 1))
  = wrap8 (2 * reply + (if l then 1 else 0)).
Proof.
  intros Hr. rewrite Z.shiftl_mul_pow2 by lia. change (2 ^ 1) with 2.
  destruct l.
  - rewrite Z.or_to_plus.
    + unfold wrap8. change (2 ^ 8) with 256 in *.
      Z.div_mod_to_equations. lia.
    + change 1 with (Z.ones 1). rewrite Z.land_ones by lia.
      unfold wrap8. change (2 ^ 8) with 256. change (2 ^ 1) with 2.
      Z.div_mod_to_equations. lia.
  - f_equal. lia.
Qed.

(** The clock loop of [spixfer], as the object reads it: each turn samples
    the data input once, and the result spells the old [reply] followed
    by the samples, most significant first, cut to eight bits. *)
Lemma spixfer_loop_reply (x : Z) :
  forall (n : nat) (reply : Z) (d : LegacyPins.Device B),
    0 <= reply < 2 ^ 8 ->
    0 <= LegacyPins._miso d < 128 ->
    let r := LegacyPins.spixfer_loop n x reply d in
    exists smp,
      LegacyPins._miso (snd r) = LegacyPins._miso d /\
      LegacyPins.sampled (snd r) = LegacyPins.sampled d ++ smp /\
      length smp = n /\
      fst r = wrap8 (reply * 2 ^ Z.of_nat n + LegacyPins.of_bits smp).
Proof.
  induction n as [|n IH]; intros reply d Hr Hi r; subst r.
  - exists []. cbn [LegacyPins.spixfer_loop fst snd length].
    rewrite app_nil_r. repeat split.
    change (LegacyPins.of_bits []) with 0. change (2 ^ Z.of_nat 0) with 1.
    rewrite wrap8_small; lia.
  - cbn [LegacyPins.spixfer_loop].
    set (d1 := LegacyPins.do_digitalWrite (LegacyPins._sclk d) LegacyPins.LOW d).
    set (d2 := LegacyPins.do_digitalWrite (LegacyPins._mosi d1) _ d1).
    set (d3 := LegacyPins.do_digitalWrite (LegacyPins._sclk d2) LegacyPins.HIGH d2).
    unfold LegacyPins.do_digitalRead.
    change (LegacyPins._miso d3) with (LegacyPins._miso d).
    destruct (LegacyPins.digitalRead (wrap8 (LegacyPins._miso d))
                                     (LegacyPins.board d3)) as [v b].
    set (d4 := LegacyPins.with_board d3 b _).
    set (l := negb (v =? 0)).
    rewrite (reply_step reply l Hr).
    assert (Hs4 : LegacyPins.sampled d4 = LegacyPins.sampled d ++ [l]).
    { unfold LegacyPins.sampled, d4, d3, d2, d1, LegacyPins.do_digitalWrite,
        LegacyPins.with_board.
      cbn [LegacyPins._miso LegacyPins.wire].
      rewrite !miso_samples_app. cbn [LegacyPins.miso_samples].
      rewrite !app_nil_r.
      rewrite (wrap8_small (LegacyPins._miso d))
        by (change (2 ^ 8) with 256; lia).
      rewrite Z.eqb_refl. reflexivity. }
    destruct (IH (wrap8 (2 * reply + (if l then 1 else 0))) d4)
      as (smp & Hm & Hsm & Hlen & Hfst).
    + apply wrap8_range.
    + exact Hi.
    + exists (l :: smp). split; [rewrite Hm; reflexivity|].
      split; [rewrite Hsm, Hs4, <- app_assoc; reflexivity|].
      split; [cbn [length]; rewrite Hlen; reflexivity|].
      rewrite Hfst.
      unfold LegacyPins.of_bits at 2. cbn [fold_left].
      rewrite of_bits_acc, Hlen.
      rewrite Nat2Z.inj_succ, Z.pow_succ_r by lia.
      unfold wrap8.
      rewrite Z.add_mod, Z.mul_mod_idemp_l, <- Z.add_mod by lia.
      f_equal. destruct l; lia.
Qed.

End PinReply.

Section PinFrames.

Context {B : Type} {Bd : LegacyPins.Board B}.

Lemma software_sclk (d : LegacyPins.Device B) :
  LegacyPins.software_pins d -> (LegacyPins._sclk d =? -1) = false.
Proof. intros (_ & H & _). apply Z.eqb_neq. lia. Qed.

Lemma msb_first_wrap8 (n : nat) (x : Z) :
  (n <= 8)%nat -> LegacyPins.msb_first n (wrap8 x) = LegacyPins.msb_first n x.
Proof.
  induction n as [|n IH]; intros Hn; [reflexivity|].
  cbn [LegacyPins.msb_first]. rewrite wrap8_bit by lia.
  f_equal. apply IH. lia.
Qed.

(** One byte through the clocked pins. *)
Lemma spixfer_seen (st0 : LegacyPins.slave) (x : Z) (d : LegacyPins.Device B) :
  LegacyPins.software_pins d ->
  LegacyPins.cs_level (LegacyPins.seen st0 d) = false ->
  let r := LegacyPins.spixfer x d in
  LegacyPins.same_pins d (snd r) /\
  LegacyPins.cs_level (LegacyPins.seen st0 (snd r)) = false /\
  LegacyPins.shifted (LegacyPins.seen st0 (snd r))
  = LegacyPins.shifted (LegacyPins.seen st0 d) ++ LegacyPins.msb_first 8 x /\
  LegacyPins.frames (LegacyPins.seen st0 (snd r))
  = LegacyPins.frames (LegacyPins.seen st0 d) /\
  exists smp,
    LegacyPins.sampled (snd r) = LegacyPins.sampled d ++ smp /\
    length smp = 8%nat /\
    fst r = LegacyPins.of_bits smp.
Proof.
  intros Hp Hcs r. subst r. unfold LegacyPins.spixfer.
  rewrite (software_sclk d Hp).
  destruct (spixfer_loop_seen st0 (wrap8 x) 8 0 d Hp (le_n 8) Hcs)
    as (Hs & Hc & Hsh & Hfr).
  split; [exact Hs|]. split; [exact Hc|].
  split; [rewrite Hsh, msb_first_wrap8 by lia; reflexivity|].
  split; [exact Hfr|].
  destruct Hp as (_ & _ & _ & Hi & _).
  destruct (spixfer_loop_reply (wrap8 x) 8 0 d ltac:(lia) Hi)
    as (smp & _ & Hsm & Hlen & Hfst).
  exists smp. split; [exact Hsm|]. split; [exact Hlen|].
  rewrite Hfst. pose proof (of_bits_range smp) as Hr. rewrite Hlen in Hr.
  apply wrap8_small. change (Z.of_nat 8) with 8 in Hr. lia.
Qed.

(** Chip select falls with the clock parked high: a frame starts. *)
Lemma seen_select (st0 : LegacyPins.slave) (d : LegacyPins.Device B) :
  LegacyPins.software_pins d ->
  LegacyPins.cs_level (LegacyPins.seen st0 d) = true ->
  let d' := LegacyPins.do_digitalWrite (LegacyPins._cs d) LegacyPins.LOW
              (LegacyPins.do_digitalWrite (LegacyPins._sclk d)
                                          LegacyPins.HIGH d) in
  LegacyPins.cs_level (LegacyPins.seen st0 d') = false /\
  LegacyPins.shifted (LegacyPins.seen st0 d') = [] /\
  LegacyPins.frames (LegacyPins.seen st0 d')
  = LegacyPins.frames (LegacyPins.seen st0 d).
Proof.
  intros (Hc & Hk & Hm & Hi & Hck & Hcm & Hkm) Hcs d'. subst d'.
  rewrite !seen_write.
  cbn [LegacyPins.do_digitalWrite LegacyPins.with_board
       LegacyPins._cs LegacyPins._sclk LegacyPins._mosi].
  destruct (LegacyPins.seen st0 d) as [c k m sh fr].
  cbn [LegacyPins.cs_level LegacyPins.frames] in *. subst c.
  rewrite !(wrap8_small (LegacyPins._sclk d)),
    !(wrap8_small (LegacyPins._cs d)) by (change (2 ^ 8) with 256; lia).
  unfold LegacyPins.sees.
  replace (LegacyPins._sclk d =? LegacyPins._cs d) with false
    by (symmetry; apply Z.eqb_neq; congruence).
  rewrite !Z.eqb_refl.
  change (negb (wrap8 LegacyPins.HIGH =? 0)) with true.
  change (negb (wrap8 LegacyPins.LOW =? 0)) with false.
  cbn [LegacyPins.cs_level LegacyPins.clk_level LegacyPins.mosi_level
       LegacyPins.shifted LegacyPins.frames negb andb].
  repeat split.
Qed.

(** Chip select rises: the frame is complete. *)
Lemma seen_release (st0 : LegacyPins.slave) (d : LegacyPins.Device B) :
  LegacyPins.software_pins d ->
  LegacyPins.cs_level (LegacyPins.seen st0 d) = false ->
  let d' := LegacyPins.do_digitalWrite (LegacyPins._cs d) LegacyPins.HIGH d in
  LegacyPins.cs_level (LegacyPins.seen st0 d') = true /\
  LegacyPins.shifted (LegacyPins.seen st0 d') = [] /\
  LegacyPins.frames (LegacyPins.seen st0 d')
  = LegacyPins.frames (LegacyPins.seen st0 d)
    ++ [LegacyPins.shifted (LegacyPins.seen st0 d)].
Proof.
  intros (Hc & Hk & Hm & Hi & Hck & Hcm & Hkm) Hcs d'. subst d'.
  rewrite !seen_write.
  destruct (LegacyPins.seen st0 d) as [c k m sh fr].
  cbn [LegacyPins.cs_level LegacyPins.frames LegacyPins.shifted] in *. subst c.
  rewrite !(wrap8_small (LegacyPins._cs d)) by (change (2 ^ 8) with 256; lia).
  unfold LegacyPins.sees.
  rewrite !Z.eqb_refl.
  change (negb (wrap8 LegacyPins.HIGH =? 0)) with true.
  cbn [LegacyPins.cs_level LegacyPins.clk_level LegacyPins.mosi_level
       LegacyPins.shifted LegacyPins.frames negb andb].
  repeat split.
Qed.

End PinFrames.

(** X14: with four pins, [spixfer] gives the chip the eight bits of its
    argument, most significant first, one at each rising clock edge, and
    returns the eight levels it read from the data input after those edges,
    most significant first; read back as a number, the bits the chip got
    are the argument. *)
Theorem spixfer_software :
  forall {B : Type} {Bd : LegacyPins.Board B} (st0 : LegacyPins.slave)
         (x : Z) (d : LegacyPins.Device B),
    LegacyPins.software_pins d ->
    LegacyPins.cs_level (LegacyPins.seen st0 d) = false ->
    let r := LegacyPins.spixfer x d in
    LegacyPins.shifted (LegacyPins.seen st0 (snd r))
    = LegacyPins.shifted (LegacyPins.seen st0 d) ++ LegacyPins.msb_first 8 x /\
    LegacyPins.of_bits (LegacyPins.msb_first 8 x) = wrap8 x /\
    LegacyPins.frames (LegacyPins.seen st0 (snd r))
    = LegacyPins.frames (LegacyPins.seen st0 d) /\
    exists smp,
      LegacyPins.sampled (snd r) = LegacyPins.sampled d ++ smp /\
      length smp = 8%nat /\
      fst r = LegacyPins.of_bits smp /\
      0 <= fst r < 2 ^ 8.
Proof.
  intros B Bd st0 x d Hp Hcs r.
  destruct (spixfer_seen st0 x d Hp Hcs)
    as (_ & _ & Hsh & Hfr & smp & Hsm & Hlen & Hfst).
  fold r in Hsh, Hfr, Hsm, Hfst.
  split; [exact Hsh|].
  split; [apply of_bits_msb_first|].
  split; [exact Hfr|].
  exists smp. split; [exact Hsm|]. split; [exact Hlen|].
  split; [exact Hfst|].
  rewrite Hfst. pose proof (of_bits_range smp) as Hr. rewrite Hlen in Hr.
  exact Hr.
Qed.

Lemma spixfer_software_witness :
  let d := LegacyPins.software_spi 10 11 12 13 (LegacyPins.Loopback.MkLines 11 12 0) in
  let st0 := LegacyPins.MkSlave false true false [] [] in
  LegacyPins.shifted (LegacyPins.seen st0 (snd (LegacyPins.spixfer 0xA5 d)))
  = [true; false; true; false; false; true; false; true] /\
  fst (LegacyPins.spixfer 0xA5 d) = 0xA5.
Proof.
  intros d st0.
  assert (Hp : LegacyPins.software_pins d)
    by (unfold LegacyPins.software_pins; cbn; lia).
  destruct (spixfer_software st0 0xA5 d Hp eq_refl) as (Hsh & _).
  split; [exact Hsh | reflexivity].
Defined.

Section PinTransactions.

Context {B : Type} {Bd : LegacyPins.Board B}.

Lemma writeRegister8_seen (st0 : LegacyPins.slave) (addr data : Z)
      (d : LegacyPins.Device B) :
  LegacyPins.software_pins d ->
  LegacyPins.cs_level (LegacyPins.seen st0 d) = true ->
  let d' := LegacyPins.writeRegister8 addr data d in
  LegacyPins.same_pins d d' /\
  LegacyPins.cs_level (LegacyPins.seen st0 d') = true /\
  LegacyPins.shifted (LegacyPins.seen st0 d') = [] /\
  LegacyPins.frames (LegacyPins.seen st0 d')
  = LegacyPins.frames (LegacyPins.seen st0 d)
    ++ [LegacyPins.msb_first 8 (Z.lor (wrap8 addr) 0x80)
        ++ LegacyPins.msb_first 8 data].
Proof.
  intros Hp Hcs d'. subst d'. unfold LegacyPins.writeRegister8.
  rewrite (software_sclk d Hp).
  set (d2 := LegacyPins.do_digitalWrite _ LegacyPins.LOW
               (LegacyPins.do_digitalWrite _ LegacyPins.HIGH d)).
  destruct (seen_select st0 d Hp Hcs) as (Hc2 & Hsh2 & Hfr2).
  change (LegacyPins.do_digitalWrite (LegacyPins._cs d) LegacyPins.LOW
            (LegacyPins.do_digitalWrite (LegacyPins._sclk d)
                                        LegacyPins.HIGH d))
    with d2 in Hc2, Hsh2, Hfr2.
  assert (Hs2 : LegacyPins.same_pins d d2) by (repeat split).
  assert (Hsm2 : LegacyPins.sampled d2 = LegacyPins.sampled d).
  { unfold LegacyPins.sampled, d2, LegacyPins.do_digitalWrite,
      LegacyPins.with_board.
    cbn [LegacyPins._miso LegacyPins.wire].
    rewrite !miso_samples_app. cbn [LegacyPins.miso_samples].
    rewrite !app_nil_r. reflexivity. }
  pose proof (software_pins_same d d2 Hs2 Hp) as Hp2.
  destruct (spixfer_seen st0 (wrap8 (Z.lor (wrap8 addr) 0x80)) d2 Hp2 Hc2)
    as (Hs3 & Hc3 & Hsh3 & Hfr3 & smp3 & Hsm3 & _).
  destruct (LegacyPins.spixfer (wrap8 (Z.lor (wrap8 addr) 0x80)) d2)
    as [r3 d3].
  cbn [snd] in Hs3, Hc3, Hsh3, Hfr3, Hsm3.
  pose proof (software_pins_same d2 d3 Hs3 Hp2) as Hp3.
  destruct (spixfer_seen st0 (wrap8 data) d3 Hp3 Hc3)
    as (Hs4 & Hc4 & Hsh4 & Hfr4 & smp4 & Hsm4 & _).
  destruct (LegacyPins.spixfer (wrap8 data) d3) as [r4 d4].
  cbn [snd] in Hs4, Hc4, Hsh4, Hfr4, Hsm4.
  pose proof (software_pins_same d3 d4 Hs4 Hp3) as Hp4.
  rewrite (software_sclk d4 Hp4).
  destruct (seen_release st0 d4 Hp4 Hc4) as (Hc5 & Hsh5 & Hfr5).
  set (d5 := LegacyPins.do_digitalWrite (LegacyPins._cs d4) LegacyPins.HIGH d4)
    in *.
  assert (Hs5 : LegacyPins.same_pins d4 d5) by (repeat split).
  split.
  { exact (same_pins_trans _ _ _ Hs2
             (same_pins_trans _ _ _ Hs3 (same_pins_trans _ _ _ Hs4 Hs5))). }
  split; [exact Hc5|]. split; [exact Hsh5|].
  rewrite Hfr5, Hfr4, Hfr3, Hfr2, Hsh4, Hsh3, Hsh2.
  rewrite !msb_first_wrap8 by lia. reflexivity.
Qed.

End PinTransactions.

Section PinReads.

Context {B : Type} {Bd : LegacyPins.Board B}.

Lemma read_loop_seen (st0 : LegacyPins.slave) :
  forall (n : nat) (d : LegacyPins.Device B),
    LegacyPins.software_pins d ->
    LegacyPins.cs_level (LegacyPins.seen st0 d) = false ->
    let r := LegacyPins.read_loop n d in
    LegacyPins.same_pins d (snd r) /\
    LegacyPins.cs_level (LegacyPins.seen st0 (snd r)) = false /\
    LegacyPins.shifted (LegacyPins.seen st0 (snd r))
    = LegacyPins.shifted (LegacyPins.seen st0 d)
      ++ concat (repeat (LegacyPins.msb_first 8 0xFF) n) /\
    LegacyPins.frames (LegacyPins.seen st0 (snd r))
    = LegacyPins.frames (LegacyPins.seen st0 d) /\
    exists smps,
      LegacyPins.sampled (snd r) = LegacyPins.sampled d ++ concat smps /\
      length smps = n /\
      Forall (fun l => length l = 8%nat) smps /\
      fst r = map LegacyPins.of_bits smps.
Proof.
  induction n as [|n IH]; intros d Hp Hcs r; subst r.
  - cbn [LegacyPins.read_loop fst snd repeat concat]. rewrite app_nil_r.
    split; [apply same_pins_refl|]. split; [exact Hcs|].
    split; [reflexivity|]. split; [reflexivity|].
    exists []. cbn [concat map]. rewrite app_nil_r.
    split; [reflexivity|]. split; [reflexivity|].
    split; [constructor | reflexivity].
  - cbn [LegacyPins.read_loop].
    destruct (spixfer_seen st0 0xFF d Hp Hcs)
      as (Hs1 & Hc1 & Hsh1 & Hfr1 & smp & Hsm1 & Hlen & Hfst).
    destruct (LegacyPins.spixfer 0xFF d) as [b d1].
    cbn [fst snd] in Hs1, Hc1, Hsh1, Hfr1, Hsm1, Hfst.
    pose proof (software_pins_same d d1 Hs1 Hp) as Hp1.
    destruct (IH d1 Hp1 Hc1) as (Hs2 & Hc2 & Hsh2 & Hfr2 & smps & Hsm2 & Hn & Hall & Hbuf).
    destruct (LegacyPins.read_loop n d1) as [bs d2].
    cbn [fst snd] in *.
    split; [exact (same_pins_trans _ _ _ Hs1 Hs2)|].
    split; [exact Hc2|].
    split; [rewrite Hsh2, Hsh1, <- app_assoc; reflexivity|].
    split; [rewrite Hfr2, Hfr1; reflexivity|].
    exists (smp :: smps). cbn [concat map].
    split; [rewrite Hsm2, Hsm1, <- app_assoc; reflexivity|].
    split; [cbn [length]; rewrite Hn; reflexivity|].
    split; [constructor; assumption|].
    rewrite Hfst, Hbuf. reflexivity.
Qed.

Lemma readRegisterN_seen (st0 : LegacyPins.slave) (addr : Z) (n : nat)
      (d : LegacyPins.Device B) :
  LegacyPins.software_pins d ->
  LegacyPins.cs_level (LegacyPins.seen st0 d) = true ->
  let r := LegacyPins.readRegisterN addr n d in
  LegacyPins.same_pins d (snd r) /\
  LegacyPins.cs_level (LegacyPins.seen st0 (snd r)) = true /\
  LegacyPins.shifted (LegacyPins.seen st0 (snd r)) = [] /\
  LegacyPins.frames (LegacyPins.seen st0 (snd r))
  = LegacyPins.frames (LegacyPins.seen st0 d)
    ++ [LegacyPins.msb_first 8 (Z.land (wrap8 addr) 0x7F)
        ++ concat (repeat (LegacyPins.msb_first 8 0xFF) n)] /\
  exists smp smps,
    LegacyPins.sampled (snd r)
    = LegacyPins.sampled d ++ smp ++ concat smps /\
    length smp = 8%nat /\
    length smps = n /\
    Forall (fun l => length l = 8%nat) smps /\
    fst r = map LegacyPins.of_bits smps.
Proof.
  intros Hp Hcs r. subst r. unfold LegacyPins.readRegisterN.
  rewrite (software_sclk d Hp).
  set (d2 := LegacyPins.do_digitalWrite _ LegacyPins.LOW
               (LegacyPins.do_digitalWrite _ LegacyPins.HIGH d)).
  destruct (seen_select st0 d Hp Hcs) as (Hc2 & Hsh2 & Hfr2).
  change (LegacyPins.do_digitalWrite (LegacyPins._cs d) LegacyPins.LOW
            (LegacyPins.do_digitalWrite (LegacyPins._sclk d)
                                        LegacyPins.HIGH d))
    with d2 in Hc2, Hsh2, Hfr2.
  assert (Hs2 : LegacyPins.same_pins d d2) by (repeat split).
  assert (Hsm2 : LegacyPins.sampled d2 = LegacyPins.sampled d).
  { unfold LegacyPins.sampled, d2, LegacyPins.do_digitalWrite,
      LegacyPins.with_board.
    cbn [LegacyPins._miso LegacyPins.wire].
    rewrite !miso_samples_app. cbn [LegacyPins.miso_samples].
    rewrite !app_nil_r. reflexivity. }
  pose proof (software_pins_same d d2 Hs2 Hp) as Hp2.
  destruct (spixfer_seen st0 (wrap8 (Z.land (wrap8 addr) 0x7F)) d2 Hp2 Hc2)
    as (Hs3 & Hc3 & Hsh3 & Hfr3 & smp3 & Hsm3 & Hlen3 & _).
  destruct (LegacyPins.spixfer (wrap8 (Z.land (wrap8 addr) 0x7F)) d2)
    as [r3 d3].
  cbn [snd] in Hs3, Hc3, Hsh3, Hfr3, Hsm3.
  pose proof (software_pins_same d2 d3 Hs3 Hp2) as Hp3.
  destruct (read_loop_seen st0 n d3 Hp3 Hc3)
    as (Hs4 & Hc4 & Hsh4 & Hfr4 & smps & Hsm4 & Hn & Hall & Hbuf).
  destruct (LegacyPins.read_loop n d3) as [buffer d4].
  cbn [fst snd] in Hs4, Hc4, Hsh4, Hfr4, Hsm4, Hbuf.
  pose proof (software_pins_same d3 d4 Hs4 Hp3) as Hp4.
  rewrite (software_sclk d4 Hp4).
  destruct (seen_release st0 d4 Hp4 Hc4) as (Hc5 & Hsh5 & Hfr5).
  set (d5 := LegacyPins.do_digitalWrite (LegacyPins._cs d4) LegacyPins.HIGH d4)
    in *.
  assert (Hs5 : LegacyPins.same_pins d4 d5) by (repeat split).
  assert (Hsm5 : LegacyPins.sampled d5 = LegacyPins.sampled d4).
  { unfold LegacyPins.sampled, d5, LegacyPins.do_digitalWrite,
      LegacyPins.with_board.
    cbn [LegacyPins._miso LegacyPins.wire].
    rewrite !miso_samples_app. cbn [LegacyPins.miso_samples].
    rewrite !app_nil_r. reflexivity. }
  cbn [fst snd].
  split.
  { exact (same_pins_trans _ _ _ Hs2
             (same_pins_trans _ _ _ Hs3 (same_pins_trans _ _ _ Hs4 Hs5))). }
  split; [exact Hc5|]. split; [exact Hsh5|].
  split.
  { rewrite Hfr5, Hfr4, Hfr3, Hfr2, Hsh4, Hsh3, Hsh2.
    rewrite !msb_first_wrap8 by lia. reflexivity. }
  exists smp3, smps.
  split; [rewrite Hsm5, Hsm4, Hsm3, Hsm2, <- app_assoc; reflexivity|].
  split; [exact Hlen3|]. split; [exact Hn|]. split; [exact Hall | exact Hbuf].
Qed.

End PinReads.

(** X15: with four pins, [writeRegister8] is one frame for the chip: chip
    select falls, sixteen bits are clocked in (the address with its top
    bit forced to one, then the data, each most significant bit first),
    and chip select rises again with nothing left over. *)
Theorem writeRegister8_software_frame :
  forall {B : Type} {Bd : LegacyPins.Board B} (st0 : LegacyPins.slave)
         (addr data : Z) (d : LegacyPins.Device B),
    LegacyPins.software_pins d ->
    LegacyPins.cs_level (LegacyPins.seen st0 d) = true ->
    let d' := LegacyPins.writeRegister8 addr data d in
    LegacyPins.frames (LegacyPins.seen st0 d')
    = LegacyPins.frames (LegacyPins.seen st0 d)
      ++ [LegacyPins.msb_first 8 (Z.lor (wrap8 addr) 0x80)
          ++ LegacyPins.msb_first 8 data] /\
    Z.testbit (Z.lor (wrap8 addr) 0x80) 7 = true /\
    LegacyPins.cs_level (LegacyPins.seen st0 d') = true /\
    LegacyPins.shifted (LegacyPins.seen st0 d') = [] /\
    LegacyPins.software_pins d'.
Proof.
  intros B Bd st0 addr data d Hp Hcs d'.
  destruct (writeRegister8_seen st0 addr data d Hp Hcs)
    as (Hs & Hc & Hsh & Hfr).
  fold d' in Hs, Hc, Hsh, Hfr.
  split; [exact Hfr|].
  split; [rewrite Z.lor_spec; apply orb_true_r|].
  split; [exact Hc|]. split; [exact Hsh|].
  exact (software_pins_same d d' Hs Hp).
Qed.

Lemma writeRegister8_software_frame_witness :
  let d := LegacyPins.software_spi 10 11 12 13
             (LegacyPins.Loopback.MkLines 11 12 0) in
  LegacyPins.frames
    (LegacyPins.seen (LegacyPins.idle false false)
                     (LegacyPins.writeRegister8 0x01 0x23 d))
  = [[true; false; false; false; false; false; false; true;
      false; false; true; false; false; false; true; true]].
Proof.
  intros d.
  assert (Hp : LegacyPins.software_pins d)
    by (unfold LegacyPins.software_pins; cbn; lia).
  destruct (writeRegister8_software_frame
              (LegacyPins.idle false false) 0x01 0x23 d Hp eq_refl)
    as (Hfr & _).
  exact Hfr.
Defined.

(** X16: with four pins, [readRegisterN] is one frame for the chip: the
    address with its top bit cleared, then [n] bytes of ones, all most
    significant bit first.  The buffer has [n] bytes, each spelled by the
    eight levels sampled on the data input during its eight clock cycles,
    the levels sampled during the address byte being dropped. *)
Theorem readRegisterN_software_frame :
  forall {B : Type} {Bd : LegacyPins.Board B} (st0 : LegacyPins.slave)
         (addr : Z) (n : nat) (d : LegacyPins.Device B),
    LegacyPins.software_pins d ->
    LegacyPins.cs_level (LegacyPins.seen st0 d) = true ->
    let r := LegacyPins.readRegisterN addr n d in
    LegacyPins.frames (LegacyPins.seen st0 (snd r))
    = LegacyPins.frames (LegacyPins.seen st0 d)
      ++ [LegacyPins.msb_first 8 (Z.land (wrap8 addr) 0x7F)
          ++ concat (repeat (LegacyPins.msb_first 8 0xFF) n)] /\
    Z.testbit (Z.land (wrap8 addr) 0x7F) 7 = false /\
    LegacyPins.cs_level (LegacyPins.seen st0 (snd r)) = true /\
    LegacyPins.shifted (LegacyPins.seen st0 (snd r)) = [] /\
    length (fst r) = n /\
    Forall (fun b => 0 <= b < 2 ^ 8) (fst r) /\
    exists smp smps,
      LegacyPins.sampled (snd r)
      = LegacyPins.sampled d ++ smp ++ concat smps /\
      length smp = 8%nat /\
      Forall (fun l => length l = 8%nat) smps /\
      fst r = map LegacyPins.of_bits smps.
Proof.
  intros B Bd st0 addr n d Hp Hcs r.
  destruct (readRegisterN_seen st0 addr n d Hp Hcs)
    as (Hs & Hc & Hsh & Hfr & smp & smps & Hsm & Hlen & Hn & Hall & Hbuf).
  fold r in Hs, Hc, Hsh, Hfr, Hsm, Hbuf.
  split; [exact Hfr|].
  split; [rewrite Z.land_spec; apply andb_false_r|].
  split; [exact Hc|]. split; [exact Hsh|].
  split; [rewrite Hbuf, length_map; exact Hn|].
  split.
  { rewrite Hbuf. apply Forall_map.
    eapply Forall_impl; [|exact Hall].
    intros l Hl. pose proof (of_bits_range l) as Hr. rewrite Hl in Hr.
    exact Hr. }
  exists smp, smps.
  split; [exact Hsm|]. split; [exact Hlen|]. split; [exact Hall | exact Hbuf].
Qed.

Lemma readRegisterN_software_frame_witness :
  let d := LegacyPins.software_spi 10 11 12 13
             (LegacyPins.Loopback.MkLines 11 12 0) in
  length (fst (LegacyPins.readRegisterN 0x8C 3 d)) = 3%nat /\
  fst (LegacyPins.readRegisterN 0x8C 3 d) = [0xFF; 0xFF; 0xFF].
Proof.
  intros d.
  assert (Hp : LegacyPins.software_pins d)
    by (unfold LegacyPins.software_pins; cbn; lia).
  destruct (readRegisterN_software_frame
              (LegacyPins.idle false false) 0x8C 3 d Hp eq_refl)
    as (_ & _ & _ & _ & Hlen & _).
  split; [exact Hlen | reflexivity].
Defined.

Lemma msb_first_ext (n : nat) (a b : Z) :
  (forall k, 0 <= k < Z.of_nat n -> Z.testbit a k = Z.testbit b k) ->
  LegacyPins.msb_first n a = LegacyPins.msb_first n b.
Proof.
  induction n as [|n IH]; intros H; [reflexivity|].
  cbn [LegacyPins.msb_first]. f_equal.
  - apply H. lia.
  - apply IH. intros k Hk. apply H. lia.
Qed.

Section PinBegin.

Context {B : Type} {Bd : LegacyPins.Board B}.

Lemma seen_pinMode (st0 : LegacyPins.slave) (p m : Z) (d : LegacyPins.Device B) :
  LegacyPins.seen st0 (LegacyPins.do_pinMode p m d) = LegacyPins.seen st0 d.
Proof.
  unfold LegacyPins.seen, LegacyPins.slave_view, LegacyPins.do_pinMode,
    LegacyPins.with_board.
  cbn [LegacyPins._cs LegacyPins._sclk LegacyPins._mosi LegacyPins.wire].
  rewrite fold_left_app. reflexivity.
Qed.

(** Chip select written high while it is high: nothing for the chip. *)
Lemma seen_deselect (st0 : LegacyPins.slave) (d : LegacyPins.Device B) :
  LegacyPins.software_pins d ->
  LegacyPins.cs_level (LegacyPins.seen st0 d) = true ->
  LegacyPins.seen st0
    (LegacyPins.do_digitalWrite (LegacyPins._cs d) LegacyPins.HIGH d)
  = LegacyPins.seen st0 d.
Proof.
  intros (Hc & _) Hcs. rewrite seen_write.
  rewrite (wrap8_small (LegacyPins._cs d)) by (change (2 ^ 8) with 256; lia).
  unfold LegacyPins.sees. rewrite Z.eqb_refl, Hcs.
  change (negb (wrap8 LegacyPins.HIGH =? 0)) with true. reflexivity.
Qed.

Lemma writeRegister8_sampled (st0 : LegacyPins.slave) (addr data : Z)
      (d : LegacyPins.Device B) :
  LegacyPins.software_pins d ->
  LegacyPins.cs_level (LegacyPins.seen st0 d) = true ->
  exists smp,
    LegacyPins.sampled (LegacyPins.writeRegister8 addr data d)
    = LegacyPins.sampled d ++ smp /\
    length smp = 16%nat.
Proof.
  intros Hp Hcs. unfold LegacyPins.writeRegister8.
  rewrite (software_sclk d Hp).
  set (d2 := LegacyPins.do_digitalWrite _ LegacyPins.LOW
               (LegacyPins.do_digitalWrite _ LegacyPins.HIGH d)).
  destruct (seen_select st0 d Hp Hcs) as (Hc2 & _).
  change (LegacyPins.do_digitalWrite (LegacyPins._cs d) LegacyPins.LOW
            (LegacyPins.do_digitalWrite (LegacyPins._sclk d)
                                        LegacyPins.HIGH d))
    with d2 in Hc2.
  assert (Hs2 : LegacyPins.same_pins d d2) by (repeat split).
  assert (Hsm2 : LegacyPins.sampled d2 = LegacyPins.sampled d).
  { unfold LegacyPins.sampled, d2, LegacyPins.do_digitalWrite,
      LegacyPins.with_board.
    cbn [LegacyPins._miso LegacyPins.wire].
    rewrite !miso_samples_app. cbn [LegacyPins.miso_samples].
    rewrite !app_nil_r. reflexivity. }
  pose proof (software_pins_same d d2 Hs2 Hp) as Hp2.
  destruct (spixfer_seen st0 (wrap8 (Z.lor (wrap8 addr) 0x80)) d2 Hp2 Hc2)
    as (Hs3 & Hc3 & _ & _ & smp3 & Hsm3 & Hlen3 & _).
  destruct (LegacyPins.spixfer (wrap8 (Z.lor (wrap8 addr) 0x80)) d2)
    as [r3 d3].
  cbn [snd] in Hs3, Hc3, Hsm3.
  pose proof (software_pins_same d2 d3 Hs3 Hp2) as Hp3.
  destruct (spixfer_seen st0 (wrap8 data) d3 Hp3 Hc3)
    as (Hs4 & _ & _ & _ & smp4 & Hsm4 & Hlen4 & _).
  destruct (LegacyPins.spixfer (wrap8 data) d3) as [r4 d4].
  cbn [snd] in Hs4, Hsm4.
  pose proof (software_pins_same d3 d4 Hs4 Hp3) as Hp4.
  rewrite (software_sclk d4 Hp4).
  exists (smp3 ++ smp4). split.
  - unfold LegacyPins.sampled at 1, LegacyPins.do_digitalWrite,
      LegacyPins.with_board.
    cbn [LegacyPins._miso LegacyPins.wire].
    rewrite miso_samples_app. cbn [LegacyPins.miso_samples].
    rewrite app_nil_r.
    change (LegacyPins.miso_samples (LegacyPins._miso d4) (LegacyPins.wire d4))
      with (LegacyPins.sampled d4).
    rewrite Hsm4, Hsm3, Hsm2, <- app_assoc. reflexivity.
  - rewrite length_app, Hlen3, Hlen4. reflexivity.
Qed.

Lemma setThermocoupleType_seen (st0 : LegacyPins.slave) (type : Z)
      (d : LegacyPins.Device B) :
  LegacyPins.software_pins d ->
  LegacyPins.cs_level (LegacyPins.seen st0 d) = true ->
  let d' := LegacyPins.setThermocoupleType type d in
  exists smp0 smp post,
    LegacyPins.sampled d' = LegacyPins.sampled d ++ smp0 ++ smp ++ post /\
    length smp0 = 8%nat /\ length smp = 8%nat /\ length post = 16%nat /\
    LegacyPins.same_pins d d' /\
    LegacyPins.cs_level (LegacyPins.seen st0 d') = true /\
    LegacyPins.frames (LegacyPins.seen st0 d')
    = LegacyPins.frames (LegacyPins.seen st0 d)
      ++ [LegacyPins.msb_first 8 0x01 ++ LegacyPins.msb_first 8 0xFF;
          LegacyPins.msb_first 8 0x81
          ++ LegacyPins.msb_first 8
               (Z.lor (Z.land (LegacyPins.of_bits smp) 0xF0)
                      (Z.land type 0x0F))].
Proof.
  intros Hp Hcs d'. subst d'.
  unfold LegacyPins.setThermocoupleType, LegacyPins.readRegister8.
  destruct (readRegisterN_seen st0 MAX31856_CR1_REG 1 d Hp Hcs)
    as (Hs & Hc & Hsh & Hfr & smp0 & smps & Hsm & Hlen & Hn & Hall & Hbuf).
  destruct (LegacyPins.readRegisterN MAX31856_CR1_REG 1 d) as [buffer d1].
  cbn [fst snd] in Hs, Hc, Hsh, Hfr, Hsm, Hbuf.
  pose proof (software_pins_same d d1 Hs Hp) as Hp1.
  destruct smps as [|smp [|l' smps]]; try discriminate Hn.
  inversion Hall as [|? ? Hl _]; subst.
  cbn [map nth concat] in *. rewrite app_nil_r in Hsm.
  match goal with
  | |- context [LegacyPins.writeRegister8 MAX31856_CR1_REG ?v d1] =>
      destruct (writeRegister8_seen st0 MAX31856_CR1_REG v d1 Hp1 Hc)
        as (Hs2 & Hc2 & Hsh2 & Hfr2);
      destruct (writeRegister8_sampled st0 MAX31856_CR1_REG v d1 Hp1 Hc)
        as (post & Hsm2 & Hpost)
  end.
  exists smp0, smp, post.
  split; [rewrite Hsm2, Hsm, <- !app_assoc; reflexivity|].
  split; [exact Hlen|]. split; [exact Hl|]. split; [exact Hpost|].
  split; [exact (same_pins_trans _ _ _ Hs Hs2)|].
  split; [exact Hc2|].
  rewrite Hfr2, Hfr, <- app_assoc. cbn [app repeat concat].
  rewrite app_nil_r.
  change (LegacyPins.msb_first 8 (Z.land (wrap8 MAX31856_CR1_REG) 0x7F))
    with (LegacyPins.msb_first 8 0x01).
  change (LegacyPins.msb_first 8 (Z.lor (wrap8 MAX31856_CR1_REG) 0x80))
    with (LegacyPins.msb_first 8 0x81).
  do 4 f_equal.
  apply msb_first_ext. intros k Hk. change (Z.of_nat 8) with 8 in Hk.
  rewrite wrap8_bit, !Z.lor_spec, wrap8_bit, !Z.land_spec, wrap8_bit by lia.
  reflexivity.
Qed.

End PinBegin.

(** X17: with four pins, the earlier revision's [begin] returns true
    whatever the chip answers, and all the chip gets are four frames: the
    fault mask cleared (0x82 0x00), the main configuration register set to
    open-circuit detection only (0x80 0x10), a read of the type register
    (0x01, then ones), and the type register written back (0x81, then the
    byte read with its low nibble replaced by 3, K).  The byte read is
    the one spelled, most significant bit first, by the eight levels
    sampled on the data input during the second byte of the read frame:
    the samples 41 to 48 of the 64 that [begin] takes.  Chip select is high
    at the end. *)
Theorem LegacyPins_begin_frames :
  forall {B : Type} {Bd : LegacyPins.Board B} (st0 : LegacyPins.slave)
         (d : LegacyPins.Device B),
    LegacyPins.software_pins d ->
    LegacyPins.cs_level (LegacyPins.seen st0 d) = true ->
    let r := LegacyPins.begin d in
    fst r = true /\
    LegacyPins.cs_level (LegacyPins.seen st0 (snd r)) = true /\
    exists pre smp post,
      LegacyPins.sampled (snd r)
      = LegacyPins.sampled d ++ pre ++ smp ++ post /\
      length pre = 40%nat /\ length smp = 8%nat /\ length post = 16%nat /\
      let t := LegacyPins.of_bits smp in
      0 <= t < 2 ^ 8 /\
      LegacyPins.frames (LegacyPins.seen st0 (snd r))
      = LegacyPins.frames (LegacyPins.seen st0 d)
        ++ [LegacyPins.msb_first 8 0x82 ++ LegacyPins.msb_first 8 0x00;
            LegacyPins.msb_first 8 0x80 ++ LegacyPins.msb_first 8 0x10;
            LegacyPins.msb_first 8 0x01 ++ LegacyPins.msb_first 8 0xFF;
            LegacyPins.msb_first 8 0x81
            ++ LegacyPins.msb_first 8 (Z.lor (Z.land t 0xF0) 0x03)].
Proof.
  intros B Bd st0 d Hp Hcs r. subst r. unfold LegacyPins.begin.
  set (d1 := LegacyPins.do_pinMode (LegacyPins._cs d) LegacyPins.OUTPUT d).
  assert (Hs1 : LegacyPins.same_pins d d1) by (repeat split).
  pose proof (software_pins_same d d1 Hs1 Hp) as Hp1.
  assert (Hv1 : LegacyPins.seen st0 d1 = LegacyPins.seen st0 d)
    by apply seen_pinMode.
  set (d2 := LegacyPins.do_digitalWrite (LegacyPins._cs d1) LegacyPins.HIGH d1).
  assert (Hs2 : LegacyPins.same_pins d d2) by (repeat split).
  pose proof (software_pins_same d d2 Hs2 Hp) as Hp2.
  assert (Hv2 : LegacyPins.seen st0 d2 = LegacyPins.seen st0 d).
  { unfold d2. rewrite seen_deselect; [exact Hv1 | exact Hp1 |].
    rewrite Hv1. exact Hcs. }
  rewrite (software_sclk d2 Hp2). cbn [negb].
  set (d3 := LegacyPins.do_pinMode (LegacyPins._miso _) LegacyPins.INPUT _).
  assert (Hs3 : LegacyPins.same_pins d d3) by (repeat split).
  pose proof (software_pins_same d d3 Hs3 Hp) as Hp3.
  assert (Hv3 : LegacyPins.seen st0 d3 = LegacyPins.seen st0 d).
  { unfold d3. rewrite !seen_pinMode. exact Hv2. }
  assert (Hm3 : LegacyPins.sampled d3 = LegacyPins.sampled d).
  { unfold LegacyPins.sampled, d3, d2, d1, LegacyPins.do_pinMode,
      LegacyPins.do_digitalWrite, LegacyPins.with_board.
    cbn [LegacyPins._miso LegacyPins._sclk LegacyPins._mosi LegacyPins._cs
         LegacyPins.wire].
    rewrite !miso_samples_app. cbn [LegacyPins.miso_samples].
    rewrite !app_nil_r. reflexivity. }
  assert (Hc3 : LegacyPins.cs_level (LegacyPins.seen st0 d3) = true)
    by (rewrite Hv3; exact Hcs).
  destruct (writeRegister8_seen st0 MAX31856_MASK_REG 0x0 d3 Hp3 Hc3)
    as (Hs4 & Hc4 & _ & Hfr4).
  destruct (writeRegister8_sampled st0 MAX31856_MASK_REG 0x0 d3 Hp3 Hc3)
    as (p4 & Hm4 & Hl4).
  set (d4 := LegacyPins.writeRegister8 MAX31856_MASK_REG 0x0 d3) in *.
  pose proof (software_pins_same d3 d4 Hs4 Hp3) as Hp4.
  destruct (writeRegister8_seen st0 MAX31856_CR0_REG MAX31856_CR0_OCFAULT0
                                d4 Hp4 Hc4)
    as (Hs5 & Hc5 & _ & Hfr5).
  destruct (writeRegister8_sampled st0 MAX31856_CR0_REG MAX31856_CR0_OCFAULT0
                                   d4 Hp4 Hc4)
    as (p5 & Hm5 & Hl5).
  set (d5 := LegacyPins.writeRegister8 MAX31856_CR0_REG
               MAX31856_CR0_OCFAULT0 d4) in *.
  pose proof (software_pins_same d4 d5 Hs5 Hp4) as Hp5.
  destruct (setThermocoupleType_seen st0 (tctype_code MAX31856_TCTYPE_K)
                                     d5 Hp5 Hc5)
    as (smp0 & smp & post & Hm6 & Hl0 & Hl & Hlp & Hs6 & Hc6 & Hfr6).
  cbn [fst snd].
  split; [reflexivity|]. split; [exact Hc6|].
  exists (p4 ++ p5 ++ smp0), smp, post.
  split; [rewrite Hm6, Hm5, Hm4, Hm3, <- !app_assoc; reflexivity|].
  split; [rewrite !length_app, Hl4, Hl5, Hl0; reflexivity|].
  split; [exact Hl|]. split; [exact Hlp|].
  cbv zeta. split.
  { pose proof (of_bits_range smp) as Hr. rewrite Hl in Hr. exact Hr. }
  rewrite Hfr6, Hfr5, Hfr4, Hv3, <- !app_assoc. reflexivity.
Qed.

Lemma LegacyPins_begin_frames_witness :
  let d := LegacyPins.software_spi 10 11 12 13
             (LegacyPins.Loopback.MkLines 11 12 0) in
  fst (LegacyPins.begin d) = true /\
  LegacyPins.frames
    (LegacyPins.seen (LegacyPins.idle false false)
                     (snd (LegacyPins.begin d)))
  = [LegacyPins.msb_first 8 0x82 ++ LegacyPins.msb_first 8 0x00;
     LegacyPins.msb_first 8 0x80 ++ LegacyPins.msb_first 8 0x10;
     LegacyPins.msb_first 8 0x01 ++ LegacyPins.msb_first 8 0xFF;
     LegacyPins.msb_first 8 0x81 ++ LegacyPins.msb_first 8 0xF3].
Proof.
  intros d.
  assert (Hp : LegacyPins.software_pins d)
    by (unfold LegacyPins.software_pins; cbn; lia).
  destruct (LegacyPins_begin_frames (LegacyPins.idle false false) d Hp eq_refl)
    as (Hr & _ & pre & smp & post & _).
  split; [exact Hr | reflexivity].
Defined.

Section ObjectState.

Context {W : Type} {P : Platform W}.

Variable I : Driver W -> Prop.
Hypothesis HI :
  forall s s' : Driver W,
    conversionMode s' = conversionMode s ->
    initialized s' = initialized s -> I s -> I s'.

Lemma kept_dev_write (bytes : list byte) : preserves I (dev_write bytes).
Proof. intros s H. apply (HI s); [reflexivity | reflexivity | exact H]. Qed.

Lemma kept_dev_write_then_read (wr : list byte) (n : nat) :
  preserves I (dev_write_then_read wr n).
Proof.
  intros s H. unfold dev_write_then_read.
  destruct (spi_write_then_read wr n (world s)).
  apply (HI s); [reflexivity | reflexivity | exact H].
Qed.

Lemma kept_dev_delay (ms : Z) : preserves I (dev_delay ms).
Proof. intros s H. apply (HI s); [reflexivity | reflexivity | exact H]. Qed.

Lemma kept_writeRegister8 (addr data : Z) :
  preserves I (writeRegister8 addr data).
Proof. apply kept_dev_write. Qed.

Lemma kept_readRegisterN (addr : Z) (n : nat) :
  preserves I (readRegisterN addr n).
Proof. apply kept_dev_write_then_read. Qed.

Lemma kept_readRegister8 (addr : Z) : preserves I (readRegister8 addr).
Proof.
  apply preserves_bind; [apply kept_readRegisterN|].
  intros a. apply preserves_ret.
Qed.

Lemma kept_readRegister16 (addr : Z) : preserves I (readRegister16 addr).
Proof.
  apply preserves_bind; [apply kept_readRegisterN|].
  intros a. apply preserves_ret.
Qed.

Lemma kept_readRegister24 (addr : Z) : preserves I (readRegister24 addr).
Proof.
  apply preserves_bind; [apply kept_readRegisterN|].
  intros a. apply preserves_ret.
Qed.

Lemma kept_conversionComplete : preserves I conversionComplete.
Proof.
  apply preserves_bind; [apply preserves_get_mode|]. intros m.
  apply preserves_if; [apply preserves_ret|].
  apply preserves_bind; [apply kept_readRegister8|].
  intros t. apply preserves_ret.
Qed.

Lemma kept_triggerOneShot : preserves I triggerOneShot.
Proof.
  apply preserves_bind; [apply preserves_get_mode|]. intros m.
  apply preserves_if; [apply preserves_ret|].
  apply preserves_bind; [apply kept_readRegister8|].
  intros t. apply kept_writeRegister8.
Qed.

Lemma kept_wait_conversion (fuel : nat) (start : Z) :
  preserves I (wait_conversion fuel start).
Proof.
  induction fuel as [|fuel IH]; cbn [wait_conversion];
    [apply preserves_ret|].
  apply preserves_bind; [apply kept_conversionComplete|]. intros c.
  apply preserves_if; [apply preserves_ret|].
  apply preserves_bind; [apply preserves_dev_millis|]. intros now.
  apply preserves_if; [apply preserves_ret|].
  apply preserves_bind; [apply kept_dev_delay|]. intros _. exact IH.
Qed.

Lemma kept_readThermocoupleTemperature (fuel : nat) :
  preserves I (readThermocoupleTemperature fuel).
Proof.
  apply preserves_bind; [apply preserves_get_mode|]. intros m.
  apply preserves_bind.
  - apply preserves_if; [|apply preserves_ret].
    apply preserves_bind; [apply kept_triggerOneShot|]. intros _.
    apply preserves_bind; [apply preserves_dev_millis|]. intros start.
    apply kept_wait_conversion.
  - intros [| |]; try apply preserves_ret.
    apply preserves_bind; [apply kept_readRegister24|].
    intros raw. apply preserves_ret.
Qed.

Lemma kept_run_op (fuel : nat) (o : op) :
  sets_object_state o = false -> preserves I (run_op fuel o).
Proof.
  destruct o; cbn [sets_object_state run_op]; intros Ho;
    try discriminate Ho; unfold ignore.
  - apply preserves_bind; [apply preserves_get_mode|].
    intros _. apply preserves_ret.
  - apply preserves_bind; [apply kept_readRegister8|].
    intros t. apply kept_writeRegister8.
  - apply preserves_bind; [|intros _; apply preserves_ret].
    apply preserves_bind; [apply kept_readRegister8|].
    intros t. apply preserves_ret.
  - apply preserves_bind; [|intros _; apply preserves_ret].
    apply kept_readRegister8.
  - apply kept_triggerOneShot.
  - apply preserves_bind; [|intros _; apply preserves_ret].
    apply kept_conversionComplete.
  - apply preserves_bind; [|intros _; apply preserves_ret].
    apply preserves_bind; [apply kept_readRegister16|].
    intros r. apply preserves_ret.
  - apply preserves_bind; [|intros _; apply preserves_ret].
    apply kept_readThermocoupleTemperature.
  - unfold setTempFaultThreshholds.
    repeat (apply preserves_bind; [apply kept_writeRegister8|]; intros _).
    apply kept_writeRegister8.
  - apply preserves_bind; [apply kept_writeRegister8|].
    intros _. apply kept_writeRegister8.
  - apply preserves_bind; [apply kept_readRegister8|].
    intros t. apply kept_writeRegister8.
Qed.

Lemma kept_run_ops (fuel : nat) (os : list op) :
  forallb (fun o => negb (sets_object_state o)) os = true ->
  preserves I (run_ops fuel os).
Proof.
  induction os as [|o os IH]; cbn [forallb run_ops]; intros H.
  - apply preserves_ret.
  - apply andb_prop in H. destruct H as [Ho Hos].
    apply preserves_bind.
    + apply kept_run_op. destruct (sets_object_state o); [discriminate|reflexivity].
    + intros _. apply IH. exact Hos.
Qed.

End ObjectState.

(** X18: only [begin] and [setConversionMode] change what the object
    remembers: after any sequence of the other member functions, whatever
    the device answered, the stored conversion mode (what
    [getConversionMode] returns) and the initialized flag are what they
    were. *)
Theorem object_state_changes_only_by_begin_and_setConversionMode :
  forall {W : Type} {P : Platform W} (fuel : nat) (os : list op)
         (s : Driver W),
    forallb (fun o => negb (sets_object_state o)) os = true ->
    let s' := snd (run_ops fuel os s) in
    conversionMode s' = conversionMode s /\
    initialized s' = initialized s /\
    fst (getConversionMode s') = fst (getConversionMode s).
Proof.
  intros W P fuel os s Hos s'.
  assert (H : conversionMode s' = conversionMode s
              /\ initialized s' = initialized s).
  { apply (kept_run_ops
             (fun t => conversionMode t = conversionMode s
                       /\ initialized t = initialized s)).
    - intros t t' Hm Hi [H1 H2]. split; congruence.
    - exact Hos.
    - split; reflexivity. }
  destruct H as [H1 H2]. split; [exact H1|]. split; [exact H2|].
  unfold getConversionMode, get_mode. cbn [fst]. exact H1.
Qed.

Lemma object_state_changes_only_by_begin_and_setConversionMode_witness :
  let s := SimChip.handle MAX31856_ONESHOT_NOWAIT [(0x00, 0x10)] in
  conversionMode
    (snd (run_ops 30 [OpTriggerOneShot; OpConversionComplete;
                      OpReadThermocoupleTemperature; OpReadFault;
                      OpSetNoiseFilter MAX31856_NOISE_FILTER_50HZ] s))
  = MAX31856_ONESHOT_NOWAIT.
Proof.
  intros s.
  apply (object_state_changes_only_by_begin_and_setConversionMode
           30 [OpTriggerOneShot; OpConversionComplete;
               OpReadThermocoupleTemperature; OpReadFault;
               OpSetNoiseFilter MAX31856_NOISE_FILTER_50HZ] s).
  reflexivity.
Defined.

Section PinHardware.

Context {B : Type} {Bd : LegacyPins.Board B}.

Lemma spixfer_hardware (x : Z) (d : LegacyPins.Device B) :
  LegacyPins._sclk d = -1 ->
  let r := LegacyPins.spixfer x d in
  0 <= fst r < 2 ^ 8 /\
  LegacyPins._sclk (snd r) = -1 /\
  LegacyPins._cs (snd r) = LegacyPins._cs d /\
  LegacyPins.wire (snd r)
  = LegacyPins.wire d ++ [LegacyPins.SpiTransfer (wrap8 x) (fst r)].
Proof.
  intros Hk r. subst r. unfold LegacyPins.spixfer. rewrite Hk.
  change (-1 =? -1) with true. cbv iota.
  unfold LegacyPins.do_SPI_transfer. rewrite wrap8_idem.
  destruct (LegacyPins.SPI_transfer (wrap8 x) (LegacyPins.board d)) as [v b].
  cbn [fst snd LegacyPins.with_board LegacyPins._sclk LegacyPins._cs
       LegacyPins.wire].
  split; [apply wrap8_range|]. split; [exact Hk|].
  split; reflexivity.
Qed.

Lemma read_loop_hardware :
  forall (n : nat) (d : LegacyPins.Device B),
    LegacyPins._sclk d = -1 ->
    let r := LegacyPins.read_loop n d in
    length (fst r) = n /\
    Forall (fun b => 0 <= b < 2 ^ 8) (fst r) /\
    LegacyPins._sclk (snd r) = -1 /\
    LegacyPins._cs (snd r) = LegacyPins._cs d /\
    LegacyPins.wire (snd r)
    = LegacyPins.wire d ++ map (LegacyPins.SpiTransfer 0xFF) (fst r).
Proof.
  induction n as [|n IH]; intros d Hk r; subst r.
  - cbn [LegacyPins.read_loop fst snd length map]. rewrite app_nil_r.
    split; [reflexivity|]. split; [constructor|].
    split; [exact Hk|]. split; reflexivity.
  - cbn [LegacyPins.read_loop].
    destruct (spixfer_hardware 0xFF d Hk) as (Hr & Hk1 & Hc1 & Hw1).
    destruct (LegacyPins.spixfer 0xFF d) as [b d1].
    cbn [fst snd] in Hr, Hk1, Hc1, Hw1.
    destruct (IH d1 Hk1) as (Hlen & Hall & Hk2 & Hc2 & Hw2).
    destruct (LegacyPins.read_loop n d1) as [bs d2].
    cbn [fst snd] in *.
    split; [cbn [length]; rewrite Hlen; reflexivity|].
    split; [constructor; assumption|].
    split; [exact Hk2|]. split; [congruence|].
    rewrite Hw2, Hw1, <- app_assoc. reflexivity.
Qed.

End PinHardware.

(** X19: constructed with the chip-select pin only, [readRegisterN] never
    touches another pin: inside one SPI transaction it pulls chip select
    low, transfers the address with its top bit cleared, then 0xFF [n]
    times, ends the transaction and raises chip select; the buffer is
    exactly the [n] bytes those transfers returned, in order. *)
Theorem readRegisterN_hardware :
  forall {B : Type} {Bd : LegacyPins.Board B} (addr : Z) (n : nat)
         (d : LegacyPins.Device B),
    LegacyPins._sclk d = -1 ->
    let r := LegacyPins.readRegisterN addr n d in
    let cs := wrap8 (LegacyPins._cs d) in
    exists b0,
      LegacyPins.wire (snd r)
      = LegacyPins.wire d
        ++ [LegacyPins.SpiBeginTransaction;
            LegacyPins.PinWrite cs 0;
            LegacyPins.SpiTransfer (Z.land (wrap8 addr) 0x7F) b0]
        ++ map (LegacyPins.SpiTransfer 0xFF) (fst r)
        ++ [LegacyPins.SpiEndTransaction; LegacyPins.PinWrite cs 1] /\
      length (fst r) = n /\
      Forall (fun b => 0 <= b < 2 ^ 8) (fst r).
Proof.
  intros B Bd addr n d Hk r cs. subst r cs.
  unfold LegacyPins.readRegisterN. rewrite Hk.
  change (-1 =? -1) with true. cbv iota.
  set (d2 := LegacyPins.do_digitalWrite (LegacyPins._cs _) LegacyPins.LOW
               (LegacyPins.do_SPI_beginTransaction d)).
  assert (Hk2 : LegacyPins._sclk d2 = -1) by exact Hk.
  assert (Hw2 : LegacyPins.wire d2
                = LegacyPins.wire d
                  ++ [LegacyPins.SpiBeginTransaction;
                      LegacyPins.PinWrite (wrap8 (LegacyPins._cs d)) 0]).
  { unfold d2, LegacyPins.do_digitalWrite, LegacyPins.do_SPI_beginTransaction,
      LegacyPins.with_board.
    cbn [LegacyPins.wire LegacyPins._cs]. rewrite <- app_assoc. reflexivity. }
  destruct (spixfer_hardware (wrap8 (Z.land (wrap8 addr) 0x7F)) d2 Hk2)
    as (_ & Hk3 & Hc3 & Hw3).
  destruct (LegacyPins.spixfer (wrap8 (Z.land (wrap8 addr) 0x7F)) d2)
    as [b0 d3].
  cbn [fst snd] in Hk3, Hc3, Hw3.
  destruct (read_loop_hardware n d3 Hk3) as (Hlen & Hall & Hk4 & Hc4 & Hw4).
  destruct (LegacyPins.read_loop n d3) as [buffer d4].
  cbn [fst snd] in Hlen, Hall, Hk4, Hc4, Hw4.
  rewrite Hk4. change (-1 =? -1) with true. cbv iota.
  cbn [fst snd]. exists b0.
  split; [|split; assumption].
  unfold LegacyPins.do_digitalWrite, LegacyPins.do_SPI_endTransaction,
    LegacyPins.with_board.
  cbn [LegacyPins.wire LegacyPins._cs].
  rewrite Hw4, Hw3, Hw2, Hc4, Hc3.
  change (LegacyPins._cs d2) with (LegacyPins._cs d).
  rewrite wrap8_idem.
  assert (Ea : wrap8 (Z.land (wrap8 addr) 0x7F) = Z.land (wrap8 addr) 0x7F).
  { apply wrap8_small.
    pose proof (Z.land_nonneg (wrap8 addr) 0x7F) as [_ Hn].
    pose proof (wrap8_range addr) as Hr.
    split; [apply Hn; left; lia|].
    change 0x7F with (Z.ones 7). rewrite Z.land_ones by lia.
    pose proof (Z.mod_pos_bound (wrap8 addr) (2 ^ 7) ltac:(lia)).
    change (2 ^ 7) with 128 in *. change (2 ^ 8) with 256. lia. }
  rewrite Ea. rewrite <- !app_assoc. reflexivity.
Qed.

Lemma readRegisterN_hardware_witness :
  let d := LegacyPins.hardware_spi 10 (LegacyPins.Loopback.MkLines 11 12 0) in
  length (fst (LegacyPins.readRegisterN 0x0C 3 d)) = 3%nat.
Proof.
  intros d.
  destruct (readRegisterN_hardware 0x0C 3 d eq_refl) as (b0 & _ & Hlen & _).
  exact Hlen.
Defined.

Section SketchSetup.

Context {W : Type} {P : Platform W}.
Hypothesis Hrf : register_file.

Lemma run_ops_cons (fuel : nat) (o : op) (os : list op) (s : Driver W) :
  snd (run_ops fuel (o :: os) s)
  = snd (run_ops fuel os (snd (run_op fuel o s))).
Proof. cbn [run_ops]. rewrite bind_run. reflexivity. Qed.

Lemma ignore_run {A : Type} (m : M W A) (s : Driver W) :
  snd (ignore m s) = snd (m s).
Proof. unfold ignore. rewrite bind_run. reflexivity. Qed.

(** The registers after a successful [begin]. *)
Lemma peek_begin (s : Driver W) (r : Z) :
  fst (spi_begin (world s)) = true ->
  0 <= r < 16 ->
  peek r (world (snd (begin s))) =
  if r =? MAX31856_CR0_REG then 0x50
  else if r =? MAX31856_CR1_REG
       then wrap8 (cr1_with_type (peek MAX31856_CR1_REG (world s))
                                 (tctype_code MAX31856_TCTYPE_K))
  else if r =? MAX31856_CJTO_REG then 0
  else if r =? MAX31856_MASK_REG then 0
  else peek r (world s).
Proof.
  intros Hok Hr. rewrite (begin_run s Hok). cbn [snd]. cbv zeta.
  rewrite (peek_setConversionMode Hrf), !(peek_setThermocoupleType Hrf),
    !(peek_writeRegister8 Hrf) by (assumption || reg_range).
  change (snd (set_initialized true (snd (dev_begin s))))
    with (MkDriver true (conversionMode (snd (dev_begin s)))
                   (world (snd (dev_begin s))) (trace (snd (dev_begin s)))).
  cbn [world]. rewrite !(peek_dev_begin Hrf) by (assumption || reg_range).
  destruct (r =? MAX31856_CR0_REG) eqn:E0; [reflexivity|].
  destruct (r =? MAX31856_CR1_REG) eqn:E1; [reflexivity|].
  destruct (r =? MAX31856_CJTO_REG) eqn:E9; [reflexivity|].
  destruct (r =? MAX31856_MASK_REG) eqn:E2; reflexivity.
Qed.

Lemma conversionComplete_continuous (s : Driver W) :
  is_continuous (conversionMode s) = true -> conversionComplete s = (true, s).
Proof.
  intros H. unfold conversionComplete, bind, get_mode. rewrite H. reflexivity.
Qed.

End SketchSetup.

(** X20: the driver calls of the continuous example's [setup] ([begin],
    [setThermocoupleType(MAX31856_TCTYPE_K)], [getThermocoupleType],
    [setConversionMode(MAX31856_CONTINUOUS)]), on a device that only
    stores and whose transport is acquired, leave the main configuration
    register at 0x90 (open-circuit detection and AUTOCONVERT, ONE_SHOT
    clear), the type read back as K, and the stored mode continuous, so
    that [conversionComplete] answers true without a transaction and a
    later [readThermocoupleTemperature] does not wait. *)
Theorem continuous_example_setup :
  forall {W : Type} {P : Platform W} (fuel : nat) (s : Driver W),
    register_file ->
    fst (spi_begin (world s)) = true ->
    let s' := snd (run_ops fuel
                     [OpBegin;
                      OpSetThermocoupleType (tctype_code MAX31856_TCTYPE_K);
                      OpGetThermocoupleType;
                      OpSetConversionMode MAX31856_CONTINUOUS] s) in
    peek MAX31856_CR0_REG (world s') = 0x90 /\
    fst (getThermocoupleType s') = tctype_code MAX31856_TCTYPE_K /\
    conversionMode s' = MAX31856_CONTINUOUS /\
    conversionComplete s' = (true, s') /\
    exists q bs,
      readThermocoupleTemperature fuel s' =
      (Some (FNum q),
       after_read s' MAX31856_LTCBH_REG 3 bs
                  (snd (spi_write_then_read [Byte.x0c] 3 (world s')))).
Proof.
  intros W P fuel s Hrf Hok s'. subst s'.
  rewrite !run_ops_cons. cbn [run_ops run_op].
  change (snd (ret tt ?x)) with x.
  rewrite !ignore_run.
  set (s1 := snd (begin s)).
  set (s2 := snd (setThermocoupleType (tctype_code MAX31856_TCTYPE_K) s1)).
  set (s3 := snd (getThermocoupleType s2)).
  set (s4 := snd (setConversionMode MAX31856_CONTINUOUS s3)).
  assert (H3 : forall r, 0 <= r < 16 -> peek r (world s3) = peek r (world s2)).
  { intros r Hr. unfold s3, getThermocoupleType. rewrite bind_run.
    unfold ret. cbn [snd]. apply (peek_readRegister8 Hrf). exact Hr. }
  assert (Hmode : conversionMode s4 = MAX31856_CONTINUOUS).
  { unfold s4. rewrite setConversionMode_run, conversionMode_rmw. reflexivity. }
  assert (H0 : peek MAX31856_CR0_REG (world s4) = 0x90).
  { unfold s4. rewrite (peek_setConversionMode Hrf) by reg_range.
    change (MAX31856_CR0_REG =? MAX31856_CR0_REG) with true. cbv iota.
    rewrite H3 by reg_range. unfold s2.
    rewrite (peek_setThermocoupleType Hrf) by reg_range.
    change (MAX31856_CR0_REG =? MAX31856_CR1_REG) with false. cbv iota.
    unfold s1. rewrite (peek_begin Hrf s _ Hok) by reg_range.
    reflexivity. }
  assert (H1 : peek MAX31856_CR1_REG (world s4) mod 16
               = tctype_code MAX31856_TCTYPE_K).
  { unfold s4. rewrite (peek_setConversionMode Hrf) by reg_range.
    change (MAX31856_CR1_REG =? MAX31856_CR0_REG) with false. cbv iota.
    rewrite H3 by reg_range. unfold s2.
    rewrite (peek_setThermocoupleType Hrf) by reg_range.
    change (MAX31856_CR1_REG =? MAX31856_CR1_REG) with true. cbv iota.
    rewrite <- land_0F. apply type_nibble_low. vm_compute.
    split; [discriminate | reflexivity]. }
  split; [exact H0|].
  split; [rewrite getThermocoupleType_peek; exact H1|].
  split; [exact Hmode|].
  split.
  { apply conversionComplete_continuous. rewrite Hmode. reflexivity. }
  destruct (spi_write_then_read [Byte.x0c] 3 (world s4)) as [bs w] eqn:E.
  eexists. exists bs.
  rewrite (readThermocoupleTemperature_nowait fuel s4) with (bs := bs) (w := w);
    [reflexivity | rewrite Hmode; reflexivity | exact E].
Qed.

Lemma continuous_example_setup_witness :
  let s := SimChip.handle MAX31856_ONESHOT [(0x00, 0x01); (0x01, 0x27)] in
  peek MAX31856_CR0_REG
    (world (snd (run_ops 30
                   [OpBegin;
                    OpSetThermocoupleType (tctype_code MAX31856_TCTYPE_K);
                    OpGetThermocoupleType;
                    OpSetConversionMode MAX31856_CONTINUOUS] s))) = 0x90.
Proof.
  intros s.
  apply (continuous_example_setup 30 s SimChip_register_file eq_refl).
Defined.
